(* ===== verification/_CoqProject ===== *)
-Q . S2P
Spec2Rocq.v
Js.v
Abi.v
Upkeep.v
Ledger.v
World.v
Ethers.v
Hardhat.v
Finish.v
Fixtures.v
KeeperSimulationTask.v
KeeperTestTask.v
Deploy.v
Cli.v
Workflow.v
