(* ===== verification/Spec2Rocq.v ===== *)
(** * Keeper scripts of hardhat-starter-kit: a verified model

    ** The program

    The repository holds three JavaScript scripts run by Hardhat:
    - [src/deploy/05_Deploy_KeeperSimulation.js], a hardhat-deploy step:
      it reads the named account [deployer] and the chain id, silences the
      ethers logger below [ERROR], reads the network's name in
      [networkConfig], fetches the deployment record ["Counter"], deploys
      ["KeeperSimulation"] with the Counter's address as its constructor
      argument, and prints the [keeper-test] command naming the new
      address.
    - [src/tasks/keeper-simulation/keeper-simulation.js], the task
      [keeper-simulation --contract A]: it binds the Counter ABI to [A],
      encodes the current Unix time as an ABI [uint], simulates
      [checkUpkeep(bytes)] and, when the boolean it returns is truthy,
      sends a [performUpkeep(0x00)] transaction and prints its hash.
    - [src/tasks/keeper-tester/check-upkeep.js], the task
      [keeper-test --contract A]: it binds the KeeperSimulation ABI to [A],
      sends a [checkUpkeep()] transaction, prints its hash, then reads
      [getUpkeepNeeded()] without waiting for the transaction to be mined.

    The scripts share no memory.  They interact through the chain (the
    contracts and their storage), the hardhat-deploy registry, and the
    address an operator copies from the deploy log to a task's command
    line.  Each script is a program of the monad [ST] of this file over
    the world of [World.v]: every [await] is a point where the node may
    mine, every [console.log] or [log] appends a line, every exception is
    an outcome [Thrown].

    ** Files, in dependency order

    - [Spec2Rocq.v] (this file): the prelude.  The script monad [ST]
      (state and exceptions, with a [Blocked] outcome for a promise that
      never settles), its laws, the equivalence [st_eq] with its [Proper]
      instance for setoid rewriting, the hint database [s2p], the tactic
      [run_script], and lemmas on [Z.div] and finite sets of addresses.
    - [Js.v] ([Module Js]): JavaScript values and errors; truthiness
      ([if (boolValue)]), indexing and destructuring ([{0: a, 1: b} = r]),
      [.hash], [ToString] and the line [console.log] prints.
    - [Abi.v] ([Module Abi]): bytes, big-endian words and hex strings; the
      seconds of line 18 ([unix_seconds]); [BigNumber.from] and the
      [uint] coder of line 19 ([encode_uint]); the arrayification of the
      number [0x00] of line 27; addresses and [getAddress]; the ABI types,
      values and fragments.
    - [Upkeep.v] ([Module Upkeep]): the keeper-compatible interface of the
      Counter as the class [UpkeepContract] with the laws [UpkeepLaws] the
      spec states, and the interval Counter as an instance.  The contracts
      are not under [src/]: they are modelled from the spec.  The
      abstract round of the keeper network ([keeper_round]) is the
      specification [keeper-simulation] refines.
    - [Ledger.v] ([Module Ledger]): the chain: code and storage by address
      (the Counter, or a KeeperSimulation holding its Counter's address
      and the last answer it got), the pool of submitted transactions,
      blocks with timestamps, receipts.  [exec_call] runs a contract
      function, [simulate] is [eth_call], [apply_tx] and [mine_block] mine,
      [submit_tx] submits.  [chain_step_by P] is the step relation, the
      submissions restricted to [P].
    - [World.v] ([Module World]): the world a script runs in (chain,
      automining flag, mining schedule, clock, console, log level, chain
      id, network, [networkConfig], accounts, registry, artifacts), the
      node's operations ([node_tick], [send_tx], [eth_call]) and the
      effect logic [chain_effect P m]: from any world, script [m] moves
      the chain by steps whose submissions satisfy [P].
    - [Ethers.v] ([Module Ethers]): [new ethers.Contract] and a method
      call [invoke], in the order ethers v5 checks and runs it: the
      fragment; [populate_tx] (arity, address, coercion); then a simulated
      call for a [view] fragment or a gas estimate and a transaction
      otherwise.  Without a signer there is no provider either: a view
      call populates, then reads [.call] of [null], and a transaction is
      refused.
    - [Hardhat.v] ([Module Hardhat]): the runtime calls the scripts await
      ([getContractFactory], [getSigners], [getNamedAccounts],
      [getChainId], [deployments.get], [getNetworkIdFromName]),
      [networkConfig[chainId]['name']] ([network_name_of]), and
      hardhat-deploy's [deploy] with reuse and the wait for its receipt.
    - [Finish.v] ([Module Finish]): the logic [finishes I m] of scripts
      that never stay [Blocked], under an invariant [I] of the world the
      primitives keep (the class [WorldStable]), and its rules for the
      runtime.
    - [Fixtures.v] ([Module Fixtures]): concrete worlds of a local Hardhat
      network, on which the witnesses evaluate the theorems.
    - [KeeperSimulationTask.v], [KeeperTestTask.v], [Deploy.v]: the three
      scripts ([keeper_simulation], [keeper_test],
      [deploy_keeper_simulation]), with their runs and their theorems.
    - [Cli.v] ([Module Cli]): the registration of the two tasks (lines 3
      to 5 of each task file: [task], [addParam], [setAction]), Hardhat's
      [ArgumentsParser] and command-line driver ([run_cli]), the deploy
      script's tags (line 29) and hardhat-deploy's selection of scripts
      by [--tags].
    - [Workflow.v]: the end-to-end flow, deployment then [keeper-test],
      and the termination of the two tasks.

    ** What the theorems show

    - Runs of the scripts, branch by branch (C1 to C4, C7, C10): the exact
      console output, the transactions sent and the world left, for an
      upkeep needed or not, for a [keeper-test] read before or after its
      transaction is mined, for a first and a second deployment (the
      second prints hardhat-deploy's [reusing] line and the same command).
    - What each script can send, from any world (C5, C6, C11): proved with
      [chain_effect], compositionally over the monad.  The deploy script
      can only create a KeeperSimulation bound to the address of the
      Counter record it started with.
    - The error paths (C8, C9, C13 to C15, C17): a missing Counter record,
      a chain id missing from [networkConfig], a missing artifact, an
      argument that is not shaped as an address, a clock before the
      epoch, a KeeperSimulation whose Counter has no code.  Each throws
      before anything is sent.
    - Boundary inputs (C26 to C29): each task given the other task's
      contract, and each task on a network with no account.  The
      signatures do not match, so a call reverts or gas estimation fails.
      [accounts[0]] is undefined, so there is no signer and no provider.
      Each run throws after the first line, with ethers' error, and sends
      nothing.
    - Behaviours the spec leaves open (C16 and the findings of
      [PROJECT.json]): a [checkUpkeep] declared without [view] is sent as
      a transaction and the upkeep is never performed.
    - The end-to-end flow (C12): the address printed by the deployment,
      passed to [keeper-test], reaches a KeeperSimulation bound to the
      recorded Counter.
    - Refinement of the keeper network's round (C31): on an automining
      node [keeper-simulation] changes the Counter as the abstract
      [Upkeep.keeper_round] does.  The check runs at the latest block,
      and [performUpkeep(0x00)] runs in the block that mines it.
    - The command line (C20 to C24): each task runs with the
      [--contract] value given; the command the deploy script prints,
      split into words and parsed by Hardhat, runs [keeper-test] on the
      new address; a missing [--contract] or an unknown network stops the
      command before any action; whatever the line and whatever built-in
      tasks Hardhat defines, a run of either task gets its address from a
      word of the line; [--tags] selects the deploy script by the tags of
      line 29.
    - Termination (C25): the tasks never wait forever.
    - Repeated runs (C18): on an automining node a due interval Counter is
      upkept exactly once, and a second [keeper-simulation] with the
      clock unchanged finds nothing to do and leaves the chain alone.
    - Liveness of the deployment on a node that does not automine (C19):
      the deploy script returns, with the KeeperSimulation recorded, as
      soon as a block is mined after its creation is sent
      ([deploy_new_waits]), and otherwise never returns.
    - A Counter deployed again (C30): the recorded KeeperSimulation,
      made for the old Counter, is not reused, and a new one bound to the
      new Counter replaces the record.
    - Library facts the claims rest on: ledger invariants by rule
      induction ([keeper_sim_binding_stable], [contracts_never_removed],
      [chain_time_monotone], [chain_step_hashes_fresh]); that waiting for
      a receipt ends as soon as a block comes ([wait_for_settles]) and
      never ends otherwise ([wait_for_never]); byte and hex round trips.

    ** Bounds and fuel

    Integers are [Z] with their bounds written out: a [uint] is in
    [0, 2^256 - 1], a safe JS integer below [2^53 - 1], a [Date] within
    [8.64e15] ms of the epoch, an address below [2^160].  Three loops run
    on fuel.  [arrayify_loop] runs 8 rounds, enough for a safe integer of at
    most 7 bytes ([arrayify_num_spec]).  [wait_receipt] polls
    [length (w_mine_sched w) + 1] times: every poll is a wait point, the
    schedule says which of them mine, and after it is spent no block comes
    ([wait_for_settles], [wait_for_never]).  [first_free] scans
    [size used] addresses, enough by the pigeonhole principle
    ([alloc_address_fresh]).  Hardhat's argument parser needs no fuel: it
    recurses on the words, a parameter's value consumed with its name,
    and its lemmas go by induction on a bound of the line's length.

    ** Not modelled

    keccak-256: contract addresses are the least free address, transaction
    hashes a counter, and addresses print in lower case without the
    EIP-55 checksum.  A mixed-case argument is refused, where ethers
    accepts one with a valid checksum: the theorems that resolve an
    address assume [getAddress] accepts it, and the error path C14 is
    stated for strings that are no address in any case.
    hardhat-deploy's [deploy] compares the recorded constructor
    arguments only, not the bytecode (the model's creation code is the
    script's), and its error for a missing artifact is not modelled.
    Hardhat's built-in tasks are not in [repo_tasks]; C23 holds for any
    list of them.  Also not
    modelled: gas amounts, nonces and signatures; ENS, refused as ethers
    does on networks without it; [console.log]'s layout of objects beyond
    a tag; the output of Hardhat's [--help] and [--version], the types of
    global parameters beyond strings and flags, the [HARDHAT_NETWORK]
    variable, and hardhat-deploy's parameters other than [--tags].  The
    Counter and KeeperSimulation contracts and
    [helper-hardhat-config] are not under [src/] and are modelled from
    the spec.  The lines of [src/] no definition translates carry no
    behaviour.  Line 1 of each script [require]s [helper-hardhat-config],
    whose table is the world's [w_net_config].  Each task file ends with
    [module.exports = {}]: a task file registers its task as a side
    effect and exports nothing.
*)

From stdpp Require Export base gmap strings list list_numbers.
From Stdlib Require Export ZArith Lia Strings.Byte Ascii.

Declare Scope s2p_scope.
Delimit Scope s2p_scope with s2p.

(** ** The script monad

    An async JavaScript function run to completion: it threads the state
    of the world, and ends with a value ([Ok]), with a thrown exception
    ([Thrown]) or still waiting on a promise that the modelled environment
    never settles ([Blocked]).  Effects made before an exception are kept
    in the state, as output printed and transactions sent are. *)

Inductive outcome (E A : Type) : Type :=
| Ok (a : A)
| Thrown (e : E)
| Blocked.
Arguments Ok {E A} a.
Arguments Thrown {E A} e.
Arguments Blocked {E A}.

Definition ST (S E A : Type) : Type := S -> outcome E A * S.

#[export] Instance st_ret {S E} : MRet (ST S E) :=
  fun A a s => (Ok a, s).

#[export] Instance st_bind {S E} : MBind (ST S E) :=
  fun A B k c s =>
    match c s with
    | (Ok a, s') => k a s'
    | (Thrown e, s') => (Thrown e, s')
    | (Blocked, s') => (Blocked, s')
    end.

Section ScriptOps.
Context {S E : Type}.

Definition throw {A} (e : E) : ST S E A := fun s => (Thrown e, s).
Definition get_st : ST S E S := fun s => (Ok s, s).
Definition modify_st (f : S -> S) : ST S E unit := fun s => (Ok tt, f s).
Definition gets {A} (f : S -> A) : ST S E A := fun s => (Ok (f s), s).

(** Lift a fallible pure computation into the monad. *)
Definition of_sum {A} (r : E + A) : ST S E A :=
  match r with inl e => throw e | inr a => mret a end.

(** Two scripts are equivalent when they behave the same from every
    state: the extensional equality of state functions. *)
Definition st_eq {A} (c1 c2 : ST S E A) : Prop := forall s, c1 s = c2 s.

#[export] Instance st_eq_equiv {A} : Equivalence (@st_eq A).
Proof. split; repeat intro; congruence. Qed.

#[export] Instance st_bind_proper {A B} :
  Proper (pointwise_relation A (@st_eq B) ==> @st_eq A ==> @st_eq B) mbind.
Proof.
  intros k1 k2 Hk c1 c2 Hc s. cbv [mbind st_bind]. rewrite Hc.
  destruct (c2 s) as [[a| |] s']; [apply Hk | done | done].
Qed.

Lemma st_bind_ret_l {A B} (a : A) (k : A -> ST S E B) :
  st_eq (mret a ≫= k) (k a).
Proof. intros s. reflexivity. Qed.

Lemma st_bind_ret_r {A} (c : ST S E A) : st_eq (c ≫= mret) c.
Proof. intros s. cbv [mbind st_bind mret st_ret]. by destruct (c s) as [[]]. Qed.

Lemma st_bind_assoc {A B C} (c : ST S E A) (k1 : A -> ST S E B) (k2 : B -> ST S E C) :
  st_eq ((c ≫= k1) ≫= k2) (c ≫= fun a => k1 a ≫= k2).
Proof. intros s. cbv [mbind st_bind]. by destruct (c s) as [[]]. Qed.

Lemma st_bind_throw {A B} (e : E) (k : A -> ST S E B) :
  st_eq (throw e ≫= k) (throw e).
Proof. intros s. reflexivity. Qed.

(** Running a bind: the three ways the first script can end. *)
Lemma run_bind_ok {A B} (c : ST S E A) (k : A -> ST S E B) s a s' :
  c s = (Ok a, s') -> (c ≫= k) s = k a s'.
Proof. intros H. cbv [mbind st_bind]. by rewrite H. Qed.

Lemma run_bind_thrown {A B} (c : ST S E A) (k : A -> ST S E B) s e s' :
  c s = (Thrown e, s') -> (c ≫= k) s = (Thrown e, s').
Proof. intros H. cbv [mbind st_bind]. by rewrite H. Qed.

Lemma run_bind_blocked {A B} (c : ST S E A) (k : A -> ST S E B) s s' :
  c s = (Blocked, s') -> (c ≫= k) s = (Blocked, s').
Proof. intros H. cbv [mbind st_bind]. by rewrite H. Qed.
End ScriptOps.

Create HintDb s2p.
#[export] Hint Resolve run_bind_ok run_bind_thrown run_bind_blocked : s2p.

(** Unfold the monad's plumbing on a concrete script. *)
Ltac run_script :=
  cbv [mbind st_bind mret st_ret throw get_st modify_st gets of_sum negb].

(** ** Generic lemmas shared by the components *)

(** [Z.div] by a positive constant is the floor of the quotient. *)
Lemma Z_div_floor_bounds (a b : Z) :
  (0 < b)%Z -> (b * (a / b) <= a < b * (a / b) + b)%Z.
Proof. intros Hb. pose proof (Z.div_mod a b). pose proof (Z.mod_pos_bound a b). lia. Qed.

(** Pigeonhole on a finite set of integers: a set that holds [m]
    consecutive integers has at least [m] elements. *)
Lemma gset_Z_pigeonhole (s : gset Z) (n m : Z) :
  (0 <= m)%Z -> (forall k, (n <= k < n + m)%Z -> k ∈ s) -> Z.to_nat m <= size s.
Proof.
  intros Hm Hin. rewrite <- (length_seqZ n m), <- (size_list_to_set (C := gset Z)) by apply NoDup_seqZ.
  apply subseteq_size. intros k. rewrite elem_of_list_to_set, elem_of_seqZ. apply Hin.
Qed.

(** ** The words of a string

    How a shell splits a command line: stdpp's [String.words] cuts at
    white space.  A word is a non-empty string without white space. *)
Definition no_space (s : string) : bool :=
  forallb (fun c => negb (Ascii.is_space c)) (String.list_ascii_of_string s).

Lemma string_app_nil_r (s : string) : (s +:+ "")%string = s.
Proof. induction s as [|a s IH]; [done|]. exact (f_equal (String a) IH). Qed.

Lemma rev_app_rev_app (s t u : string) :
  String.rev_app (String.rev_app s t) u = String.rev_app t (s +:+ u).
Proof. revert t. induction s as [|a s IH]; intros t; [done|]. exact (IH (String a t)). Qed.

Lemma rev_rev_app (s : string) : String.rev (String.rev_app s "") = s.
Proof. unfold String.rev. rewrite rev_app_rev_app. apply string_app_nil_r. Qed.

Lemma words_go_word (s c : string) :
  no_space s = true -> String.words_go (Some c) s = [String.rev (String.rev_app s c)].
Proof.
  revert c. induction s as [|a s IH]; intros c Hs; [done|].
  cbn in Hs |- *. apply andb_prop in Hs as [Ha Hs]. destruct (Ascii.is_space a); [done|].
  by apply IH.
Qed.

Lemma words_single (s : string) : s <> EmptyString -> no_space s = true -> String.words s = [s].
Proof.
  destruct s as [|a s]; [done|]. intros _ Hs. cbn in Hs. apply andb_prop in Hs as [Ha Hs].
  unfold String.words. cbn. destruct (Ascii.is_space a); [done|].
  rewrite words_go_word by exact Hs. exact (f_equal (fun x => [x]) (rev_rev_app (String a s))).
Qed.

Lemma words_go_app_space (cur : option string) (s r : string) :
  String.words_go cur (s +:+ String " " r) = String.words_go cur s ++ String.words r.
Proof.
  revert cur. induction s as [|a s IH]; intros cur; [done|].
  change (String a s +:+ String " " r) with (String a (s +:+ String " " r)). cbn [String.words_go].
  destruct (Ascii.is_space a); [|apply IH]. by rewrite IH, app_assoc.
Qed.

Lemma words_app_space (s r : string) :
  String.words (s +:+ String " " r) = String.words s ++ String.words r.
Proof. apply words_go_app_space. Qed.

(** Two elements of a list with no duplicate keys are equal when their
    keys are. *)
Lemma NoDup_fmap_key_eq {A B} (f : A -> B) (l : list A) (x y : A) :
  NoDup (f <$> l) -> x ∈ l -> y ∈ l -> f x = f y -> x = y.
Proof.
  intros Hnd Hx Hy Hf. apply list_elem_of_lookup in Hx as [i Hi], Hy as [j Hj].
  assert (i = j) as ->.
  { eapply NoDup_lookup; [exact Hnd|by rewrite list_lookup_fmap, Hi|by rewrite list_lookup_fmap, Hj, Hf]. }
  congruence.
Qed.
