(* ===== verification/Js.v ===== *)
(** * Js: the JavaScript values, exceptions and console output of the scripts

    The values the three scripts handle ([taskArgs.contract], the result
    of a contract method, a transaction response, a network name), the
    exceptions their library calls throw, and the three language
    operations the scripts apply to them: [ToBoolean] (the test of
    [if (boolValue)]), property access ([result[0]], [tx.hash]) and the
    conversions of template literals and [console.log]. *)

From S2P Require Import Spec2Rocq.
From stdpp Require Import pretty.

Open Scope Z_scope.

Module Js.

(** JavaScript values as ethers and Hardhat hand them to the scripts.
    Numbers are the integral numbers the scripts compute with (the model
    has no NaN or fractions); [JArr] is an array, such as the [Result]
    ethers returns for a method with several outputs; [JBigNumber] is an
    ethers BigNumber; [JTxResponse] the response of a sent transaction,
    with its hash. *)
Inductive jsval : Type :=
| JUndefined
| JNull
| JBool (b : bool)
| JNum (z : Z)
| JStr (s : string)
| JArr (vs : list jsval)
| JBigNumber (z : Z)
| JTxResponse (hash : string).

(** Exceptions thrown by the scripts' callees, by origin: the language
    ([TypeError]), the ethers logger's error codes, Hardhat, and
    hardhat-deploy. *)
Inductive js_error : Type :=
| TypeError (msg : string)
| InvalidArgument (reason : string)
| NumericFault (reason : string)
| CallException (reason : string)
| UnpredictableGasLimit (reason : string)
| UnsupportedOperation (reason : string)
| HardhatError (msg : string)
| DeployError (msg : string).

#[export] Instance jsval_eq_dec : EqDecision jsval.
Proof.
  refine (fix go (v w : jsval) {struct v} : Decision (v = w) :=
    match v, w with
    | JUndefined, JUndefined => left eq_refl
    | JNull, JNull => left eq_refl
    | JBool a, JBool b => cast_if (decide (a = b))
    | JNum a, JNum b => cast_if (decide (a = b))
    | JStr a, JStr b => cast_if (decide (a = b))
    | JArr a, JArr b => cast_if (@list_eq_dec _ go a b)
    | JBigNumber a, JBigNumber b => cast_if (decide (a = b))
    | JTxResponse a, JTxResponse b => cast_if (decide (a = b))
    | _, _ => right _
    end); abstract (intros; subst; congruence).
Defined.

(** [ToBoolean]: the test an [if] applies to its condition.  Objects
    (arrays, BigNumbers, responses) are truthy; so is every non-empty
    string. *)
Definition truthy (v : jsval) : bool :=
  match v with
  | JUndefined | JNull => false
  | JBool b => b
  | JNum z => negb (Z.eqb z 0)
  | JStr s => negb (String.eqb s "")
  | JArr _ | JBigNumber _ | JTxResponse _ => true
  end.

(** [v[i]] for an index [i]: arrays and strings answer by position and
    give [undefined] past their end; other objects have no index keys;
    [undefined] and [null] throw, as a destructuring
    [const {0: a, 1: b} = v] does. *)
Definition index (v : jsval) (i : nat) : js_error + jsval :=
  match v with
  | JUndefined | JNull => inl (TypeError "Cannot read properties of undefined")
  | JArr vs => inr (default JUndefined (vs !! i))
  | JStr s =>
      inr (match String.get i s with
           | Some c => JStr (String.String c EmptyString)
           | None => JUndefined
           end)
  | _ => inr JUndefined
  end.

(** [v.hash]: only a transaction response has it. *)
Definition get_hash (v : jsval) : js_error + jsval :=
  match v with
  | JUndefined | JNull => inl (TypeError "Cannot read properties of undefined (reading 'hash')")
  | JTxResponse h => inr (JStr h)
  | _ => inr JUndefined
  end.

(** [ToString], as a template literal [`${v}`] applies it.  Arrays join
    their elements with commas, [undefined] and [null] elements giving the
    empty string. *)
Fixpoint to_string (v : jsval) : string :=
  match v with
  | JUndefined => "undefined"
  | JNull => "null"
  | JBool true => "true"
  | JBool false => "false"
  | JNum z => pretty z
  | JStr s => s
  | JArr vs =>
      String.concat ","
        (map (fun w => match w with JUndefined | JNull => "" | _ => to_string w end) vs)
  | JBigNumber z => pretty z
  | JTxResponse _ => "[object Object]"
  end.

(** How [console.log] shows one argument when the first argument is a
    string with no [%] directive, as in every call of the scripts:
    strings are shown raw, primitives as [ToString] does.  Objects are
    shown by [util.inspect], whose layout the model reduces to a tag. *)
Definition inspect (v : jsval) : string :=
  match v with
  | JArr _ => "[Array]"
  | JBigNumber z => "BigNumber(" +:+ pretty z +:+ ")"
  | JTxResponse h => "{ hash: '" +:+ h +:+ "' }"
  | _ => to_string v
  end.

(** One line of [console.log(a1, ..., an)]: the arguments joined by a
    single space. *)
Definition console_line (args : list jsval) : string :=
  String.concat " " (map inspect args).

End Js.
