(* ===== verification/Abi.v ===== *)
(** * Abi: bytes, hex strings, the ABI [uint] coder and addresses

    What keeper-simulation.js does with ethers' coding utilities, written
    out: line 18 turns the wall-clock milliseconds into Unix seconds,
    line 19 encodes them with [defaultAbiCoder.encode(['uint'], [seconds])]
    (a 32-byte big-endian word, as a [0x] hex string), and the binding of
    lines 17, 21 and 27 turns hex strings and numbers into [bytes]
    arguments ([arrayify]) and address strings into addresses
    ([getAddress]).  The types and values of the ABI, and the fragments an
    ABI is made of, are declared here too. *)

From S2P Require Import Spec2Rocq Js.
Import Js.

Open Scope Z_scope.

Module Abi.

(** ** Bytes and big-endian words *)

Definition byte_val (b : byte) : Z := Z.of_N (Byte.to_N b).
Definition byte_of (z : Z) : byte := default Byte.x00 (Byte.of_N (Z.to_N (z mod 256))).

(** The [n] low bytes of [z], most significant first. *)
Fixpoint be_split (n : nat) (z : Z) : list byte :=
  match n with
  | O => []
  | S n' => be_split n' (z / 256) ++ [byte_of z]
  end.

Definition be_combine (bs : list byte) : Z :=
  fold_left (fun acc b => acc * 256 + byte_val b) bs 0.

(** ** Hex strings *)

Definition hex_char (d : Z) : ascii :=
  if d <? 10 then ascii_of_nat (48 + Z.to_nat d) else ascii_of_nat (87 + Z.to_nat d).

Definition hex_val (c : ascii) : option Z :=
  let n := Z.of_nat (nat_of_ascii c) in
  if (48 <=? n) && (n <=? 57) then Some (n - 48)
  else if (97 <=? n) && (n <=? 102) then Some (n - 87)
  else if (65 <=? n) && (n <=? 70) then Some (n - 55)
  else None.

Definition is_hex_digit (c : ascii) : bool :=
  match hex_val c with Some _ => true | None => false end.

Definition byte_hex (b : byte) : list ascii :=
  [hex_char (byte_val b / 16); hex_char (byte_val b mod 16)].

(** [hexlify]: lower-case digits after [0x], two per byte. *)
Definition hexlify (bs : list byte) : string :=
  String.string_of_list_ascii ("0"%char :: "x"%char :: concat (map byte_hex bs)).

Fixpoint hex_pairs (cs : list ascii) : list byte :=
  match cs with
  | c1 :: c2 :: rest =>
      byte_of (16 * default 0 (hex_val c1) + default 0 (hex_val c2)) :: hex_pairs rest
  | _ => []
  end.

(** [arrayify] of a string: a [0x] prefix and hex digits, of even
    number. *)
Definition arrayify_hex (s : string) : js_error + list byte :=
  match String.list_ascii_of_string s with
  | "0"%char :: "x"%char :: body =>
      if forallb is_hex_digit body then
        if Nat.even (length body) then inr (hex_pairs body)
        else inl (InvalidArgument "hex data is odd-length")
      else inl (InvalidArgument "invalid arrayify value")
  | _ => inl (InvalidArgument "invalid arrayify value")
  end.

(** ** Numbers: Unix seconds and the [uint] coder *)

Definition MAX_SAFE_INTEGER : Z := 2 ^ 53 - 1.
Definition MAX_DATE_MS : Z := 8640000000000000.
Definition UINT256_MAX : Z := 2 ^ 256 - 1.

(** The range of a JavaScript [Date]: [new Date().getTime()] is an
    integral number of milliseconds within 8.64e15 of the epoch. *)
Definition js_time_valid (ms : Z) : bool := Z.abs ms <=? MAX_DATE_MS.

(** keeper-simulation.js line 18, [Math.floor(new Date().getTime() / 1000)]:
    [Z.div] rounds toward minus infinity, as [Math.floor] does. *)
Definition unix_seconds (ms : Z) : Z := ms / 1000.

(** [BigNumber.from(v)]: a JS number must be a safe integer. *)
Definition bignumber_from (v : jsval) : js_error + Z :=
  match v with
  | JNum n =>
      if (MAX_SAFE_INTEGER <=? n) || (n <=? - MAX_SAFE_INTEGER)
      then inl (NumericFault "overflow") else inr n
  | JBigNumber n => inr n
  | _ => inl (InvalidArgument "invalid BigNumber value")
  end.

(** The [uint256] coder: the value must lie in [0, 2^256 - 1]; it is
    written as one 32-byte big-endian word. *)
Definition encode_uint_word (n : Z) : js_error + list byte :=
  if (0 <=? n) && (n <=? UINT256_MAX) then inr (be_split 32 n)
  else inl (InvalidArgument "value out-of-bounds").

(** keeper-simulation.js line 19: [defaultAbiCoder.encode(['uint'], [v])],
    a hex string. *)
Definition encode_uint (v : jsval) : js_error + string :=
  match bignumber_from v with
  | inl e => inl e
  | inr n =>
      match encode_uint_word n with
      | inl e => inl e
      | inr bs => inr (hexlify bs)
      end
  end.

(** [arrayify] of a number: a safe unsigned integer, written with as few
    bytes as it needs and at least one.  The loop of ethers,
    [while (value) { result.unshift(value & 0xff); value = value / 256 }],
    runs once per byte; eight rounds cover every safe integer. *)
Fixpoint arrayify_loop (fuel : nat) (v : Z) (acc : list byte) : list byte :=
  match fuel with
  | O => acc
  | S f => if v =? 0 then acc else arrayify_loop f (v / 256) (byte_of v :: acc)
  end.

Definition arrayify_num (n : Z) : js_error + list byte :=
  if (n <? 0) || (MAX_SAFE_INTEGER <=? n) then inl (NumericFault "invalid arrayify value")
  else match arrayify_loop 8 n [] with
       | [] => inr [Byte.x00]
       | bs => inr bs
       end.

(** ** Addresses *)

Definition ADDRESS_BOUND : Z := 2 ^ 160.

(** An address as hardhat-deploy and ethers print it: [0x] and forty hex
    digits.  The EIP-55 mixed-case checksum needs keccak-256, which the
    model does not have: addresses are printed in lower case. *)
Definition address_to_string (a : Z) : string := hexlify (be_split 20 a).

Definition is_upper_hex (c : ascii) : bool :=
  let n := nat_of_ascii c in (65 <=? n)%nat && (n <=? 70)%nat.
Definition is_lower_hex (c : ascii) : bool :=
  let n := nat_of_ascii c in (97 <=? n)%nat && (n <=? 102)%nat.

(** [getAddress(s)]: an optional [0x] and forty hex digits.  A
    mixed-case string is checked against its keccak checksum, which the
    model does not have: it is refused. *)
Definition get_address (s : string) : option Z :=
  let cs := String.list_ascii_of_string s in
  let body := match cs with "0"%char :: "x"%char :: r => r | _ => cs end in
  if (length body =? 40)%nat && forallb is_hex_digit body
     && negb (existsb is_upper_hex body && existsb is_lower_hex body)
  then Some (be_combine (hex_pairs body))
  else None.

(** The shape [getAddress] asks before any checksum: an optional [0x]
    and forty hex digits, in any case.  A string without it is no
    address, whatever keccak-256 says. *)
Definition address_shaped (s : string) : bool :=
  let cs := String.list_ascii_of_string s in
  let body := match cs with "0"%char :: "x"%char :: r => r | _ => cs end in
  (length body =? 40)%nat && forallb is_hex_digit body.

(** ** ABI types, values and fragments *)

Inductive abi_type := TUint256 | TBytes | TBool | TAddress.

Inductive abi_value :=
| AUint (z : Z)
| ABytes (bs : list byte)
| ABool (b : bool)
| AAddress (a : Z).

#[export] Instance byte_eq_decision : EqDecision byte := Byte.byte_eq_dec.
#[export] Instance abi_type_eq_dec : EqDecision abi_type.
Proof. solve_decision. Defined.
#[export] Instance abi_value_eq_dec : EqDecision abi_value.
Proof. solve_decision. Defined.

(** A function fragment of a contract's ABI: its name and parameter
    types (together, its selector), its output types, and whether it is
    [view]/[pure] ([constant]). *)
Record fragment := mk_fragment {
  fr_name : string;
  fr_inputs : list abi_type;
  fr_outputs : list abi_type;
  fr_constant : bool
}.

Definition abi := list fragment.

(** ** Lemmas on bytes and words *)

Lemma byte_val_range (b : byte) : 0 <= byte_val b < 256.
Proof.
  unfold byte_val. pose proof (Byte.to_N_bounded b). lia.
Qed.

Lemma byte_of_val (b : byte) : byte_of (byte_val b) = b.
Proof. destruct b; reflexivity. Qed.

Lemma byte_of_mod (z : Z) : byte_of (z mod 256) = byte_of z.
Proof. unfold byte_of. by rewrite Zmod_mod. Qed.

Lemma byte_val_of (z : Z) : byte_val (byte_of z) = z mod 256.
Proof.
  rewrite <- byte_of_mod. pose proof (Z.mod_pos_bound z 256 ltac:(lia)) as Hr.
  remember (z mod 256) as r eqn:Er. clear Er.
  unfold byte_of. rewrite Zmod_small by lia.
  destruct (Byte.of_N (Z.to_N r)) as [y|] eqn:E.
  - apply Byte.to_of_N in E. unfold byte_val; simpl. rewrite E. lia.
  - apply Byte.of_N_None_iff in E. lia.
Qed.

Lemma length_be_split (n : nat) (z : Z) : length (be_split n z) = n.
Proof.
  revert z; induction n as [|n IH]; intros z; [done|].
  simpl. rewrite length_app, IH. simpl. lia.
Qed.

Lemma be_combine_snoc (bs : list byte) (b : byte) :
  be_combine (bs ++ [b]) = be_combine bs * 256 + byte_val b.
Proof. unfold be_combine. by rewrite fold_left_app. Qed.

Lemma pow_8_succ (n : nat) : 2 ^ (8 * Z.of_nat (S n)) = 256 * 2 ^ (8 * Z.of_nat n).
Proof.
  rewrite Nat2Z.inj_succ, Z.mul_succ_r, Z.pow_add_r by lia. lia.
Qed.

(** Splitting then combining keeps the [n] low bytes. *)
Lemma be_combine_split (n : nat) (z : Z) :
  be_combine (be_split n z) = z mod 2 ^ (8 * Z.of_nat n).
Proof.
  revert z; induction n as [|n IH]; intros z; [simpl; by rewrite Z.mod_1_r|].
  simpl be_split. rewrite be_combine_snoc, IH, byte_val_of, pow_8_succ.
  rewrite (Z.rem_mul_r z 256) by (try apply Z.pow_pos_nonneg; lia). ring.
Qed.

(** ** Lemmas on hex strings *)

Lemma hex_val_char (d : Z) : 0 <= d < 16 -> hex_val (hex_char d) = Some d.
Proof.
  intros Hd.
  assert (d = 0 \/ d = 1 \/ d = 2 \/ d = 3 \/ d = 4 \/ d = 5 \/ d = 6 \/ d = 7 \/
          d = 8 \/ d = 9 \/ d = 10 \/ d = 11 \/ d = 12 \/ d = 13 \/ d = 14 \/ d = 15)
    as Hc by lia.
  repeat destruct Hc as [->|Hc]; [reflexivity ..|]. subst. reflexivity.
Qed.

Lemma byte_hex_digits (b : byte) :
  0 <= byte_val b / 16 < 16 /\ 0 <= byte_val b mod 16 < 16.
Proof.
  pose proof (byte_val_range b).
  split; [split; [apply Z.div_pos|apply Z.div_lt_upper_bound]|apply Z.mod_pos_bound]; lia.
Qed.

Lemma hex_pairs_hexlify (bs : list byte) :
  forallb is_hex_digit (concat (map byte_hex bs)) = true /\
  Nat.even (length (concat (map byte_hex bs))) = true /\
  hex_pairs (concat (map byte_hex bs)) = bs.
Proof.
  induction bs as [|b bs (IH1 & IH2 & IH3)]; [done|].
  destruct (byte_hex_digits b) as [Hd1 Hd2]. simpl.
  unfold is_hex_digit. rewrite !hex_val_char by done. simpl.
  split; [done|]. split; [done|]. rewrite IH3. f_equal.
  rewrite <- (byte_of_val b) at 3. f_equal.
  pose proof (Z.div_mod (byte_val b) 16). lia.
Qed.

(** [arrayify] reads back what [hexlify] writes. *)
Lemma arrayify_hexlify (bs : list byte) : arrayify_hex (hexlify bs) = inr bs.
Proof.
  unfold arrayify_hex, hexlify. rewrite String.list_ascii_of_string_of_list_ascii.
  destruct (hex_pairs_hexlify bs) as (-> & -> & ->). done.
Qed.

(** A value out of [0, 2^256 - 1] is refused. *)
Lemma encode_uint_out_of_bounds (v : jsval) (n : Z) :
  bignumber_from v = inr n -> (n < 0 \/ UINT256_MAX < n) ->
  encode_uint v = inl (InvalidArgument "value out-of-bounds").
Proof.
  intros Hv Hn. unfold encode_uint, encode_uint_word. rewrite Hv.
  replace ((0 <=? n) && (n <=? UINT256_MAX)) with false by lia. done.
Qed.

(** The seconds of any valid JS time are a safe integer. *)
Lemma unix_seconds_safe (ms : Z) :
  js_time_valid ms = true -> bignumber_from (JNum (unix_seconds ms)) = inr (unix_seconds ms).
Proof.
  unfold js_time_valid, bignumber_from, unix_seconds, MAX_DATE_MS, MAX_SAFE_INTEGER.
  intros H. pose proof (Z_div_floor_bounds ms 1000 ltac:(lia)).
  replace (_ || _) with false by lia. done.
Qed.

Lemma encode_uint_word_ok (n : Z) :
  0 <= n -> n <= UINT256_MAX -> encode_uint_word n = inr (be_split 32 n).
Proof.
  intros H1 H2. unfold encode_uint_word.
  rewrite (proj2 (Z.leb_le 0 n) H1), (proj2 (Z.leb_le n UINT256_MAX) H2). reflexivity.
Qed.

Lemma uint256_max_large : 8640000000000 <= UINT256_MAX.
Proof. vm_compute. discriminate. Qed.

Lemma unix_seconds_range (ms : Z) :
  js_time_valid ms = true -> 0 <= ms -> 0 <= unix_seconds ms <= 8640000000000.
Proof.
  unfold js_time_valid, MAX_DATE_MS, unix_seconds. intros Hv%Z.leb_le Hms.
  split; [apply Z.div_pos|apply Z.div_le_upper_bound]; lia.
Qed.

(** keeper-simulation.js lines 18-19: the current time of any valid
    JavaScript date at or after the epoch is encoded as the 32-byte word
    of its Unix seconds. *)
Lemma encode_timestamp (ms : Z) :
  js_time_valid ms = true -> 0 <= ms ->
  encode_uint (JNum (unix_seconds ms)) = inr (hexlify (be_split 32 (unix_seconds ms))).
Proof.
  intros Hv Hms. destruct (unix_seconds_range ms Hv Hms) as [H1 H1'].
  assert (H2 : unix_seconds ms <= UINT256_MAX) by (etrans; [exact H1'|apply uint256_max_large]).
  unfold encode_uint. rewrite unix_seconds_safe by done. rewrite encode_uint_word_ok by done.
  reflexivity.
Qed.

(** ** [arrayify] of numbers *)

Lemma arrayify_loop_split (f : nat) (v : Z) (acc : list byte) :
  0 <= v < 2 ^ (8 * Z.of_nat f) ->
  exists k, arrayify_loop f v acc = be_split k v ++ acc /\ v < 2 ^ (8 * Z.of_nat k) /\
            (v = 0 <-> k = 0%nat).
Proof.
  revert v acc; induction f as [|f IH]; intros v acc Hv.
  - exists 0%nat. simpl in *. split; [done|]. lia.
  - simpl arrayify_loop. destruct (Z.eqb_spec v 0) as [->|Hne].
    + exists 0%nat. simpl. split; [done|]. lia.
    + rewrite pow_8_succ in Hv.
      destruct (IH (v / 256) (byte_of v :: acc)) as (k & Hk & Hlt & _).
      { split; [apply Z.div_pos|apply Z.div_lt_upper_bound]; lia. }
      exists (S k). rewrite Hk, pow_8_succ. simpl be_split.
      rewrite <- app_assoc. split; [done|].
      pose proof (Z_div_floor_bounds v 256). lia.
Qed.

(** Every safe unsigned integer is arrayified, in at least one byte,
    to bytes that read back as the integer. *)
Lemma arrayify_num_spec (n : Z) :
  0 <= n < MAX_SAFE_INTEGER ->
  exists bs, arrayify_num n = inr bs /\ bs <> [] /\ be_combine bs = n.
Proof.
  intros Hn. unfold arrayify_num. replace ((n <? 0) || (MAX_SAFE_INTEGER <=? n)) with false by lia.
  destruct (arrayify_loop_split 8 n []) as (k & Hk & Hlt & Hz).
  { unfold MAX_SAFE_INTEGER in Hn. simpl. lia. }
  rewrite Hk, app_nil_r. destruct (be_split k n) as [|b bs] eqn:E.
  - exists [Byte.x00]. split; [done|]. split; [done|].
    assert (k = 0%nat) as ->. { apply (f_equal length) in E. by rewrite length_be_split in E. }
    by rewrite (proj2 Hz).
  - exists (b :: bs). split; [done|]. split; [done|].
    rewrite <- E, be_combine_split, Z.mod_small; lia.
Qed.

(** ** Addresses *)

Lemma hex_char_lower (d : Z) : 0 <= d < 16 -> is_upper_hex (hex_char d) = false.
Proof.
  intros Hd.
  assert (d = 0 \/ d = 1 \/ d = 2 \/ d = 3 \/ d = 4 \/ d = 5 \/ d = 6 \/ d = 7 \/
          d = 8 \/ d = 9 \/ d = 10 \/ d = 11 \/ d = 12 \/ d = 13 \/ d = 14 \/ d = 15)
    as Hc by lia.
  repeat destruct Hc as [->|Hc]; [reflexivity ..|]. subst. reflexivity.
Qed.

Lemma hexlify_digits_lower (bs : list byte) :
  existsb is_upper_hex (concat (map byte_hex bs)) = false /\
  length (concat (map byte_hex bs)) = (2 * length bs)%nat.
Proof.
  induction bs as [|b bs [IH1 IH2]]; [done|].
  destruct (byte_hex_digits b). simpl. rewrite !hex_char_lower, IH1, IH2 by done. simpl. lia.
Qed.

Lemma get_address_unshaped (s : string) : address_shaped s = false -> get_address s = None.
Proof. unfold address_shaped, get_address. cbv zeta. intros Hs. by rewrite Hs. Qed.

(** What [getAddress] reads back of a printed address: its low 160
    bits, as [be_split 20] keeps twenty bytes. *)
Lemma get_address_to_string_mod (a : Z) : get_address (address_to_string a) = Some (a mod ADDRESS_BOUND).
Proof.
  unfold get_address, address_to_string, hexlify.
  rewrite String.list_ascii_of_string_of_list_ascii.
  destruct (hex_pairs_hexlify (be_split 20 a)) as (-> & _ & ->).
  destruct (hexlify_digits_lower (be_split 20 a)) as [-> ->].
  rewrite length_be_split, be_combine_split. done.
Qed.

(** The address a script prints is the address [getAddress] reads. *)
Lemma get_address_to_string (a : Z) :
  0 <= a < ADDRESS_BOUND -> get_address (address_to_string a) = Some a.
Proof. intros Ha. rewrite get_address_to_string_mod. f_equal. by apply Z.mod_small. Qed.

(** ** Witnesses *)

(** The argument [0x00] of [performUpkeep]: the JavaScript number 0. *)
Lemma arrayify_num_spec_witness :
  exists bs, arrayify_num 0 = inr bs /\ bs <> [] /\ be_combine bs = 0.
Proof. apply (arrayify_num_spec 0). split; vm_compute; [discriminate|reflexivity]. Defined.

End Abi.
