(* ===== verification/Upkeep.v ===== *)
(** * Upkeep: the interface of the Counter contract, and the Counter

    The Solidity contracts are not under [src/]: this file models them from
    the spec.  What the scripts and the KeeperSimulation contract rely on is
    the keeper-compatible interface of the Counter,
    [checkUpkeep(bytes) returns (bool, bytes)] and [performUpkeep(bytes)],
    stated as the class [UpkeepContract] with the laws [UpkeepLaws] the
    spec asks of it: when [checkUpkeep] says an upkeep is needed,
    [performUpkeep] does not revert, and once performed the upkeep is no
    longer needed at the same time.  The ledger and the scripts are proved
    against the class; [counter_upkeep] is the interval Counter of the
    spec, an instance that discharges the laws.  [keeper_round] is the
    abstract step of the keeper network on such a contract: check at one
    block, perform at a later one. *)

From S2P Require Import Spec2Rocq Js Abi.

Open Scope Z_scope.

Module Upkeep.

(** [checkUpkeep] reads the state at a block timestamp with its
    [checkData] and answers [(upkeepNeeded, performData)];
    [performUpkeep] runs at a block timestamp with its [performData] and
    gives the new state, or [None] when it reverts.  [upkeep_wf] is the
    well-formedness of the state that the laws assume. *)
Class UpkeepContract (U : Type) := {
  checkUpkeep : U -> Z -> list byte -> bool * list byte;
  performUpkeep : U -> Z -> list byte -> option U;
  upkeep_wf : U -> Prop
}.

Class UpkeepLaws (U : Type) `{UpkeepContract U} := {
  perform_when_needed u t d p d' :
    upkeep_wf u -> checkUpkeep u t d = (true, p) -> is_Some (performUpkeep u t d');
  perform_wf u t d u' :
    upkeep_wf u -> performUpkeep u t d = Some u' -> upkeep_wf u';
  perform_clears u t d p d' u' d'' :
    upkeep_wf u -> checkUpkeep u t d = (true, p) -> performUpkeep u t d' = Some u' ->
    fst (checkUpkeep u' t d'') = false
}.

(** ** A keeper's round

    What the keeper network does with a keeper-compatible contract, as
    an abstract step of its state: at a block of timestamp [t] it asks
    [checkUpkeep] with [checkData]; when an upkeep is needed it runs
    [performUpkeep] with [performData] in a later block, of timestamp
    [t'], where the contract may still revert and keep its state. *)
Definition keeper_round {U : Type} `{UpkeepContract U} (u : U) (t t' : Z) (checkData performData : list byte) : U :=
  if (checkUpkeep u t checkData).1 then default u (performUpkeep u t' performData) else u.

(** ** The interval Counter

    The Counter keeps a count, an interval in seconds and the timestamp of
    the last upkeep.  An upkeep is needed once more than [interval]
    seconds have passed since [lastTimeStamp]; performing it records the
    block timestamp and counts one more upkeep.  It ignores the data it
    is given and returns empty [performData]. *)
Record counter_state := mk_counter {
  counter : Z;
  interval : Z;
  lastTimeStamp : Z
}.

Definition counter_checkUpkeep (c : counter_state) (now : Z) (_ : list byte) : bool * list byte :=
  (interval c <? now - lastTimeStamp c, []).

Definition counter_performUpkeep (c : counter_state) (now : Z) (_ : list byte) : option counter_state :=
  Some (mk_counter (counter c + 1) (interval c) now).

#[export] Instance counter_upkeep : UpkeepContract counter_state := {
  checkUpkeep := counter_checkUpkeep;
  performUpkeep := counter_performUpkeep;
  upkeep_wf c := 0 <= interval c
}.

(** The interval Counter keeps the promises of the interface: its upkeep
    never reverts, keeps the interval, and a performed upkeep is not
    needed again until time passes, because the interval is not
    negative. *)
#[export] Instance counter_laws : UpkeepLaws counter_state.
Proof.
  split; cbn; unfold counter_checkUpkeep, counter_performUpkeep.
  - intros. by eexists.
  - intros u t d u' Hwf [= <-]. done.
  - intros u t d p d' u' d'' Hwf _ [= <-]. cbn. lia.
Qed.

End Upkeep.
