(* ===== verification/Ledger.v ===== *)
(** * Ledger: the chain the scripts talk to

    The ledger is an external collaborator of the scripts; this file models
    what they observe of it.  A chain holds the code and storage of each
    contract by address, the pool of submitted transactions not yet mined,
    the latest block's height and timestamp, and the receipts of mined
    transactions.  Calls are dispatched at the level of the ABI: a function
    is selected by its name and the shape of its arguments, as a selector
    would select it; the keccak selector itself and the calldata encoding
    are not modelled.

    The contracts are modelled from the spec (their sources are not under
    [src/]): the Counter through the interface of [Upkeep], and the
    KeeperSimulation, whose constructor stores the Counter address, whose
    [checkUpkeep()] transaction stores the Counter's answer and whose
    [getUpkeepNeeded()] reads it back.

    [chain_step] is the step relation of the ledger: a transaction is
    submitted to the pool, or a block is mined.  The invariants proved by
    rule induction on it are that contracts are never removed, that a
    KeeperSimulation stays bound to the Counter address it was built with,
    that block time only grows, and that transaction hashes are
    fresh. *)

From S2P Require Import Spec2Rocq Js Abi Upkeep.
Import Abi Upkeep.

Open Scope Z_scope.

Module Ledger.

(** The storage of a KeeperSimulation: the Counter it was constructed
    with, and the last answer of that Counter's [checkUpkeep]. *)
Record keeper_sim := mk_keeper_sim {
  ks_counter : Z;
  ks_upkeepNeeded : bool
}.

(** [constructor(address counterAddress)]. *)
Definition keeper_sim_constructor (counterAddress : Z) : keeper_sim :=
  mk_keeper_sim counterAddress false.

(** The ABIs of the compiled artifacts, as the spec lists them: the
    Counter's [checkUpkeep(bytes)] is a [view] returning [(bool, bytes)]
    and its [performUpkeep(bytes)] a transaction; the KeeperSimulation's
    [checkUpkeep()] is a transaction and its [getUpkeepNeeded()] a
    [view] returning [bool]. *)
Definition counter_abi : abi :=
  [mk_fragment "checkUpkeep" [TBytes] [TBool; TBytes] true;
   mk_fragment "performUpkeep" [TBytes] [] false].

Definition keeper_sim_abi : abi :=
  [mk_fragment "checkUpkeep" [] [] false;
   mk_fragment "getUpkeepNeeded" [] [TBool] true].

(** The code deployed at an address, with its storage. *)
Inductive code (U : Type) :=
| CounterCode (u : U)
| KeeperSimCode (k : keeper_sim).
Arguments CounterCode {U} u.
Arguments KeeperSimCode {U} k.

(** A transaction calls a function of the contract at [to], or creates a
    contract. *)
Inductive tx_kind (U : Type) :=
| TxCall (to : Z) (fn : string) (args : list abi_value)
| TxCreate (init : code U).
Arguments TxCall {U} to fn args.
Arguments TxCreate {U} init.

Record tx (U : Type) := mk_tx {
  tx_hash : Z;
  tx_from : Z;
  tx_kind_of : tx_kind U
}.
Arguments mk_tx {U} tx_hash tx_from tx_kind_of.
Arguments tx_hash {U} _.
Arguments tx_from {U} _.
Arguments tx_kind_of {U} _.

Record receipt := mk_receipt {
  rc_status : bool;
  rc_block : nat;
  rc_created : option Z
}.

Record chain (U : Type) := mk_chain {
  ch_height : nat;
  ch_time : Z;
  ch_code : gmap Z (code U);
  ch_pending : list (tx U);
  ch_receipts : gmap Z receipt;
  ch_next_hash : Z
}.
Arguments mk_chain {U} ch_height ch_time ch_code ch_pending ch_receipts ch_next_hash.
Arguments ch_height {U} _.
Arguments ch_time {U} _.
Arguments ch_code {U} _.
Arguments ch_pending {U} _.
Arguments ch_receipts {U} _.
Arguments ch_next_hash {U} _.

(** ** Address allocation

    A real chain derives a new contract's address from the creator and its
    nonce through keccak-256.  The model allocates the least address from
    1 on that holds no code; [size used] rounds of the scan are enough, by
    the pigeonhole principle ([alloc_address_fresh]). *)
Fixpoint first_free (fuel : nat) (n : Z) (used : gset Z) : Z :=
  match fuel with
  | O => n
  | S f => if decide (n ∈ used) then first_free f (n + 1) used else n
  end.

Definition alloc_address (used : gset Z) : Z := first_free (size used) 1 used.

Section Chain.
Context {U : Type} `{UpkeepContract U}.

(** Running function [fn] of the contract at [to] with [args], in a
    block of timestamp [now]: the outputs and the new code map, or
    [None] when the call reverts.  An address with no code accepts any
    call and returns no data. *)
Definition exec_call (now : Z) (codes : gmap Z (code U)) (to : Z) (fn : string)
    (args : list abi_value) : option (list abi_value * gmap Z (code U)) :=
  match codes !! to with
  | None => Some ([], codes)
  | Some (CounterCode u) =>
      if String.eqb fn "checkUpkeep" then
        match args with
        | [ABytes d] => let '(b, p) := checkUpkeep u now d in Some ([ABool b; ABytes p], codes)
        | _ => None
        end
      else if String.eqb fn "performUpkeep" then
        match args with
        | [ABytes d] =>
            match performUpkeep u now d with
            | Some u' => Some ([], <[to := CounterCode u']> codes)
            | None => None
            end
        | _ => None
        end
      else None
  | Some (KeeperSimCode k) =>
      if String.eqb fn "checkUpkeep" then
        match args with
        | [] =>
            match codes !! ks_counter k with
            | Some (CounterCode u) =>
                let k' := mk_keeper_sim (ks_counter k) (checkUpkeep u now []).1 in
                Some ([], <[to := KeeperSimCode k']> codes)
            | _ => None
            end
        | _ => None
        end
      else if String.eqb fn "getUpkeepNeeded" then
        match args with
        | [] => Some ([ABool (ks_upkeepNeeded k)], codes)
        | _ => None
        end
      else None
  end.

(** A simulated call ([eth_call], and the simulation [estimateGas]
    makes) runs on the state of the latest block; its changes are
    dropped. *)
Definition simulate (c : chain U) (to : Z) (fn : string) (args : list abi_value)
    : option (list abi_value) :=
  fst <$> exec_call (ch_time c) (ch_code c) to fn args.

Definition set_receipt (h : Z) (r : receipt) (c : chain U) : chain U :=
  mk_chain (ch_height c) (ch_time c) (ch_code c) (ch_pending c)
           (<[h := r]> (ch_receipts c)) (ch_next_hash c).

Definition set_code (codes : gmap Z (code U)) (c : chain U) : chain U :=
  mk_chain (ch_height c) (ch_time c) codes (ch_pending c) (ch_receipts c) (ch_next_hash c).

(** Executing one transaction of the block being mined.  A reverted call
    leaves the code as it was and gets a failed receipt. *)
Definition apply_tx (c : chain U) (x : tx U) : chain U :=
  match tx_kind_of x with
  | TxCall to fn args =>
      match exec_call (ch_time c) (ch_code c) to fn args with
      | Some (_, codes') => set_receipt (tx_hash x) (mk_receipt true (ch_height c) None) (set_code codes' c)
      | None => set_receipt (tx_hash x) (mk_receipt false (ch_height c) None) c
      end
  | TxCreate init =>
      let a := alloc_address (dom (ch_code c)) in
      set_receipt (tx_hash x) (mk_receipt true (ch_height c) (Some a))
                  (set_code (<[a := init]> (ch_code c)) c)
  end.

(** Mining a block of timestamp [t]: every pending transaction runs, in
    the order it was submitted, and the pool is emptied. *)
Definition mine_block (t : Z) (c : chain U) : chain U :=
  fold_left apply_tx (ch_pending c)
    (mk_chain (S (ch_height c)) t (ch_code c) [] (ch_receipts c) (ch_next_hash c)).

(** The timestamp of the next block: the wall clock in seconds, and at
    least one second after the latest block. *)
Definition next_block_time (c : chain U) (clock_s : Z) : Z := Z.max (ch_time c + 1) clock_s.

(** Submitting a transaction: it gets the next hash and joins the
    pool. *)
Definition submit_tx (from : Z) (k : tx_kind U) (c : chain U) : Z * chain U :=
  let h := ch_next_hash c in
  (h, mk_chain (ch_height c) (ch_time c) (ch_code c) (ch_pending c ++ [mk_tx h from k])
               (ch_receipts c) (h + 1)).

(** The steps of the ledger, the submissions restricted to those [P]
    allows: a transaction joins the pool, or a block of a later
    timestamp is mined. *)
Inductive chain_step_by (P : Z -> tx_kind U -> Prop) : chain U -> chain U -> Prop :=
| step_submit c from k : P from k -> chain_step_by P c (submit_tx from k c).2
| step_mine c t : ch_time c < t -> chain_step_by P c (mine_block t c).

(** Any step of the ledger. *)
Definition chain_step : chain U -> chain U -> Prop := chain_step_by (fun _ _ => True).

End Chain.

(** ** Address allocation is fresh *)

Lemma first_free_spec (f : nat) (n : Z) (used : gset Z) :
  n <= first_free f n used <= n + Z.of_nat f /\
  ((first_free f n used ∉ used) \/
   (first_free f n used = n + Z.of_nat f /\ forall k, n <= k < n + Z.of_nat f -> k ∈ used)).
Proof.
  revert n; induction f as [|f IH]; intros n; simpl.
  - split; [lia|]. right. split; [lia|]. intros k Hk. lia.
  - case_decide as Hn; [|split; [lia|by left]].
    destruct (IH (n + 1)) as [Hb [Hfree|[Heq Hall]]]; split; try lia; [by left|].
    right. split; [lia|]. intros k Hk.
    destruct (decide (k = n)) as [->|Hne]; [done|]. apply Hall. lia.
Qed.

(** The allocated address holds no code, and lies in [1, size + 1]. *)
Lemma alloc_address_fresh (used : gset Z) :
  (alloc_address used ∉ used) /\ 1 <= alloc_address used <= Z.of_nat (size used) + 1.
Proof.
  unfold alloc_address. destruct (first_free_spec (size used) 1 used) as [Hb [Hfree|[Heq Hall]]].
  { split; [done|lia]. }
  split; [|lia]. intros Hin.
  assert (Z.to_nat (Z.of_nat (size used) + 1) <= size used)%nat; [|lia].
  apply (gset_Z_pigeonhole _ 1); [lia|]. intros k Hk.
  destruct (decide (k = 1 + Z.of_nat (size used))) as [->|Hne]; [by rewrite <- Heq|].
  apply Hall. lia.
Qed.

Section ChainFacts.
Context {U : Type} `{UpkeepContract U}.

(** A contract keeps its kind, and a KeeperSimulation its Counter
    address. *)
Definition same_binding (c c' : code U) : Prop :=
  match c, c' with
  | CounterCode _, CounterCode _ => True
  | KeeperSimCode k, KeeperSimCode k' => ks_counter k = ks_counter k'
  | _, _ => False
  end.

(** [m'] extends [m]: every contract of [m] is still there, bound as
    before. *)
Definition codes_extend (m m' : gmap Z (code U)) : Prop :=
  forall a c, m !! a = Some c -> exists c', m' !! a = Some c' /\ same_binding c c'.

#[export] Instance codes_extend_preorder : PreOrder codes_extend.
Proof.
  split.
  - intros m a c Ha. exists c. split; [done|]. by destruct c.
  - intros m1 m2 m3 H12 H23 a c Ha.
    destruct (H12 a c Ha) as (c2 & Hc2 & Hb2). destruct (H23 a c2 Hc2) as (c3 & Hc3 & Hb3).
    exists c3. split; [done|]. destruct c, c2, c3; simpl in *; try done; congruence.
Qed.

Lemma codes_extend_insert (m : gmap Z (code U)) (a : Z) (c : code U) :
  (forall c0, m !! a = Some c0 -> same_binding c0 c) -> codes_extend m (<[a := c]> m).
Proof.
  intros Hb a' c' Ha'. destruct (decide (a = a')) as [<-|Hne].
  - exists c. rewrite lookup_insert_eq. auto.
  - exists c'. rewrite lookup_insert_ne by done. split; [done|]. by destruct c'.
Qed.

Lemma exec_call_extends (now : Z) (m : gmap Z (code U)) (to : Z) (fn : string)
    (args : list abi_value) (outs : list abi_value) (m' : gmap Z (code U)) :
  exec_call now m to fn args = Some (outs, m') -> codes_extend m m'.
Proof.
  unfold exec_call. destruct (m !! to) as [[u|k]|] eqn:Hto;
    repeat case_match; intros; simplify_eq; try reflexivity;
    apply codes_extend_insert; intros c0; rewrite Hto; intros [= <-]; done.
Qed.

Lemma codes_extend_dom (m m' : gmap Z (code U)) : codes_extend m m' -> dom m ⊆ dom m'.
Proof.
  intros Hext a. rewrite !elem_of_dom. intros [cd Hcd].
  destruct (Hext a cd Hcd) as (cd' & -> & _). by eexists.
Qed.

Lemma apply_tx_extends (c : chain U) (x : tx U) :
  codes_extend (ch_code c) (ch_code (apply_tx c x)).
Proof.
  unfold apply_tx. destruct (tx_kind_of x) as [to fn args|init].
  - destruct (exec_call _ _ _ _ _) as [[outs m']|] eqn:E; simpl; [|reflexivity].
    by eapply exec_call_extends.
  - simpl. apply codes_extend_insert. intros c0 Hc0.
    destruct (alloc_address_fresh (dom (ch_code c))) as [Hfresh _].
    exfalso. apply Hfresh, elem_of_dom. by eexists.
Qed.

(** Any relation that [apply_tx] respects, a whole block respects. *)
Lemma fold_apply_tx_preserves (R : chain U -> chain U -> Prop) `{!PreOrder R} :
  (forall c x, R c (apply_tx c x)) ->
  forall (l : list (tx U)) (c : chain U), R c (fold_left apply_tx l c).
Proof.
  intros Hstep l. induction l as [|x l IH]; intros c; simpl; [reflexivity|].
  etrans; [apply Hstep|apply IH].
Qed.

Definition chain_code_rel (c c' : chain U) : Prop := codes_extend (ch_code c) (ch_code c').
#[export] Instance chain_code_rel_preorder : PreOrder chain_code_rel.
Proof. split; unfold chain_code_rel; [intros c; reflexivity|intros c1 c2 c3; apply transitivity]. Qed.

Definition same_header (c c' : chain U) : Prop :=
  ch_time c = ch_time c' /\ ch_height c = ch_height c' /\ ch_next_hash c = ch_next_hash c' /\
  ch_pending c = ch_pending c'.
#[export] Instance same_header_preorder : PreOrder same_header.
Proof.
  split; unfold same_header; [by intros c|].
  intros c1 c2 c3 (? & ? & ? & ?) (? & ? & ? & ?). repeat split; congruence.
Qed.

Lemma apply_tx_header (c : chain U) (x : tx U) : same_header c (apply_tx c x).
Proof. unfold apply_tx. by repeat case_match. Qed.

Lemma mine_block_extends (t : Z) (c : chain U) : chain_code_rel c (mine_block t c).
Proof.
  exact (fold_apply_tx_preserves chain_code_rel apply_tx_extends (ch_pending c)
    (mk_chain (S (ch_height c)) t (ch_code c) [] (ch_receipts c) (ch_next_hash c))).
Qed.

Lemma mine_block_header (t : Z) (c : chain U) :
  ch_time (mine_block t c) = t /\ ch_height (mine_block t c) = S (ch_height c) /\
  ch_next_hash (mine_block t c) = ch_next_hash c /\ ch_pending (mine_block t c) = [].
Proof.
  unfold mine_block.
  destruct (fold_apply_tx_preserves same_header apply_tx_header (ch_pending c)
    (mk_chain (S (ch_height c)) t (ch_code c) [] (ch_receipts c) (ch_next_hash c))) as (? & ? & ? & ?).
  simpl in *. auto.
Qed.

Lemma chain_step_extends (c c' : chain U) : chain_step c c' -> chain_code_rel c c'.
Proof. intros [|? t ?]; [unfold chain_code_rel; simpl; reflexivity|apply mine_block_extends]. Qed.

Lemma chain_steps_by_weaken (P Q : Z -> tx_kind U -> Prop) (c c' : chain U) :
  (forall from k, P from k -> Q from k) -> rtc (chain_step_by P) c c' -> rtc (chain_step_by Q) c c'.
Proof.
  intros HPQ. apply rtc_subrel. intros c1 c2 [|? t ?]; constructor; auto.
Qed.

Lemma chain_steps_extend (c c' : chain U) : rtc chain_step c c' -> chain_code_rel c c'.
Proof.
  induction 1 as [|c1 c2 c3 Hs _ IH]; [reflexivity|].
  etrans; [by apply chain_step_extends|exact IH].
Qed.

Lemma apply_tx_receipts (c : chain U) (x : tx U) :
  exists r, ch_receipts (apply_tx c x) = <[tx_hash x := r]> (ch_receipts c).
Proof. unfold apply_tx. repeat case_match; simpl; eauto. Qed.

(** After a block, a hash has a receipt when it had one or when its
    transaction was in the block. *)
Lemma fold_apply_tx_receipts (l : list (tx U)) (c : chain U) (h : Z) :
  is_Some (ch_receipts (fold_left apply_tx l c) !! h) <->
  is_Some (ch_receipts c !! h) \/ h ∈ tx_hash <$> l.
Proof.
  revert c; induction l as [|x l IH]; intros c; simpl.
  - rewrite elem_of_nil. tauto.
  - rewrite IH. destruct (apply_tx_receipts c x) as [r ->].
    rewrite lookup_insert_is_Some', elem_of_cons. intuition (subst; auto).
Qed.

(** Transaction hashes are below the next hash to be given. *)
Definition hashes_fresh (c : chain U) : Prop :=
  Forall (fun x => tx_hash x < ch_next_hash c) (ch_pending c) /\
  forall h, is_Some (ch_receipts c !! h) -> h < ch_next_hash c.

Lemma mine_block_code_time (t : Z) (c : chain U) :
  ch_time (mine_block t c) = t.
Proof. apply mine_block_header. Qed.
End ChainFacts.

(** ** Properties of the ledger *)

(** ** The functions of the contracts *)

Section ContractCalls.
Context {U : Type} `{UpkeepContract U}.

Lemma simulate_counter_check (c : chain U) (a : Z) (u : U) (d p : list byte) (b : bool) :
  ch_code c !! a = Some (CounterCode u) -> checkUpkeep u (ch_time c) d = (b, p) ->
  simulate c a "checkUpkeep" [ABytes d] = Some [ABool b; ABytes p].
Proof. intros Ha Hc. unfold simulate, exec_call. by rewrite Ha, Hc. Qed.

Lemma exec_counter_perform (now : Z) (m : gmap Z (code U)) (a : Z) (u u' : U) (d : list byte) :
  m !! a = Some (CounterCode u) -> performUpkeep u now d = Some u' ->
  exec_call now m a "performUpkeep" [ABytes d] = Some ([], <[a := CounterCode u']> m).
Proof. intros Ha Hp. unfold exec_call. by rewrite Ha, Hp. Qed.

Lemma exec_keeper_check (now : Z) (m : gmap Z (code U)) (a : Z) (k : keeper_sim) (u : U) :
  m !! a = Some (KeeperSimCode k) -> m !! ks_counter k = Some (CounterCode u) ->
  exec_call now m a "checkUpkeep" [] =
    Some ([], <[a := KeeperSimCode (mk_keeper_sim (ks_counter k) (checkUpkeep u now []).1)]> m).
Proof. intros Ha Hc. unfold exec_call. by rewrite Ha, Hc. Qed.

Lemma simulate_keeper_get (c : chain U) (a : Z) (k : keeper_sim) :
  ch_code c !! a = Some (KeeperSimCode k) ->
  simulate c a "getUpkeepNeeded" [] = Some [ABool (ks_upkeepNeeded k)].
Proof. intros Ha. unfold simulate, exec_call. by rewrite Ha. Qed.

(** A block that mines a KeeperSimulation's [checkUpkeep()] as its only
    transaction stores the Counter's answer at the block's timestamp, and
    gives the transaction a successful receipt. *)
Lemma mine_keeper_check (c : chain U) (t from a : Z) (k : keeper_sim) (u : U) :
  ch_pending c = [] -> ch_code c !! a = Some (KeeperSimCode k) ->
  ch_code c !! ks_counter k = Some (CounterCode u) ->
  let c' := mine_block t (submit_tx from (TxCall a "checkUpkeep" []) c).2 in
  ch_code c' !! a = Some (KeeperSimCode (mk_keeper_sim (ks_counter k) (checkUpkeep u t []).1)) /\
  ch_receipts c' !! ch_next_hash c = Some (mk_receipt true (S (ch_height c)) None).
Proof.
  intros Hp Ha Hc c'. subst c'. unfold mine_block, submit_tx. cbn [ch_pending]. rewrite Hp. cbn.
  rewrite (exec_keeper_check _ _ a k u) by done. cbn. by rewrite !lookup_insert_eq.
Qed.

(** A block that mines a Counter's [performUpkeep] as its only
    transaction stores the Counter's new state and gives the transaction
    a successful receipt. *)
Lemma mine_counter_perform (c : chain U) (t from a : Z) (u u' : U) (d : list byte) :
  ch_pending c = [] -> ch_code c !! a = Some (CounterCode u) -> performUpkeep u t d = Some u' ->
  let c' := mine_block t (submit_tx from (TxCall a "performUpkeep" [ABytes d]) c).2 in
  ch_code c' = <[a := CounterCode u']> (ch_code c) /\ ch_time c' = t /\
  ch_receipts c' !! ch_next_hash c = Some (mk_receipt true (S (ch_height c)) None).
Proof.
  intros Hp Ha Hu c'. subst c'. unfold mine_block, submit_tx. cbn [ch_pending]. rewrite Hp. cbn.
  rewrite (exec_counter_perform _ _ _ u u') by done. cbn. by rewrite lookup_insert_eq.
Qed.

(** A block that mines a creation as its only transaction puts the code
    at the least free address and gives the creation a receipt naming
    it. *)
(** The same block, whether [performUpkeep] runs or reverts. *)
Lemma mine_counter_perform_code (c : chain U) (t from a : Z) (u : U) (d : list byte) :
  ch_pending c = [] -> ch_code c !! a = Some (CounterCode u) ->
  ch_code (mine_block t (submit_tx from (TxCall a "performUpkeep" [ABytes d]) c).2) =
    <[a := CounterCode (default u (performUpkeep u t d))]> (ch_code c).
Proof.
  intros Hp Ha. unfold mine_block, submit_tx. cbn [ch_pending]. rewrite Hp. cbn.
  unfold apply_tx, exec_call. cbn. rewrite Ha. cbn.
  destruct (performUpkeep u t d); cbn; [done|]. by rewrite insert_id.
Qed.

Lemma mine_create (c : chain U) (t from : Z) (init : code U) :
  ch_pending c = [] ->
  let a := alloc_address (dom (ch_code c)) in
  let c' := mine_block t (submit_tx from (TxCreate init) c).2 in
  ch_code c' = <[a := init]> (ch_code c) /\
  ch_receipts c' !! ch_next_hash c = Some (mk_receipt true (S (ch_height c)) (Some a)).
Proof.
  intros Hp a c'. subst a c'. unfold mine_block, submit_tx. cbn [ch_pending]. rewrite Hp. cbn.
  split; [done|]. by rewrite lookup_insert_eq.
Qed.
End ContractCalls.

Section ChainTheorems.
Context {U : Type} `{UpkeepContract U}.

(** Once deployed, a KeeperSimulation stays at its address bound to
    the Counter address it was constructed with, whatever transactions
    are submitted and blocks mined afterwards. *)
Theorem keeper_sim_binding_stable (c c' : chain U) (a : Z) (k : keeper_sim) :
  rtc chain_step c c' -> ch_code c !! a = Some (KeeperSimCode k) ->
  exists k', ch_code c' !! a = Some (KeeperSimCode k') /\ ks_counter k' = ks_counter k.
Proof.
  intros Hsteps Ha. destruct (chain_steps_extend c c' Hsteps a _ Ha) as ([u|k'] & Hc' & Hb);
    [done|]. by exists k'.
Qed.

(** No step of the ledger removes a contract. *)
Lemma contracts_never_removed (c c' : chain U) :
  rtc chain_step c c' -> dom (ch_code c) ⊆ dom (ch_code c').
Proof.
  intros Hsteps. by apply codes_extend_dom, chain_steps_extend.
Qed.

(** Block time never goes back. *)
Lemma chain_time_monotone (c c' : chain U) :
  rtc chain_step c c' -> ch_time c <= ch_time c'.
Proof.
  induction 1 as [|c1 c2 c3 Hs _ IH]; [lia|].
  destruct Hs as [|c1 t Ht]; simpl in *; [lia|]. rewrite mine_block_code_time in IH. lia.
Qed.

(** Mining a block gives every pending transaction a receipt. *)
Lemma mine_block_receipts (t : Z) (c : chain U) (x : tx U) :
  x ∈ ch_pending c -> is_Some (ch_receipts (mine_block t c) !! tx_hash x).
Proof.
  intros Hx. unfold mine_block. apply fold_apply_tx_receipts. right.
  by apply list_elem_of_fmap_2.
Qed.

(** Every step keeps transaction hashes fresh, so the hash a submission
    gets is the hash of no other transaction. *)
Lemma chain_step_hashes_fresh (c c' : chain U) :
  hashes_fresh c -> chain_step c c' -> hashes_fresh c'.
Proof.
  intros Hf Hs. destruct Hs as [c0 from k|c0 t Ht]; destruct Hf as [Hp Hr].
  - simpl. split.
    + apply Forall_app. split; [|apply Forall_singleton; simpl; lia].
      eapply Forall_impl; [exact Hp|]. intros x Hx. simpl in *. lia.
    + intros h Hh. simpl in *. specialize (Hr h Hh). lia.
  - unfold hashes_fresh. destruct (mine_block_header t c0) as (_ & _ & -> & ->). split; [done|].
    intros h Hh. apply fold_apply_tx_receipts in Hh as [Hh|Hh]; [by apply Hr|].
    apply list_elem_of_fmap in Hh as (x & -> & Hx). rewrite Forall_forall in Hp. by apply Hp.
Qed.
End ChainTheorems.

End Ledger.
