(* ===== verification/World.v ===== *)
(** * World: the state a script runs in, and the node it talks to

    A Hardhat script sees the chain through a JSON-RPC node, prints to the
    console, and reads the Hardhat runtime environment: the selected
    network and chain id, the [networkConfig] table of
    [helper-hardhat-config], the accounts, the compiled artifacts and the
    hardhat-deploy registry.  [world] gathers all of it; the scripts are
    programs of the monad [Script], the state and exception monad of the
    prelude over [world] and [js_error].

    The node mines in one of two ways.  With automining (the in-process
    Hardhat network) every transaction is mined in a block of its own as
    soon as it is submitted.  Otherwise (a public network, or interval
    mining) blocks come when the node decides: [w_mine_sched] lists, for
    each point where the script waits on a promise ([node_tick]), whether
    a block is mined at that point.  This makes the interleaving of the
    script with the node an explicit sequence of steps. *)

From S2P Require Import Spec2Rocq Js Abi Upkeep Ledger.
Import Js Abi Upkeep Ledger.

Open Scope Z_scope.

Module World.

(** An entry of [networkConfig]; its [name] field may be absent. *)
Record net_entry := mk_net_entry { ne_name : option string }.

(** A hardhat-deploy deployment record. *)
Record deployment := mk_deployment {
  dep_address : Z;
  dep_args : list abi_value
}.

(** The levels of the ethers logger. *)
Inductive log_level := LogDebug | LogInfo | LogWarning | LogError | LogOff.

Record world (U : Type) := mk_world {
  w_chain : chain U;
  w_automine : bool;
  w_mine_sched : list bool;
  w_clock_ms : Z;
  w_console : list string;
  w_log_level : log_level;
  w_chain_id : string;
  w_network : string;
  w_net_config : gmap string net_entry;
  w_accounts : list Z;
  w_named_deployer : option Z;
  w_deployments : gmap string deployment;
  w_artifacts : gmap string abi
}.
Arguments mk_world {U}.
Arguments w_chain {U} _.
Arguments w_automine {U} _.
Arguments w_mine_sched {U} _.
Arguments w_clock_ms {U} _.
Arguments w_console {U} _.
Arguments w_log_level {U} _.
Arguments w_chain_id {U} _.
Arguments w_network {U} _.
Arguments w_net_config {U} _.
Arguments w_accounts {U} _.
Arguments w_named_deployer {U} _.
Arguments w_deployments {U} _.
Arguments w_artifacts {U} _.

Abbreviation Script U A := (ST (world U) js_error A).

Section WorldOps.
Context {U : Type} `{UpkeepContract U}.

Definition set_chain (c : chain U) (w : world U) : world U :=
  mk_world c (w_automine w) (w_mine_sched w) (w_clock_ms w) (w_console w) (w_log_level w)
    (w_chain_id w) (w_network w) (w_net_config w) (w_accounts w) (w_named_deployer w)
    (w_deployments w) (w_artifacts w).

Definition set_sched (l : list bool) (w : world U) : world U :=
  mk_world (w_chain w) (w_automine w) l (w_clock_ms w) (w_console w) (w_log_level w)
    (w_chain_id w) (w_network w) (w_net_config w) (w_accounts w) (w_named_deployer w)
    (w_deployments w) (w_artifacts w).

Definition add_console (s : string) (w : world U) : world U :=
  mk_world (w_chain w) (w_automine w) (w_mine_sched w) (w_clock_ms w) (w_console w ++ [s])
    (w_log_level w) (w_chain_id w) (w_network w) (w_net_config w) (w_accounts w)
    (w_named_deployer w) (w_deployments w) (w_artifacts w).

Definition set_log_level (l : log_level) (w : world U) : world U :=
  mk_world (w_chain w) (w_automine w) (w_mine_sched w) (w_clock_ms w) (w_console w) l
    (w_chain_id w) (w_network w) (w_net_config w) (w_accounts w) (w_named_deployer w)
    (w_deployments w) (w_artifacts w).

Definition set_deployments (d : gmap string deployment) (w : world U) : world U :=
  mk_world (w_chain w) (w_automine w) (w_mine_sched w) (w_clock_ms w) (w_console w)
    (w_log_level w) (w_chain_id w) (w_network w) (w_net_config w) (w_accounts w)
    (w_named_deployer w) d (w_artifacts w).

(** [console.log] of one line. *)
Definition log_line (s : string) : Script U unit := modify_st (add_console s).

(** The node mines a block now, at the wall clock's second. *)
Definition mine_now (w : world U) : world U :=
  let c := w_chain w in
  set_chain (mine_block (next_block_time c (w_clock_ms w / 1000)) c) w.

(** A point where the script waits on a promise: the node may mine a
    block there, as its schedule says. *)
Definition node_tick : Script U unit := fun w =>
  match w_mine_sched w with
  | [] => (Ok tt, w)
  | b :: rest => (Ok tt, if b then mine_now (set_sched rest w) else set_sched rest w)
  end.

(** [eth_sendRawTransaction]: the transaction joins the pool, and is
    mined at once when the node automines. *)
Definition send_tx (from : Z) (k : tx_kind U) : Script U Z := fun w =>
  let '(h, c') := submit_tx from k (w_chain w) in
  let w' := set_chain c' w in
  (Ok h, if w_automine w then mine_now w' else w').

(** [eth_call]: a simulated call on the latest block. *)
Definition eth_call (to : Z) (fn : string) (args : list abi_value)
    : Script U (option (list abi_value)) :=
  gets (fun w => simulate (w_chain w) to fn args).

End WorldOps.

(** ** What a script does to the chain

    [chain_effect P m]: from any world, the chain after [m] is reached
    from the chain before by ledger steps whose submissions [P] allows.
    The rules below compose it along the monad, so that a script's effect
    follows from its primitives'. *)
Section Effects.
Context {U : Type} `{UpkeepContract U}.

Definition chain_effect (P : Z -> tx_kind U -> Prop) {A} (m : Script U A) : Prop :=
  forall w, rtc (chain_step_by P) (w_chain w) (w_chain (m w).2).

#[export] Instance chain_effect_proper (P : Z -> tx_kind U -> Prop) {A} :
  Proper (st_eq ==> iff) (@chain_effect P A).
Proof. intros m1 m2 Heq. split; intros Hm w; [rewrite <- (Heq w)|rewrite (Heq w)]; apply Hm. Qed.

Lemma chain_effect_ret (P : Z -> tx_kind U -> Prop) {A} (a : A) :
  chain_effect P (mret a : Script U A).
Proof. intros w. reflexivity. Qed.

Lemma chain_effect_bind (P : Z -> tx_kind U -> Prop) {A B} (m : Script U A) (k : A -> Script U B) :
  chain_effect P m -> (forall a, chain_effect P (k a)) -> chain_effect P (m ≫= k).
Proof.
  intros Hm Hk w. cbv [mbind st_bind]. specialize (Hm w).
  destruct (m w) as [[a| |] w'] eqn:E; simpl in *; [|done|done].
  etrans; [exact Hm|apply Hk].
Qed.

Lemma chain_effect_throw (P : Z -> tx_kind U -> Prop) {A} (e : js_error) :
  chain_effect P (throw e : Script U A).
Proof. intros w. reflexivity. Qed.

Lemma chain_effect_of_sum (P : Z -> tx_kind U -> Prop) {A} (r : js_error + A) :
  chain_effect P (of_sum r : Script U A).
Proof. intros w. destruct r; reflexivity. Qed.

Lemma chain_effect_gets (P : Z -> tx_kind U -> Prop) {A} (f : world U -> A) :
  chain_effect P (gets f).
Proof. intros w. reflexivity. Qed.

Lemma chain_effect_get (P : Z -> tx_kind U -> Prop) : chain_effect P (get_st : Script U (world U)).
Proof. intros w. reflexivity. Qed.

Lemma chain_effect_log (P : Z -> tx_kind U -> Prop) (l : string) : chain_effect P (log_line l).
Proof. intros w. reflexivity. Qed.

Lemma chain_effect_modify (P : Z -> tx_kind U -> Prop) (f : world U -> world U) :
  (forall w, w_chain (f w) = w_chain w) -> chain_effect P (modify_st f).
Proof. intros Hf w. simpl. rewrite Hf. reflexivity. Qed.

Lemma mine_now_step (P : Z -> tx_kind U -> Prop) (w : world U) :
  chain_step_by P (w_chain w) (w_chain (mine_now w)).
Proof. apply step_mine. unfold next_block_time. lia. Qed.

Lemma chain_effect_tick (P : Z -> tx_kind U -> Prop) : chain_effect P node_tick.
Proof.
  intros w. unfold node_tick. destruct (w_mine_sched w) as [|[] rest]; simpl; [reflexivity| |reflexivity].
  apply rtc_once, (mine_now_step P (set_sched rest w)).
Qed.

Lemma chain_effect_send (P : Z -> tx_kind U -> Prop) (from : Z) (k : tx_kind U) :
  P from k -> chain_effect P (send_tx from k).
Proof.
  intros HP w. unfold send_tx. destruct (submit_tx from k (w_chain w)) as [h c'] eqn:E.
  assert (chain_step_by P (w_chain w) c') as Hs.
  { replace c' with (submit_tx from k (w_chain w)).2 by by rewrite E. by constructor. }
  destruct (w_automine w); simpl; [|by apply rtc_once].
  eapply rtc_l; [exact Hs|]. apply rtc_once, (mine_now_step P (set_chain c' w)).
Qed.

Lemma chain_effect_eth_call (P : Z -> tx_kind U -> Prop) (to : Z) (fn : string) (args : list abi_value) :
  chain_effect P (eth_call to fn args).
Proof. intros w. reflexivity. Qed.

Lemma chain_effect_weaken (P Q : Z -> tx_kind U -> Prop) {A} (m : Script U A) :
  (forall from k, P from k -> Q from k) -> chain_effect P m -> chain_effect Q m.
Proof. intros HPQ Hm w. eapply chain_steps_by_weaken; [exact HPQ|apply Hm]. Qed.

(** ** Runs on an idle node

    When the node mines nothing on its own, waiting changes nothing and
    a simulated call reads the chain as it is. *)
Lemma node_tick_idle (w : world U) : w_mine_sched w = [] -> node_tick w = (Ok tt, w).
Proof. unfold node_tick. by intros ->. Qed.

Lemma eth_call_run (w : world U) (to : Z) (fn : string) (args : list abi_value) :
  eth_call to fn args w = (Ok (simulate (w_chain w) to fn args), w).
Proof. reflexivity. Qed.

(** Sending leaves the node's schedule alone; without automining the
    transaction waits in the pool, with it a block including it is
    mined at once. *)
Lemma send_tx_sched (w : world U) (from : Z) (k : tx_kind U) :
  w_mine_sched (send_tx from k w).2 = w_mine_sched w.
Proof. unfold send_tx. destruct (submit_tx _ _ _), (w_automine w); reflexivity. Qed.

Lemma send_tx_run (w : world U) (from : Z) (k : tx_kind U) :
  send_tx from k w = (Ok (ch_next_hash (w_chain w)), (send_tx from k w).2).
Proof. reflexivity. Qed.

(** Sending changes the chain and nothing else of the world. *)
Lemma send_tx_only_chain (w : world U) (from : Z) (k : tx_kind U) :
  (send_tx from k w).2 = set_chain (w_chain (send_tx from k w).2) w.
Proof. unfold send_tx. destruct (submit_tx _ _ _), (w_automine w); reflexivity. Qed.

Lemma send_tx_queued (w : world U) (from : Z) (k : tx_kind U) :
  w_automine w = false -> w_chain (send_tx from k w).2 = (submit_tx from k (w_chain w)).2.
Proof. intros Ha. unfold send_tx. destruct (submit_tx _ _ _). by rewrite Ha. Qed.

Lemma send_tx_automined (w : world U) (from : Z) (k : tx_kind U) :
  w_automine w = true ->
  w_chain (send_tx from k w).2 =
    mine_block (next_block_time (w_chain w) (w_clock_ms w / 1000)) (submit_tx from k (w_chain w)).2.
Proof. intros Ha. unfold send_tx, submit_tx. by rewrite Ha. Qed.

(** ** Waiting on a node whose pool is empty

    [quiet_chain c c0]: [c] is [c0] after blocks without transactions:
    the same code, receipts and next hash, and an empty pool. *)
Definition quiet_chain (c c0 : chain U) : Prop :=
  ch_code c = ch_code c0 /\ ch_pending c = [] /\ ch_receipts c = ch_receipts c0 /\
  ch_next_hash c = ch_next_hash c0.

Lemma quiet_chain_trans (c1 c2 c3 : chain U) :
  quiet_chain c2 c1 -> quiet_chain c3 c2 -> quiet_chain c3 c1.
Proof. intros (? & ? & ? & ?) (? & ? & ? & ?). repeat split; congruence. Qed.

Lemma node_tick_run (w : world U) : node_tick w = (Ok tt, (node_tick w).2).
Proof. unfold node_tick. by destruct (w_mine_sched w) as [|[] ?]. Qed.

(** A wait point changes the chain and pops the schedule, nothing else;
    with an empty pool the chain stays quiet. *)
Lemma node_tick_env (w : world U) :
  exists c, (node_tick w).2 = set_chain c (set_sched (tail (w_mine_sched w)) w) /\
    (ch_pending (w_chain w) = [] -> quiet_chain c (w_chain w)).
Proof.
  destruct w as [c am sched clk con lvl cid net cfg acc dep deps arts]. unfold node_tick. cbn.
  destruct sched as [|[] rest]; cbn.
  - exists c. split; [reflexivity|]. intros Hp. by repeat split.
  - eexists. split; [reflexivity|]. intros Hp. cbn in Hp. unfold quiet_chain, mine_block. cbn [set_sched w_chain]. rewrite Hp.
    by repeat split.
  - exists c. split; [reflexivity|]. intros Hp. by repeat split.
Qed.
(** A wait point leaves the registry as it was. *)
Lemma node_tick_deployments (w : world U) : w_deployments (node_tick w).2 = w_deployments w.
Proof. by destruct (node_tick_env w) as (c & -> & _). Qed.
End Effects.

#[export] Hint Resolve chain_effect_ret chain_effect_throw chain_effect_of_sum chain_effect_gets
  chain_effect_get chain_effect_log chain_effect_modify chain_effect_tick chain_effect_eth_call : s2p.

(** Name the world a wait point leaves: the chain [c] it mined, with
    [Q] saying the chain stays quiet. *)
Ltac tick_env c Q :=
  match goal with |- context [(node_tick ?x).2] => destruct (node_tick_env x) as (c & -> & Q) end.

(** Decompose a script into its primitives, case by case. *)
Ltac solve_effect :=
  repeat match goal with
  | |- forall _, _ => intros ?
  | |- chain_effect _ (throw _ ≫= _) => setoid_rewrite st_bind_throw
  | |- chain_effect _ (mret _ ≫= _) => setoid_rewrite st_bind_ret_l
  | |- chain_effect _ (_ ≫= _) => apply chain_effect_bind; [|intros ?]
  | |- chain_effect _ (if ?b then _ else _) => destruct b
  | |- chain_effect _ (match ?x with _ => _ end) => destruct x
  | |- chain_effect _ _ => solve [eauto with s2p]
  end.

End World.
