(* ===== verification/Ethers.v ===== *)
(** * Ethers: the contract binding of [new ethers.Contract]

    Both tasks build a binding with [new ethers.Contract(contractAddr,
    Factory.interface, signer)] and call its methods.  What a method call
    does, in the order ethers v5 does it: the method must be the only
    fragment of its name; [populateTransaction] ([populate_tx]) checks the
    number of arguments, resolves the address (or ENS name) and coerces
    the arguments to their ABI types.  A binding made without a signer has
    no provider either: a view call is populated, then fails reading
    [.call] of [null]; a transaction is refused for want of a signer.
    With a signer, a [view] or [pure] fragment is run as a
    simulated call whose outputs are decoded (a single output is returned
    bare, several as an array), and any other fragment is first simulated
    to estimate its gas, then sent as a transaction whose response (with
    its hash) is returned without waiting for it to be mined. *)

From S2P Require Import Spec2Rocq Js Abi Upkeep Ledger World.
Import Js Abi Upkeep Ledger World.

Open Scope Z_scope.

Module Ethers.

Record contract := mk_contract {
  ct_target : string;
  ct_abi : abi;
  ct_signer : option Z
}.

(** [new ethers.Contract(addressOrName, abi, signer)].  Without a signer
    there is no provider, and a name that is not an address cannot be
    resolved at all. *)
Definition new_contract (addr : string) (iface : abi) (signer : option Z) : js_error + contract :=
  match signer, get_address addr with
  | None, None => inl (UnsupportedOperation "provider is required to use ENS name as contract address")
  | _, _ => inr (mk_contract addr iface signer)
  end.

Definition is_hex_string (s : string) : bool :=
  match String.list_ascii_of_string s with
  | "0"%char :: "x"%char :: body => forallb is_hex_digit body
  | _ => false
  end.

(** [contract.resolvedAddress]: an address, or else an ENS name, which the
    networks the scripts run on do not support.  A hex string that is not
    an address is refused as such. *)
Definition resolve_address (s : string) : js_error + Z :=
  match get_address s with
  | Some a => inr a
  | None =>
      if is_hex_string s then inl (InvalidArgument "invalid address")
      else inl (UnsupportedOperation "network does not support ENS")
  end.

(** [contract[fn]] is defined when exactly one fragment has that name. *)
Definition find_function (iface : abi) (fn : string) : option fragment :=
  match filter (fun fr => fr_name fr = fn) iface with
  | [fr] => Some fr
  | _ => None
  end.

(** The coders of [encodeFunctionData], one argument at a time. *)
Definition coerce_arg (t : abi_type) (v : jsval) : js_error + abi_value :=
  match t with
  | TBytes =>
      match v with
      | JStr s => match arrayify_hex s with inl e => inl e | inr bs => inr (ABytes bs) end
      | JNum n => match arrayify_num n with inl e => inl e | inr bs => inr (ABytes bs) end
      | _ => inl (InvalidArgument "invalid arrayify value")
      end
  | TUint256 =>
      match bignumber_from v with
      | inl e => inl e
      | inr n => match encode_uint_word n with inl e => inl e | inr _ => inr (AUint n) end
      end
  | TBool => inr (ABool (truthy v))
  | TAddress =>
      match v with
      | JStr s => match get_address s with Some a => inr (AAddress a) | None => inl (InvalidArgument "invalid address") end
      | _ => inl (InvalidArgument "invalid address")
      end
  end.

Fixpoint coerce_args (ts : list abi_type) (vs : list jsval) : js_error + list abi_value :=
  match ts, vs with
  | [], [] => inr []
  | t :: ts', v :: vs' =>
      match coerce_arg t v with
      | inl e => inl e
      | inr a => match coerce_args ts' vs' with inl e => inl e | inr r => inr (a :: r) end
      end
  | _, _ => inl (InvalidArgument "types/values length mismatch")
  end.

Definition has_type (t : abi_type) (v : abi_value) : bool :=
  match t, v with
  | TUint256, AUint _ | TBytes, ABytes _ | TBool, ABool _ | TAddress, AAddress _ => true
  | _, _ => false
  end.

(** How ethers hands a decoded ABI value to JavaScript. *)
Definition to_js (v : abi_value) : jsval :=
  match v with
  | AUint z => JBigNumber z
  | ABytes bs => JStr (hexlify bs)
  | ABool b => JBool b
  | AAddress a => JStr (address_to_string a)
  end.

(** [decodeFunctionResult], with a single output returned bare.  Data
    that does not decode (an address without code returns none) is a
    call exception. *)
Definition decode_result (outs : list abi_type) (vs : list abi_value) : js_error + jsval :=
  if (length outs =? length vs)%nat && forallb (fun p => has_type p.1 p.2) (zip outs vs) then
    match vs with
    | [v] => inr (to_js v)
    | _ => inr (JArr (map to_js vs))
    end
  else inl (CallException "call revert exception").

Definition hash_string (h : Z) : string := hexlify (be_split 32 h).

Section Invoke.
Context {U : Type} `{UpkeepContract U}.

(** [populateTransaction]: the number of arguments must match, the
    address is resolved and the arguments are coerced; nothing is asked
    of the node. *)
Definition populate_tx (ct : contract) (fr : fragment) (args : list jsval) : js_error + (Z * list abi_value) :=
  if negb (length args =? length (fr_inputs fr))%nat then
    inl (InvalidArgument
           (if (length args <? length (fr_inputs fr))%nat then "missing argument"
            else "too many arguments"))
  else
    match resolve_address (ct_target ct) with
    | inl e => inl e
    | inr to =>
        match coerce_args (fr_inputs fr) args with
        | inl e => inl e
        | inr vals => inr (to, vals)
        end
    end.

(** [await contract.fn(...args)].  Without a signer the binding has no
    provider either: a transaction is refused at once ([buildSend]), and
    a call populates its transaction and then calls [call] on [null]
    ([buildCall]). *)
Definition invoke (ct : contract) (fn : string) (args : list jsval) : Script U jsval :=
  match find_function (ct_abi ct) fn with
  | None => throw (TypeError (fn +:+ " is not a function"))
  | Some fr =>
      match ct_signer ct with
      | None =>
          if fr_constant fr then
            _ ← of_sum (populate_tx ct fr args);
            throw (TypeError "Cannot read properties of null (reading 'call')")
          else throw (UnsupportedOperation "sending a transaction requires a signer")
      | Some from =>
          '(to, vals) ← of_sum (populate_tx ct fr args);
          node_tick;;
          r ← eth_call to fn vals;
          if fr_constant fr then
            match r with
            | None => throw (CallException "call revert exception")
            | Some outs => of_sum (decode_result (fr_outputs fr) outs)
            end
          else
            match r with
            | None => throw (UnpredictableGasLimit "cannot estimate gas; transaction may fail")
            | Some _ =>
                h ← send_tx from (TxCall to fn vals);
                mret (JTxResponse (hash_string h))
            end
      end
  end.
End Invoke.

Lemma populate_tx_ok (ct : contract) (fr : fragment) (args : list jsval) (to : Z) (vals : list abi_value) :
  length args = length (fr_inputs fr) -> resolve_address (ct_target ct) = inr to ->
  coerce_args (fr_inputs fr) args = inr vals -> populate_tx ct fr args = inr (to, vals).
Proof. intros Hl Hr Hc. unfold populate_tx. by rewrite Hl, Nat.eqb_refl, Hr, Hc. Qed.

Lemma populate_tx_inv (ct : contract) (fr : fragment) (args : list jsval) (to : Z) (vals : list abi_value) :
  populate_tx ct fr args = inr (to, vals) ->
  resolve_address (ct_target ct) = inr to /\ coerce_args (fr_inputs fr) args = inr vals.
Proof.
  unfold populate_tx. destruct (negb _); [done|].
  destruct (resolve_address _), (coerce_args _ _); by intros [= -> ->].
Qed.

(** ** Properties of a method call *)

Lemma new_contract_ok (addr : string) (iface : abi) (signer : option Z) (ct : contract) :
  new_contract addr iface signer = inr ct -> ct = mk_contract addr iface signer.
Proof. unfold new_contract. by destruct signer, (get_address addr); intros [= <-]. Qed.

(** A byte string passed as its hex string is coerced back to itself. *)
Lemma coerce_bytes_hexlify (d : list byte) : coerce_args [TBytes] [JStr (hexlify d)] = inr [ABytes d].
Proof. simpl. by rewrite arrayify_hexlify. Qed.

Section InvokeFacts.
Context {U : Type} `{UpkeepContract U}.

(** What a call of [fn] may submit: only a transaction of the binding's
    signer, to the resolved address, calling [fn] of a non-constant
    fragment with the coerced arguments. *)
Definition invoke_submits (ct : contract) (fn : string) (args : list jsval)
    (from : Z) (k : tx_kind U) : Prop :=
  ct_signer ct = Some from /\
  exists fr to vals, find_function (ct_abi ct) fn = Some fr /\ fr_constant fr = false /\
    resolve_address (ct_target ct) = inr to /\ coerce_args (fr_inputs fr) args = inr vals /\
    k = TxCall to fn vals.

(** A submission of a binding to [addr]: a call of one of [fns] at the
    address [addr] resolves to. *)
Definition binding_calls (addr : string) (fns : list string) (from : Z) (k : tx_kind U) : Prop :=
  exists to fn vals, resolve_address addr = inr to /\ k = TxCall to fn vals /\ fn ∈ fns.

Lemma invoke_effect (ct : contract) (fn : string) (args : list jsval) :
  chain_effect (invoke_submits ct fn args) (invoke ct fn args).
Proof.
  unfold invoke. destruct (find_function _ fn) as [fr|] eqn:Hf; [|solve_effect].
  destruct (ct_signer ct) as [from|] eqn:Hs; [|solve_effect].
  destruct (populate_tx ct fr args) as [e|[to vals]] eqn:Hp; cbn [of_sum]; [solve_effect|].
  destruct (populate_tx_inv _ _ _ _ _ Hp) as [Hr Hc].
  setoid_rewrite st_bind_ret_l.
  apply chain_effect_bind; [solve_effect|intros _].
  apply chain_effect_bind; [solve_effect|intros r].
  destruct (fr_constant fr) eqn:Hk; [solve_effect|].
  destruct r; [|solve_effect].
  apply chain_effect_bind; [|solve_effect].
  apply chain_effect_send. split; [done|]. by exists fr, to, vals.
Qed.

Lemma invoke_binding_effect (addr : string) (iface : abi) (signer : option Z) (fn : string)
    (args : list jsval) (fns : list string) :
  fn ∈ fns -> chain_effect (binding_calls addr fns) (invoke (mk_contract addr iface signer) fn args).
Proof.
  intros Hfn. eapply chain_effect_weaken; [|apply invoke_effect].
  intros from k (_ & fr & to & vals & _ & _ & Hr & _ & ->). by exists to, fn, vals.
Qed.

Lemma invoke_any_effect (ct : contract) (fn : string) (args : list jsval) :
  chain_effect (fun _ _ => True) (invoke ct fn args).
Proof. eapply chain_effect_weaken; [|apply invoke_effect]. done. Qed.

(** Binding a contract: the script that follows runs with the binding
    [new_contract] builds. *)
Lemma chain_effect_new_contract {A} (P : Z -> tx_kind U -> Prop) (addr : string) (iface : abi)
    (signer : option Z) (k : contract -> Script U A) :
  (forall ct, ct = mk_contract addr iface signer -> chain_effect P (k ct)) ->
  chain_effect P (of_sum (new_contract addr iface signer) ≫= k).
Proof.
  intros Hk. destruct (new_contract _ _ _) as [e|ct] eqn:Ect; cbn [of_sum].
  - setoid_rewrite st_bind_throw. apply chain_effect_throw.
  - setoid_rewrite st_bind_ret_l. by apply Hk, new_contract_ok.
Qed.

(** A constant fragment on an idle node: a simulated call, and the world
    unchanged. *)
Lemma invoke_call_run (ct : contract) (fn : string) (args : list jsval) (w : world U)
    (fr : fragment) (from to : Z) (vals outs : list abi_value) (v : jsval) :
  find_function (ct_abi ct) fn = Some fr -> fr_constant fr = true -> ct_signer ct = Some from ->
  length args = length (fr_inputs fr) -> resolve_address (ct_target ct) = inr to ->
  coerce_args (fr_inputs fr) args = inr vals -> w_mine_sched w = [] ->
  simulate (w_chain w) to fn vals = Some outs -> decode_result (fr_outputs fr) outs = inr v ->
  invoke ct fn args w = (Ok v, w).
Proof.
  intros Hf Hk Hs Hl Hr Hc Hi Hsim Hd. unfold invoke. rewrite Hf, Hs, (populate_tx_ok _ _ _ to vals) by done.
  run_script. rewrite node_tick_idle by done. rewrite eth_call_run, Hk, Hsim.
  by rewrite Hd.
Qed.

(** A non-constant fragment on an idle node: its simulation passes, it
    is sent with the next hash, and its response is returned. *)
Lemma invoke_send_run (ct : contract) (fn : string) (args : list jsval) (w : world U)
    (fr : fragment) (from to : Z) (vals outs : list abi_value) :
  find_function (ct_abi ct) fn = Some fr -> fr_constant fr = false -> ct_signer ct = Some from ->
  length args = length (fr_inputs fr) -> resolve_address (ct_target ct) = inr to ->
  coerce_args (fr_inputs fr) args = inr vals -> w_mine_sched w = [] ->
  simulate (w_chain w) to fn vals = Some outs ->
  invoke ct fn args w =
    (Ok (JTxResponse (hash_string (ch_next_hash (w_chain w)))),
     (send_tx from (TxCall to fn vals) w).2).
Proof.
  intros Hf Hk Hs Hl Hr Hc Hi Hsim. unfold invoke. rewrite Hf, Hs, (populate_tx_ok _ _ _ to vals) by done.
  run_script. rewrite node_tick_idle by done. rewrite eth_call_run, Hk, Hsim.
  by unfold send_tx, submit_tx.
Qed.

(** A non-constant fragment whose simulation reverts: gas estimation
    fails, and nothing is sent. *)
(** A constant fragment whose simulation reverts, on an idle node. *)
Lemma invoke_call_reverts (ct : contract) (fn : string) (args : list jsval) (w : world U)
    (fr : fragment) (from to : Z) (vals : list abi_value) :
  find_function (ct_abi ct) fn = Some fr -> fr_constant fr = true -> ct_signer ct = Some from ->
  length args = length (fr_inputs fr) -> resolve_address (ct_target ct) = inr to ->
  coerce_args (fr_inputs fr) args = inr vals -> w_mine_sched w = [] ->
  simulate (w_chain w) to fn vals = None ->
  invoke ct fn args w = (Thrown (CallException "call revert exception"), w).
Proof.
  intros Hf Hk Hs Hl Hr Hc Hi Hsim. unfold invoke. rewrite Hf, Hs, (populate_tx_ok _ _ _ to vals) by done.
  run_script. rewrite node_tick_idle by done. by rewrite eth_call_run, Hk, Hsim.
Qed.

Lemma invoke_estimate_fails (ct : contract) (fn : string) (args : list jsval) (w : world U)
    (fr : fragment) (from to : Z) (vals : list abi_value) :
  find_function (ct_abi ct) fn = Some fr -> fr_constant fr = false -> ct_signer ct = Some from ->
  length args = length (fr_inputs fr) -> resolve_address (ct_target ct) = inr to ->
  coerce_args (fr_inputs fr) args = inr vals -> w_mine_sched w = [] ->
  simulate (w_chain w) to fn vals = None ->
  invoke ct fn args w = (Thrown (UnpredictableGasLimit "cannot estimate gas; transaction may fail"), w).
Proof.
  intros Hf Hk Hs Hl Hr Hc Hi Hsim. unfold invoke. rewrite Hf, Hs, (populate_tx_ok _ _ _ to vals) by done.
  run_script. rewrite node_tick_idle by done. by rewrite eth_call_run, Hk, Hsim.
Qed.
End InvokeFacts.

#[export] Hint Resolve invoke_any_effect : s2p.

End Ethers.
