(* ===== verification/Hardhat.v ===== *)
(** * Hardhat: the runtime calls of the scripts

    The functions of the Hardhat runtime environment, of hardhat-deploy
    and of [helper-hardhat-config] that the scripts await: the artifact of
    a contract ([ethers.getContractFactory]), the accounts
    ([ethers.getSigners], [getNamedAccounts]), the chain id, the network
    name of [networkConfig], the deployment registry ([deployments.get])
    and [deployments.deploy].

    [deploy] is hardhat-deploy's: when the registry already holds a
    deployment of that name with the same arguments, it is reused and
    nothing is sent; otherwise the creation transaction is sent, the
    script waits for its receipt, and the new address is recorded.  The
    wait ends when a block includes the transaction; when the node never
    mines it, the promise never settles ([Blocked]).  Every wait point
    is a chance for the node to mine, so [length (w_mine_sched w) + 1]
    polls are enough: after the schedule is spent, no block will come. *)

From S2P Require Import Spec2Rocq Js Abi Upkeep Ledger World Ethers.
Import Js Abi Upkeep Ledger World Ethers.

Open Scope Z_scope.

Module Hardhat.

(** The double quote, which hardhat-deploy puts around contract names. *)
Definition dq : string := String.String (ascii_of_nat 34) EmptyString.

(** [getNetworkIdFromName] of [helper-hardhat-config]: a chain id whose
    entry is named [name], if any. *)
Definition network_id_of (cfg : gmap string net_entry) (name : string) : option string :=
  match filter (fun p => ne_name p.2 = Some name) (map_to_list cfg) with
  | (id, _) :: _ => Some id
  | [] => None
  end.

(** [networkConfig[chainId]['name']]: reading a field of a missing entry
    throws. *)
Definition network_name_of (cfg : gmap string net_entry) (cid : string) : js_error + jsval :=
  match cfg !! cid with
  | None => inl (TypeError "Cannot read properties of undefined (reading 'name')")
  | Some e => inr (match ne_name e with Some n => JStr n | None => JUndefined end)
  end.

(** What [deploy] resolves to. *)
Record deploy_result := mk_deploy_result {
  dr_address : Z;
  dr_newly_deployed : bool
}.

Section Runtime.
Context {U : Type} `{UpkeepContract U}.

Definition blocked {A} : Script U A := fun w => (Blocked, w).

Definition getNetworkIdFromName (name : string) : Script U (option string) :=
  node_tick;; cfg ← gets w_net_config; mret (network_id_of cfg name).

Definition getContractFactory (name : string) : Script U abi :=
  node_tick;;
  arts ← gets w_artifacts;
  match arts !! name with
  | Some iface => mret iface
  | None => throw (HardhatError ("HH700: Artifact for contract " +:+ dq +:+ name +:+ dq +:+ " not found."))
  end.

Definition getSigners : Script U (list Z) := node_tick;; gets w_accounts.

Definition getNamedAccounts_deployer : Script U (option Z) := node_tick;; gets w_named_deployer.

Definition getChainId : Script U string := node_tick;; gets w_chain_id.

Definition deployments_get (name : string) : Script U deployment :=
  node_tick;;
  d ← gets w_deployments;
  match d !! name with
  | Some r => mret r
  | None => throw (DeployError ("No deployment found for: " +:+ name))
  end.

(** Poll for the receipt of [h], waiting once per round. *)
Fixpoint wait_receipt (fuel : nat) (h : Z) : Script U receipt :=
  w ← get_st;
  match ch_receipts (w_chain w) !! h with
  | Some r => mret r
  | None =>
      match fuel with
      | O => blocked
      | S f => node_tick;; wait_receipt f h
      end
  end.

Definition wait_for (h : Z) : Script U receipt :=
  w ← get_st; wait_receipt (S (length (w_mine_sched w))) h.

(** A new deployment: the creation transaction is sent, its receipt
    awaited, the address logged and recorded under [name]. *)
Definition deploy_new (name : string) (from : option Z) (args : list abi_value) (init : code U)
    : Script U deploy_result :=
  match from with
  | None => throw (DeployError "no from specified")
  | Some f =>
      node_tick;;
      h ← send_tx f (TxCreate init);
      r ← wait_for h;
      match rc_created r with
      | None => throw (DeployError "contract creation failed")
      | Some a =>
          log_line ("deploying " +:+ dq +:+ name +:+ dq +:+ " (tx: " +:+ hash_string h +:+
                    ")...: deployed at " +:+ address_to_string a);;
          modify_st (fun w' => set_deployments (<[name := mk_deployment a args]> (w_deployments w')) w');;
          mret (mk_deploy_result a true)
      end
  end.

(** [deployments.deploy(name, {from, args, log: true})]: a deployment of
    the same name and arguments is reused. *)
Definition deploy (name : string) (from : option Z) (args : list abi_value) (init : code U)
    : Script U deploy_result :=
  w ← get_st;
  match w_deployments w !! name with
  | Some d =>
      if decide (dep_args d = args) then
        log_line ("reusing " +:+ dq +:+ name +:+ dq +:+ " at " +:+ address_to_string (dep_address d));;
        mret (mk_deploy_result (dep_address d) false)
      else deploy_new name from args init
  | None => deploy_new name from args init
  end.
End Runtime.

(** ** Runs on an idle node *)

Section RuntimeFacts.
Context {U : Type} `{UpkeepContract U}.

Lemma getNetworkIdFromName_idle (w : world U) (name : string) :
  w_mine_sched w = [] ->
  getNetworkIdFromName name w = (Ok (network_id_of (w_net_config w) name), w).
Proof. intros Hi. unfold getNetworkIdFromName. run_script. by rewrite node_tick_idle. Qed.

Lemma getContractFactory_idle (w : world U) (name : string) :
  w_mine_sched w = [] ->
  getContractFactory name w =
    match w_artifacts w !! name with
    | Some iface => (Ok iface, w)
    | None => (Thrown (HardhatError ("HH700: Artifact for contract " +:+ dq +:+ name +:+ dq +:+ " not found.")), w)
    end.
Proof.
  intros Hi. unfold getContractFactory. run_script. rewrite node_tick_idle by done.
  by destruct (w_artifacts w !! name).
Qed.

Lemma getSigners_idle (w : world U) : w_mine_sched w = [] -> getSigners w = (Ok (w_accounts w), w).
Proof. intros Hi. unfold getSigners. run_script. by rewrite node_tick_idle. Qed.

Lemma getNamedAccounts_deployer_idle (w : world U) :
  w_mine_sched w = [] -> getNamedAccounts_deployer w = (Ok (w_named_deployer w), w).
Proof. intros Hi. unfold getNamedAccounts_deployer. run_script. by rewrite node_tick_idle. Qed.

Lemma getChainId_idle (w : world U) : w_mine_sched w = [] -> getChainId w = (Ok (w_chain_id w), w).
Proof. intros Hi. unfold getChainId. run_script. by rewrite node_tick_idle. Qed.

Lemma deployments_get_idle (w : world U) (name : string) :
  w_mine_sched w = [] ->
  deployments_get name w =
    match w_deployments w !! name with
    | Some r => (Ok r, w)
    | None => (Thrown (DeployError ("No deployment found for: " +:+ name)), w)
    end.
Proof.
  intros Hi. unfold deployments_get. run_script. rewrite node_tick_idle by done.
  by destruct (w_deployments w !! name).
Qed.

Lemma getContractFactory_effect (P : Z -> tx_kind U -> Prop) (name : string) :
  chain_effect P (getContractFactory name).
Proof. unfold getContractFactory. solve_effect. Qed.

Lemma getNetworkIdFromName_effect (P : Z -> tx_kind U -> Prop) (name : string) :
  chain_effect P (getNetworkIdFromName name).
Proof. unfold getNetworkIdFromName. solve_effect. Qed.

Lemma getSigners_effect (P : Z -> tx_kind U -> Prop) : chain_effect P getSigners.
Proof. unfold getSigners. solve_effect. Qed.

Lemma getNamedAccounts_deployer_effect (P : Z -> tx_kind U -> Prop) : chain_effect P getNamedAccounts_deployer.
Proof. unfold getNamedAccounts_deployer. solve_effect. Qed.

Lemma getChainId_effect (P : Z -> tx_kind U -> Prop) : chain_effect P getChainId.
Proof. unfold getChainId. solve_effect. Qed.

Lemma deployments_get_effect (P : Z -> tx_kind U -> Prop) (name : string) :
  chain_effect P (deployments_get name).
Proof. unfold deployments_get. solve_effect. Qed.
(** ** Waiting for a receipt *)

Lemma wait_receipt_found (fuel : nat) (h : Z) (w : world U) (r : receipt) :
  ch_receipts (w_chain w) !! h = Some r -> wait_receipt fuel h w = (Ok r, w).
Proof. intros Hr. destruct fuel; cbn [wait_receipt]; run_script; by rewrite Hr. Qed.

(** A transaction in the pool gets its receipt at the first block the
    node mines, and the poll that follows finds it: when the schedule
    has a block, as many polls as the schedule is long, and one more,
    are enough. *)
Lemma wait_receipt_mined (fuel : nat) (h : Z) (w : world U) :
  h ∈ tx_hash <$> ch_pending (w_chain w) -> true ∈ w_mine_sched w ->
  (length (w_mine_sched w) < fuel)%nat ->
  exists r w', wait_receipt fuel h w = (Ok r, w') /\ ch_receipts (w_chain w') !! h = Some r.
Proof.
  revert w. induction fuel as [|f IH]; intros w Hh Ht Hl; [lia|].
  destruct (ch_receipts (w_chain w) !! h) as [r|] eqn:Hr.
  { exists r, w. split; [by apply wait_receipt_found|done]. }
  cbn [wait_receipt]. run_script. rewrite Hr. unfold node_tick.
  destruct (w_mine_sched w) as [|[] rest] eqn:Hs; [by apply elem_of_nil in Ht| |].
  - assert (is_Some (ch_receipts (w_chain (mine_now (set_sched rest w))) !! h)) as [r Hr1].
    { apply list_elem_of_fmap in Hh as (x & Hhx & Hx). rewrite Hhx. by apply mine_block_receipts. }
    exists r, (mine_now (set_sched rest w)). split; [by apply wait_receipt_found|done].
  - apply elem_of_cons in Ht as [Ht|Ht]; [done|].
    apply IH; [exact Hh|exact Ht|]. cbn in Hl |- *. lia.
Qed.

(** When the node mines no block, a transaction without a receipt never
    gets one: the wait never settles. *)
Lemma wait_receipt_blocked (fuel : nat) (h : Z) (w : world U) :
  ch_receipts (w_chain w) !! h = None -> (forall b, b ∈ w_mine_sched w -> b = false) ->
  exists w', wait_receipt fuel h w = (Blocked, w').
Proof.
  revert w. induction fuel as [|f IH]; intros w Hr Hb; cbn [wait_receipt]; run_script; rewrite Hr.
  { by eexists. }
  unfold node_tick. destruct (w_mine_sched w) as [|b rest] eqn:Hs.
  - apply IH; [done|]. rewrite Hs. set_solver.
  - rewrite (Hb b) by set_solver. apply IH; [done|]. intros b' Hb'. apply Hb. cbn in Hb'. set_solver.
Qed.

(** The wait of [deploy] settles as soon as the node mines a block: the
    fuel [length (w_mine_sched w) + 1] is enough. *)
Theorem wait_for_settles (h : Z) (w : world U) :
  h ∈ tx_hash <$> ch_pending (w_chain w) -> true ∈ w_mine_sched w ->
  exists r w', wait_for h w = (Ok r, w') /\ ch_receipts (w_chain w') !! h = Some r.
Proof. intros Hh Ht. unfold wait_for. run_script. apply wait_receipt_mined; [done|done|lia]. Qed.

Theorem wait_for_never (h : Z) (w : world U) :
  ch_receipts (w_chain w) !! h = None -> (forall b, b ∈ w_mine_sched w -> b = false) ->
  exists w', wait_for h w = (Blocked, w').
Proof. intros Hr Hb. unfold wait_for. run_script. by apply wait_receipt_blocked. Qed.

(** ** Runs on a node that mines

    Whatever the node does at a wait point, the calls answer from the
    environment, which only the chain and the schedule can change. *)

Lemma getNamedAccounts_deployer_run (w : world U) :
  getNamedAccounts_deployer w = (Ok (w_named_deployer w), (node_tick w).2).
Proof.
  unfold getNamedAccounts_deployer. run_script. rewrite node_tick_run.
  destruct (node_tick_env w) as (c & -> & _). reflexivity.
Qed.

Lemma getChainId_run (w : world U) : getChainId w = (Ok (w_chain_id w), (node_tick w).2).
Proof.
  unfold getChainId. run_script. rewrite node_tick_run.
  destruct (node_tick_env w) as (c & -> & _). reflexivity.
Qed.

Lemma deployments_get_run (w : world U) (name : string) (r : deployment) :
  w_deployments w !! name = Some r -> deployments_get name w = (Ok r, (node_tick w).2).
Proof.
  intros Hr. unfold deployments_get. run_script. rewrite node_tick_run.
  destruct (node_tick_env w) as (c & Hw & _). rewrite Hw. cbn [set_chain set_sched w_deployments].
  by rewrite Hr.
Qed.

(** A wait only changes the chain and the schedule. *)
Lemma wait_receipt_env (fuel : nat) (h : Z) (w : world U) :
  exists c l, (wait_receipt fuel h w).2 = set_chain c (set_sched l w).
Proof.
  revert w. induction fuel as [|f IH]; intros w; cbn [wait_receipt]; run_script;
    (destruct (ch_receipts (w_chain w) !! h); [by exists (w_chain w), (w_mine_sched w); destruct w|]).
  - exists (w_chain w), (w_mine_sched w). by destruct w.
  - rewrite node_tick_run. destruct (node_tick_env w) as (c & Hw & _). rewrite Hw.
    destruct (IH (set_chain c (set_sched (tail (w_mine_sched w)) w))) as (c' & l' & ->). by exists c', l'.
Qed.

(** Waiting for a creation sent to a node whose pool held nothing else:
    the first block the schedule mines creates the contract at the least
    free address, and the next poll returns its receipt. *)
Lemma wait_create (fuel : nat) (w : world U) (c0 : chain U) (f : Z) (init : code U) :
  w_chain w = (submit_tx f (TxCreate init) c0).2 -> ch_pending c0 = [] ->
  ch_receipts c0 !! ch_next_hash c0 = None -> (length (w_mine_sched w) < fuel)%nat ->
  true ∈ w_mine_sched w ->
  exists ht c l, wait_receipt fuel (ch_next_hash c0) w =
    (Ok (mk_receipt true ht (Some (alloc_address (dom (ch_code c0))))), set_chain c (set_sched l w)).
Proof.
  revert w. induction fuel as [|n IH]; intros w Hw Hp Hr Hl Ht; [lia|].
  cbn [wait_receipt]. run_script. rewrite Hw. cbn [submit_tx snd ch_receipts]. rewrite Hr.
  unfold node_tick. destruct (w_mine_sched w) as [|[] rest] eqn:Hs; [by apply elem_of_nil in Ht| |].
  - destruct (mine_create c0 (next_block_time (w_chain w) (w_clock_ms w / 1000)) f init Hp) as [_ Hrc].
    rewrite wait_receipt_found with (r := mk_receipt true (S (ch_height c0)) (Some (alloc_address (dom (ch_code c0))))).
    + by eexists _, _, rest.
    + cbn [mine_now set_chain set_sched w_chain w_clock_ms]. rewrite Hw. rewrite Hw in Hrc. exact Hrc.
  - apply elem_of_cons in Ht as [Ht|Ht]; [done|].
    destruct (IH (set_sched rest w)) as (ht & c & l & E); [exact Hw|exact Hp|exact Hr| |exact Ht|].
    + cbn in Hl |- *. lia.
    + exists ht, c, l. exact E.
Qed.

(** ** A new deployment on a node that does not automine

    The creation waits in the pool: [deploy] returns once a block is
    mined at one of the wait points that follow its own, and never
    otherwise. *)
Lemma deploy_new_waits (w : world U) (name : string) (f : Z) (args : list abi_value) (init : code U) :
  w_automine w = false -> ch_pending (w_chain w) = [] ->
  ch_receipts (w_chain w) !! ch_next_hash (w_chain w) = None ->
  (true ∈ tail (w_mine_sched w) ->
     exists w', deploy_new name (Some f) args init w =
       (Ok (mk_deploy_result (alloc_address (dom (ch_code (w_chain w)))) true), w') /\
       w_deployments w' = <[name := mk_deployment (alloc_address (dom (ch_code (w_chain w)))) args]> (w_deployments w)) /\
  ((forall b, b ∈ tail (w_mine_sched w) -> b = false) ->
     exists w', deploy_new name (Some f) args init w = (Blocked, w') /\ w_deployments w' = w_deployments w).
Proof.
  intros Ha Hp Hr. unfold deploy_new, log_line. run_script. rewrite node_tick_run.
  tick_env c1 Q1. destruct (Q1 Hp) as (Kc & Pc & Rc & Nc). clear Q1. cbv iota beta.
  rewrite send_tx_run. unfold wait_for. run_script.
  match goal with |- context [send_tx f ?k ?W1] => remember W1 as W0 eqn:EW end.
  assert (F0 : w_mine_sched W0 = tail (w_mine_sched w) /\ w_automine W0 = false /\ w_chain W0 = c1 /\
               w_deployments W0 = w_deployments w) by (rewrite EW; by cbn).
  destruct F0 as (S0 & A0 & C0 & D0). clear EW.
  set (W := (send_tx f (TxCreate init) W0).2).
  assert (CW : w_chain W = (submit_tx f (TxCreate init) c1).2).
  { unfold W. rewrite send_tx_queued by exact A0. by rewrite C0. }
  assert (SW : w_mine_sched W = tail (w_mine_sched w)) by (unfold W; by rewrite send_tx_sched).
  assert (DW : w_deployments W = w_deployments w) by (unfold W; rewrite send_tx_only_chain; exact D0).
  rewrite C0, <- Kc, <- SW. split.
  - intros Ht. destruct (wait_create (S (length (w_mine_sched W))) W c1 f init) as (ht & c & l & E);
      [exact CW|exact Pc|by rewrite Rc, Nc|lia|exact Ht|].
    rewrite E. cbv iota beta. eexists. split; [reflexivity|].
    cbn [set_deployments w_deployments add_console set_chain set_sched]. by rewrite DW.
  - intros Hb. destruct (wait_receipt_blocked (S (length (w_mine_sched W))) (ch_next_hash c1) W) as (w' & E);
      [by rewrite CW; cbn; rewrite Rc, Nc|exact Hb|].
    destruct (wait_receipt_env (S (length (w_mine_sched W))) (ch_next_hash c1) W) as (c & l & Ew).
    rewrite E in Ew |- *. cbv iota beta. exists w'. split; [reflexivity|]. cbn in Ew. rewrite Ew. exact DW.
Qed.

(** ** A new deployment on an automining node *)

Lemma deploy_new_automine (w : world U) (name : string) (f : Z) (args : list abi_value) (init : code U) :
  w_mine_sched w = [] -> w_automine w = true -> ch_pending (w_chain w) = [] ->
  deploy_new name (Some f) args init w =
    (Ok (mk_deploy_result (alloc_address (dom (ch_code (w_chain w)))) true),
     set_deployments
       (<[name := mk_deployment (alloc_address (dom (ch_code (w_chain w)))) args]> (w_deployments w))
       (add_console ("deploying " +:+ dq +:+ name +:+ dq +:+ " (tx: " +:+ hash_string (ch_next_hash (w_chain w)) +:+
                     ")...: deployed at " +:+ address_to_string (alloc_address (dom (ch_code (w_chain w)))))
          (send_tx f (TxCreate init) w).2)).
Proof.
  intros Hi Ha Hp. set (a := alloc_address (dom (ch_code (w_chain w)))). unfold deploy_new, log_line. run_script. rewrite node_tick_idle by done.
  rewrite send_tx_run. unfold wait_for. run_script. rewrite send_tx_sched, Hi.
  destruct (mine_create (w_chain w) (next_block_time (w_chain w) (w_clock_ms w / 1000)) f init Hp)
    as [_ Hr].
  rewrite wait_receipt_found with (r := mk_receipt true (S (ch_height (w_chain w))) (Some a)).
  - unfold send_tx, submit_tx. by rewrite Ha.
  - by rewrite send_tx_automined.
Qed.

Lemma wait_receipt_effect (P : Z -> tx_kind U -> Prop) (fuel : nat) (h : Z) :
  chain_effect P (wait_receipt fuel h).
Proof.
  induction fuel as [|f IH]; cbn [wait_receipt]; apply chain_effect_bind; [solve_effect| |solve_effect|];
    intros w; destruct (ch_receipts _ !! h); unfold blocked; solve_effect.
Qed.

Lemma wait_for_effect (P : Z -> tx_kind U -> Prop) (h : Z) : chain_effect P (wait_for h).
Proof. unfold wait_for. apply chain_effect_bind; [solve_effect|]. intros w. apply wait_receipt_effect. Qed.

(** [deploy] sends at most one transaction: the creation of [init]. *)
Lemma deploy_effect (P : Z -> tx_kind U -> Prop) (name : string) (from : option Z)
    (args : list abi_value) (init : code U) :
  (forall f, P f (TxCreate init)) -> chain_effect P (deploy name from args init).
Proof.
  intros HP. unfold deploy, deploy_new.
  solve_effect; try apply chain_effect_send; auto using wait_for_effect.
Qed.
End RuntimeFacts.

#[export] Hint Resolve getContractFactory_effect getNetworkIdFromName_effect getSigners_effect
  getNamedAccounts_deployer_effect getChainId_effect deployments_get_effect : s2p.

End Hardhat.
