(* ===== verification/Finish.v ===== *)
(** * Finish: scripts that never wait forever

    A script is [Blocked] when it waits on a promise the node never
    settles; in the model only [wait_receipt], polling for a receipt that
    no block brings, blocks.  [finishes I m]: from a world where [I]
    holds, [m] ends with a value or an exception, and [I] still holds.
    The rules compose it along the monad, for any invariant [I] the
    primitives keep ([WorldStable]); the tasks finish under [True], as
    neither waits for a receipt. *)

From S2P Require Import Spec2Rocq Js Abi Upkeep Ledger World Ethers Hardhat.
Import Js Abi Upkeep Ledger World Ethers Hardhat.

Open Scope Z_scope.

Module Finish.

Section Finishes.
Context {U : Type} `{UpkeepContract U}.

(** What of the world the primitives keep: the invariants the rules
    below work under. *)
Class WorldStable (I : world U -> Prop) := {
  stable_tick : forall w, I w -> I (node_tick w).2;
  stable_send : forall w f k, I w -> I (send_tx f k w).2;
  stable_console : forall w s, I w -> I (add_console s w);
  stable_log_level : forall w l, I w -> I (set_log_level l w)
}.


Definition finishes (I : world U -> Prop) {A} (m : Script U A) : Prop :=
  forall w, I w -> (m w).1 <> Blocked /\ I (m w).2.

#[export] Instance finishes_proper (I : world U -> Prop) {A} :
  Proper (st_eq ==> iff) (@finishes I A).
Proof. intros m1 m2 Heq. split; intros Hm w; [rewrite <- (Heq w)|rewrite (Heq w)]; apply Hm. Qed.

Section Rules.
Context (I : world U -> Prop) `{!WorldStable I}.

Lemma finishes_ret {A} (a : A) : finishes I (mret a : Script U A).
Proof. intros w Hw. by split. Qed.

Lemma finishes_throw {A} (e : js_error) : finishes I (throw e : Script U A).
Proof. intros w Hw. by split. Qed.

Lemma finishes_of_sum {A} (r : js_error + A) : finishes I (of_sum r : Script U A).
Proof. intros w Hw. by destruct r; split. Qed.

Lemma finishes_gets {A} (f : world U -> A) : finishes I (gets f).
Proof. intros w Hw. by split. Qed.

Lemma finishes_get : finishes I (get_st : Script U (world U)).
Proof. intros w Hw. by split. Qed.

Lemma finishes_modify (f : world U -> world U) :
  (forall w, I w -> I (f w)) -> finishes I (modify_st f).
Proof. intros Hf w Hw. split; [done|]. by apply Hf. Qed.

Lemma finishes_log (s : string) : finishes I (log_line s).
Proof. apply finishes_modify. intros w. apply stable_console. Qed.

Lemma finishes_log_level (l : log_level) : finishes I (modify_st (set_log_level l)).
Proof. apply finishes_modify. intros w. apply stable_log_level. Qed.

Lemma finishes_tick : finishes I node_tick.
Proof. intros w Hw. split; [unfold node_tick; by destruct (w_mine_sched w)|by apply stable_tick]. Qed.

Lemma finishes_send (f : Z) (k : tx_kind U) : finishes I (send_tx f k).
Proof. intros w Hw. split; [done|by apply stable_send]. Qed.

Lemma finishes_eth_call (to : Z) (fn : string) (args : list abi_value) : finishes I (eth_call to fn args).
Proof. intros w Hw. by split. Qed.

Lemma finishes_bind {A B} (m : Script U A) (k : A -> Script U B) :
  finishes I m -> (forall a, finishes I (k a)) -> finishes I (m ≫= k).
Proof.
  intros Hm Hk w Hw. cbv [mbind st_bind]. destruct (Hm w Hw) as [Hb Hw'].
  destruct (m w) as [[a|e|] w']; cbn in *; [by apply Hk|done|done].
Qed.
End Rules.

End Finishes.

#[export] Hint Resolve finishes_ret finishes_throw finishes_of_sum finishes_gets finishes_get
  finishes_log finishes_log_level finishes_tick finishes_send
  finishes_eth_call : s2p.

(** Decompose a script into its primitives, case by case. *)
Ltac solve_finishes :=
  repeat match goal with
  | |- forall _, _ => intros ?
  | |- finishes _ (throw _ ≫= _) => setoid_rewrite st_bind_throw
  | |- finishes _ (mret _ ≫= _) => setoid_rewrite st_bind_ret_l
  | |- finishes _ (_ ≫= _) => apply finishes_bind; [|intros ?]
  | |- finishes _ (if ?b then _ else _) => destruct b
  | |- finishes _ (match ?x with _ => _ end) => destruct x
  | |- finishes _ _ => solve [eauto with s2p typeclass_instances]
  end.

(** ** The invariant of the tasks: anything holds of any world. *)
Section Instances.
Context {U : Type} `{UpkeepContract U}.

#[export] Instance true_stable : WorldStable (fun _ : world U => True).
Proof. by split. Qed.
End Instances.

(** ** The primitives of the runtime *)
Section Runtime.
Context {U : Type} `{UpkeepContract U}.
Context (I : world U -> Prop) `{!WorldStable I}.

Lemma invoke_finishes (ct : contract) (fn : string) (args : list jsval) : finishes I (invoke ct fn args).
Proof. unfold invoke. solve_finishes. Qed.

Lemma getNetworkIdFromName_finishes (name : string) : finishes I (getNetworkIdFromName name).
Proof. unfold getNetworkIdFromName. solve_finishes. Qed.

Lemma getContractFactory_finishes (name : string) : finishes I (getContractFactory name).
Proof. unfold getContractFactory. solve_finishes. Qed.

Lemma getSigners_finishes : finishes I getSigners.
Proof. unfold getSigners. solve_finishes. Qed.

Lemma getNamedAccounts_deployer_finishes : finishes I getNamedAccounts_deployer.
Proof. unfold getNamedAccounts_deployer. solve_finishes. Qed.

Lemma getChainId_finishes : finishes I getChainId.
Proof. unfold getChainId. solve_finishes. Qed.

Lemma deployments_get_finishes (name : string) : finishes I (deployments_get name).
Proof. unfold deployments_get. solve_finishes. Qed.
End Runtime.

#[export] Hint Resolve invoke_finishes getNetworkIdFromName_finishes getContractFactory_finishes
  getSigners_finishes getNamedAccounts_deployer_finishes getChainId_finishes deployments_get_finishes : s2p.

End Finish.
