(* ===== verification/Fixtures.v ===== *)
(** * Fixtures: concrete worlds for the witnesses

    A local Hardhat network (chain id 31337, named [localhost] in the
    network table) on which the Counter of the interval model is deployed
    at address 1 and, where a witness needs it, a KeeperSimulation at
    address 2.  The two accounts are 100 (the deployer) and 101.  The
    theorems of the task files are applied to these worlds, with every
    hypothesis discharged by evaluation. *)

From S2P Require Import Spec2Rocq Js Abi Upkeep Ledger World Ethers Hardhat.
Import Js Abi Upkeep Ledger World Ethers Hardhat.

Open Scope Z_scope.

Module Fixtures.

Definition counter_at : Z := 1.
Definition keeper_at : Z := 2.

(** The addresses as an operator passes them to [--contract]. *)
Definition counter_addr : string := address_to_string counter_at.
Definition keeper_addr : string := address_to_string keeper_at.

Definition deployer : Z := 100.

(** A Counter with an interval of 60 seconds, last upkept at [last]. *)
Definition counter_since (last : Z) : counter_state := mk_counter 0 60 last.

(** A Counter artifact whose [checkUpkeep] is not marked [view], as
    [KeeperCompatibleInterface] declares it: ethers then sends it as a
    transaction. *)
Definition counter_abi_nonview : abi :=
  [mk_fragment "checkUpkeep" [TBytes] [TBool; TBytes] false;
   mk_fragment "performUpkeep" [TBytes] [] false].

Definition local_config : gmap string net_entry :=
  {[ "31337" := mk_net_entry (Some "localhost"); "4" := mk_net_entry (Some "rinkeby") ]}.

Definition local_artifacts : gmap string abi :=
  {[ "Counter" := counter_abi; "KeeperSimulation" := keeper_sim_abi ]}.

(** A chain at height 1 whose latest block has timestamp [time], with no
    pending transaction, and [next_hash] as the hash of the next
    submission. *)
Definition chain_with (codes : gmap Z (code counter_state)) (time next_hash : Z) : chain counter_state :=
  mk_chain 1 time codes [] ∅ next_hash.

(** The Counter alone, last upkept at second 0. *)
Definition counter_chain (time : Z) : chain counter_state :=
  chain_with {[ counter_at := CounterCode (counter_since 0) ]} time 7.

(** The Counter and a KeeperSimulation bound to it. *)
Definition keeper_chain (time : Z) : chain counter_state :=
  chain_with {[ counter_at := CounterCode (counter_since 0);
                keeper_at := KeeperSimCode (keeper_sim_constructor counter_at) ]} time 7.

Definition local_world_with (arts : gmap string abi) (c : chain counter_state) (automine : bool)
    (sched : list bool) (clock_ms : Z) (deps : gmap string deployment) : world counter_state :=
  mk_world c automine sched clock_ms [] LogInfo "31337" "localhost" local_config
    [deployer; 101] (Some deployer) deps arts.

Definition local_world : chain counter_state -> bool -> list bool -> Z -> gmap string deployment ->
    world counter_state :=
  local_world_with local_artifacts.

(** The registry after the Counter's deployment. *)
Definition counter_deployed : gmap string deployment :=
  {[ "Counter" := mk_deployment counter_at [] ]}.

(** 1000.5 seconds after the last upkeep, on an idle automining node:
    the interval of 60 seconds has passed. *)
Definition w_due : world counter_state :=
  local_world (counter_chain 1000) true [] 1000500 counter_deployed.

(** 30 seconds after the last upkeep: the interval has not passed. *)
Definition w_not_due : world counter_state :=
  local_world (counter_chain 30) true [] 30000 counter_deployed.

(** The Counter and a KeeperSimulation on a network with no account. *)
Definition w_no_accounts : world counter_state :=
  mk_world (keeper_chain 1000) true [] 1000500 [] LogInfo "31337" "localhost" local_config []
    (Some deployer) counter_deployed local_artifacts.

(** The Counter's artifact missing. *)
Definition w_no_artifacts : world counter_state :=
  local_world_with ∅ (counter_chain 1000) true [] 1000500 counter_deployed.

(** A clock half a second before the epoch. *)
Definition w_before_epoch : world counter_state :=
  local_world (counter_chain 1000) true [] (-500) counter_deployed.

(** A Counter artifact with a non-view [checkUpkeep], on a node that
    does not automine. *)
Definition w_nonview : world counter_state :=
  local_world_with {[ "Counter" := counter_abi_nonview ]} (counter_chain 1000) false [] 1000500
    counter_deployed.

(** The Counter and a KeeperSimulation bound to it, 1000.5 seconds after
    the last upkeep; the node automines, or leaves transactions pending. *)
Definition w_keeper_auto : world counter_state :=
  local_world (keeper_chain 1000) true [] 1000500 counter_deployed.

Definition w_keeper_queued : world counter_state :=
  local_world (keeper_chain 1000) false [] 1000500 counter_deployed.

(** A KeeperSimulation bound to an address that holds no contract. *)
Definition w_keeper_unbound : world counter_state :=
  local_world (chain_with {[ keeper_at := KeeperSimCode (keeper_sim_constructor 5) ]} 1000 7)
    true [] 1000500 counter_deployed.

(** Deployment runs: the Counter recorded and deployed; no Counter
    record; a chain id the network table does not list. *)
Definition w_deploy_fresh : world counter_state :=
  local_world (counter_chain 1000) true [] 1000500 counter_deployed.

(** The Counter deployed again at address 3, after a KeeperSimulation
    was deployed at 2 for the Counter at 1. *)
Definition counter_redeployed_at : Z := 3.

Definition w_counter_redeployed : world counter_state :=
  local_world (chain_with {[ counter_at := CounterCode (counter_since 0);
                             keeper_at := KeeperSimCode (keeper_sim_constructor counter_at);
                             counter_redeployed_at := CounterCode (counter_since 0) ]} 1000 7)
    true [] 1000500
    {[ "Counter" := mk_deployment counter_redeployed_at [];
       "KeeperSimulation" := mk_deployment keeper_at [AAddress counter_at] ]}.

(** The same registry on a node that mines only when told to: [sched]
    says, at each wait point, whether a block is mined there. *)
Definition w_deploy_manual (sched : list bool) : world counter_state :=
  local_world (counter_chain 1000) false sched 1000500 counter_deployed.

Definition w_deploy_no_counter : world counter_state :=
  local_world (counter_chain 1000) true [] 1000500 ∅.

Definition w_unknown_chain : world counter_state :=
  mk_world (counter_chain 1000) true [] 1000500 [] LogInfo "1337" "dev" local_config
    [deployer; 101] (Some deployer) counter_deployed local_artifacts.

(** A trace of the ledger: the deployer submits [checkUpkeep()] to the
    KeeperSimulation, and the next block mines it. *)
Definition trace_submitted : chain counter_state :=
  (submit_tx deployer (TxCall keeper_at "checkUpkeep" []) (keeper_chain 1000)).2.

Definition trace_mined : chain counter_state := mine_block 1001 trace_submitted.

(** A world whose pool holds a [performUpkeep] transaction (hash 7) and
    whose node mines a block at the second wait point. *)
Definition w_pending (sched : list bool) : world counter_state :=
  local_world (submit_tx deployer (TxCall counter_at "performUpkeep" [ABytes [Byte.x00]]) (counter_chain 1000)).2
    false sched 1000500 counter_deployed.

Lemma trace_steps : rtc chain_step (keeper_chain 1000) trace_mined.
Proof.
  eapply rtc_l; [by apply (step_submit (fun _ _ => True))|].
  apply rtc_once. apply step_mine. vm_compute. reflexivity.
Qed.

(** ** Witnesses of the ledger and runtime theorems *)

Lemma keeper_sim_binding_stable_witness :
  exists k', ch_code trace_mined !! keeper_at = Some (KeeperSimCode k') /\
             ks_counter k' = ks_counter (keeper_sim_constructor counter_at).
Proof. apply (keeper_sim_binding_stable (keeper_chain 1000)); [exact trace_steps|reflexivity]. Defined.

Lemma contracts_never_removed_witness : dom (ch_code (keeper_chain 1000)) ⊆ dom (ch_code trace_mined).
Proof. apply contracts_never_removed. exact trace_steps. Defined.

Lemma chain_time_monotone_witness : ch_time (keeper_chain 1000) <= ch_time trace_mined.
Proof. apply chain_time_monotone. exact trace_steps. Defined.

Lemma chain_step_hashes_fresh_witness : hashes_fresh trace_mined.
Proof.
  apply (chain_step_hashes_fresh trace_submitted).
  - split; [repeat constructor; vm_compute; reflexivity|]. intros h [r Hr]. vm_compute in Hr. discriminate.
  - apply step_mine. vm_compute. reflexivity.
Defined.

Lemma wait_for_settles_witness :
  exists r w', wait_for 7 (w_pending [false; true]) = (Ok r, w') /\ ch_receipts (w_chain w') !! 7 = Some r.
Proof. apply wait_for_settles; vm_compute; [left|right; left]. Defined.

Lemma wait_for_never_witness : exists w', wait_for 7 (w_pending [false; false]) = (Blocked, w').
Proof.
  apply wait_for_never; [reflexivity|]. intros b Hb. vm_compute in Hb.
  repeat (apply elem_of_cons in Hb as [->|Hb]; [done|]). by apply elem_of_nil in Hb.
Defined.

End Fixtures.

(** Discharge the hypotheses of a theorem applied to a fixture. *)
Ltac fixture_facts := vm_compute; try reflexivity; try discriminate.
