(* ===== verification/KeeperSimulationTask.v ===== *)
(** * KeeperSimulationTask: the task [keeper-simulation]

    [src/tasks/keeper-simulation/keeper-simulation.js], the action of the
    task [keeper-simulation --contract A]: it binds the Counter ABI to the
    address [A] with the first signer, encodes the current Unix time as an
    ABI [uint], simulates [checkUpkeep(bytes)] with it, prints the boolean
    it returns and, when that boolean is truthy, sends a
    [performUpkeep(0x00)] transaction and prints its hash.

    The theorems give the run of the task on each branch: an upkeep that
    is needed is performed, with its transaction sent from the first
    account to [A] with the one-byte data [0x00]; an upkeep that is not
    needed leaves the chain as it was; the error paths (a missing
    artifact, an address that is not one, a clock before the epoch, a
    KeeperSimulation's address given instead of a Counter's, a network
    with no account) throw before anything is sent.  Whatever the world,
    the only transactions the task can send are calls of the Counter's
    functions at [A].  On an automining node
    the task refines [Upkeep.keeper_round], one round of the keeper
    network on the Counter's state. *)

From S2P Require Import Spec2Rocq Js Abi Upkeep Ledger World Ethers Hardhat Fixtures.
Import Js Abi Upkeep Ledger World Ethers Hardhat Fixtures.

Open Scope Z_scope.

Module KeeperSimulationTask.

(** The three lines the task prints (lines 9, 24 and 28). *)
Definition msg_calling (contractAddr network : string) : string :=
  console_line [JStr "Calling Counter contract simulating a Keeper call "; JStr contractAddr;
                JStr " on network "; JStr network].

Definition msg_check (contractAddr : string) (boolValue : jsval) : string :=
  console_line [JStr "Contract "; JStr contractAddr; JStr " checkUpkeep: "; boolValue].

Definition msg_perform (contractAddr : string) (hash : jsval) : string :=
  console_line [JStr "Contract "; JStr contractAddr;
                JStr " performUpkeep was called. Transaction Hash: "; hash].

Section Task.
Context {U : Type} `{UpkeepContract U}.

(** Lines 27 and 28: the upkeep is performed with the data [0x00], and
    the hash of its transaction printed. *)
Definition perform_upkeep (contractAddr : string) (counterContract : contract) : Script U unit :=
  resultPUpkeep ← invoke counterContract "performUpkeep" [JNum 0];
  hash ← of_sum (get_hash resultPUpkeep);
  log_line (msg_perform contractAddr hash).

(** The action of the task, lines 7 to 29. *)
Definition keeper_simulation (contractAddr : string) : Script U unit :=
  net ← gets w_network;
  _ ← getNetworkIdFromName net;
  log_line (msg_calling contractAddr net);;
  iface ← getContractFactory "Counter";
  accounts ← getSigners;
  counterContract ← of_sum (new_contract contractAddr iface (head accounts));
  ms ← gets w_clock_ms;
  curretTimeStamp ← of_sum (encode_uint (JNum (unix_seconds ms)));
  result ← invoke counterContract "checkUpkeep" [JStr curretTimeStamp];
  boolValue ← of_sum (index result 0);
  _ ← of_sum (index result 1);
  log_line (msg_check contractAddr boolValue);;
  if truthy boolValue then perform_upkeep contractAddr counterContract else mret tt.
End Task.


(** The task up to the artifact lookup, on an idle node. *)
Ltac run_task_prefix Hidle :=
  unfold keeper_simulation, log_line; run_script;
  rewrite getNetworkIdFromName_idle by exact Hidle; cbv iota beta;
  rewrite getContractFactory_idle by exact Hidle; cbn [add_console w_artifacts].

(** The task up to the encoding of the timestamp, on an idle node whose
    Counter artifact and first account are known. *)
Ltac run_task_binding Hidle Hart Hacc :=
  run_task_prefix Hidle; rewrite Hart; cbv iota beta;
  rewrite getSigners_idle by exact Hidle; cbn [add_console w_accounts]; rewrite Hacc;
  cbv iota beta; cbn [head new_contract].

(** ** The calls of the Counter binding *)

Section Bindings.
Context {U : Type} `{UpkeepContract U}.

Lemma counter_binding_check (w : world U) (addr : string) (a s : Z) (u : U) (d p : list byte) (b : bool) :
  get_address addr = Some a -> w_mine_sched w = [] ->
  ch_code (w_chain w) !! a = Some (CounterCode u) ->
  checkUpkeep u (ch_time (w_chain w)) d = (b, p) ->
  invoke (mk_contract addr counter_abi (Some s)) "checkUpkeep" [JStr (hexlify d)] w =
    (Ok (JArr [JBool b; JStr (hexlify p)]), w).
Proof.
  intros Ha Hi Hc Hk.
  apply (invoke_call_run _ _ _ w (mk_fragment "checkUpkeep" [TBytes] [TBool; TBytes] true) s a
           [ABytes d] [ABool b; ABytes p]); try done.
  - cbn [ct_target]. unfold resolve_address. by rewrite Ha.
  - apply coerce_bytes_hexlify.
  - by apply (simulate_counter_check _ _ u).
Qed.

Lemma counter_binding_perform (w : world U) (addr : string) (a s : Z) (u u' : U) :
  get_address addr = Some a -> w_mine_sched w = [] ->
  ch_code (w_chain w) !! a = Some (CounterCode u) ->
  performUpkeep u (ch_time (w_chain w)) [Byte.x00] = Some u' ->
  invoke (mk_contract addr counter_abi (Some s)) "performUpkeep" [JNum 0] w =
    (Ok (JTxResponse (hash_string (ch_next_hash (w_chain w)))),
     (send_tx s (TxCall a "performUpkeep" [ABytes [Byte.x00]]) w).2).
Proof.
  intros Ha Hi Hc Hp.
  apply (invoke_send_run _ _ _ w (mk_fragment "performUpkeep" [TBytes] [] false) s a
           [ABytes [Byte.x00]] []); try done.
  - cbn [ct_target]. unfold resolve_address. by rewrite Ha.
  - unfold simulate. by rewrite (exec_counter_perform _ _ _ u u').
Qed.
End Bindings.

(** ** Runs of the task

    The node is idle while the task runs (no block comes on its own) and
    the first account [s] signs. *)
Section Runs.
Context {U : Type} `{UpkeepLaws U}.
Variables (w : world U) (s : Z) (rest : list Z).
Hypothesis Hidle : w_mine_sched w = [].
Hypothesis Hacc : w_accounts w = s :: rest.

(** The world once the task has printed its first two lines. *)
Definition w_checked (addr : string) (boolValue : jsval) : world U :=
  add_console (msg_check addr boolValue) (add_console (msg_calling addr (w_network w)) w).

Lemma keeper_simulation_to_check (addr : string) (a : Z) (u : U) (b : bool) (p : list byte) :
  get_address addr = Some a -> w_artifacts w !! "Counter" = Some counter_abi ->
  js_time_valid (w_clock_ms w) = true -> 0 <= w_clock_ms w ->
  ch_code (w_chain w) !! a = Some (CounterCode u) ->
  checkUpkeep u (ch_time (w_chain w)) (be_split 32 (unix_seconds (w_clock_ms w))) = (b, p) ->
  keeper_simulation addr w =
    ((if b then perform_upkeep addr (mk_contract addr counter_abi (Some s)) else mret tt) : Script U unit)
      (w_checked addr (JBool b)).
Proof.
  intros Haddr Hart Hv Hms Hcode Hk. run_task_binding Hidle Hart Hacc.
  rewrite encode_timestamp by done. cbv iota beta.
  rewrite (counter_binding_check _ _ a s u _ p b) by done.
  cbn [index lookup list_lookup default truthy]. cbv iota beta. by destruct b.
Qed.

(** C1. When the Counter at the given address says an upkeep is needed
    at the current block time, the task prints the network line and
    [checkUpkeep: true], sends one [performUpkeep(0x00)] transaction from
    the first account to that address, and prints its hash, which is
    the hash the node gives that transaction. *)
Theorem keeper_simulation_performs (addr : string) (a : Z) (u : U) (p : list byte) :
  get_address addr = Some a -> w_artifacts w !! "Counter" = Some counter_abi ->
  js_time_valid (w_clock_ms w) = true -> 0 <= w_clock_ms w ->
  ch_code (w_chain w) !! a = Some (CounterCode u) -> upkeep_wf u ->
  checkUpkeep u (ch_time (w_chain w)) (be_split 32 (unix_seconds (w_clock_ms w))) = (true, p) ->
  keeper_simulation addr w =
    (Ok tt, add_console (msg_perform addr (JStr (hash_string (ch_next_hash (w_chain w)))))
              (send_tx s (TxCall a "performUpkeep" [ABytes [Byte.x00]]) (w_checked addr (JBool true))).2).
Proof.
  intros Haddr Hart Hv Hms Hcode Hwf Hk. rewrite (keeper_simulation_to_check addr a u true p) by done.
  destruct (perform_when_needed u _ _ p [Byte.x00] Hwf Hk) as [u' Hp].
  unfold perform_upkeep, log_line. run_script.
  rewrite (counter_binding_perform _ _ a s u u') by done. reflexivity.
Qed.

(** C2. When no upkeep is needed, the task prints [checkUpkeep: false]
    and stops: nothing is sent and the chain is as it was. *)
Theorem keeper_simulation_skips (addr : string) (a : Z) (u : U) (p : list byte) :
  get_address addr = Some a -> w_artifacts w !! "Counter" = Some counter_abi ->
  js_time_valid (w_clock_ms w) = true -> 0 <= w_clock_ms w ->
  ch_code (w_chain w) !! a = Some (CounterCode u) ->
  checkUpkeep u (ch_time (w_chain w)) (be_split 32 (unix_seconds (w_clock_ms w))) = (false, p) ->
  keeper_simulation addr w = (Ok tt, w_checked addr (JBool false)).
Proof. intros. by rewrite (keeper_simulation_to_check addr a u false p). Qed.
(** C31. On an automining node the task refines one round of the
    keeper network: the Counter's state after it is [keeper_round] of
    its state before, checked at the latest block's timestamp with the
    encoded wall-clock seconds as [checkData], and performed with the
    byte [0x00] in the block the transaction is mined in; no other
    contract changes.  Both branches, and a [performUpkeep] that reverts
    when mined, are the one equation. *)
Theorem keeper_simulation_refines_round (addr : string) (a : Z) (u : U) :
  w_automine w = true -> ch_pending (w_chain w) = [] ->
  get_address addr = Some a -> w_artifacts w !! "Counter" = Some counter_abi ->
  js_time_valid (w_clock_ms w) = true -> 0 <= w_clock_ms w ->
  ch_code (w_chain w) !! a = Some (CounterCode u) -> upkeep_wf u ->
  exists w', keeper_simulation addr w = (Ok tt, w') /\
    ch_code (w_chain w') =
      <[a := CounterCode (keeper_round u (ch_time (w_chain w)) (next_block_time (w_chain w) (w_clock_ms w / 1000))
                           (be_split 32 (unix_seconds (w_clock_ms w))) [Byte.x00])]> (ch_code (w_chain w)).
Proof.
  intros Ha Hp Haddr Hart Hv Hms Hcode Hwf. unfold keeper_round.
  destruct (checkUpkeep u _ _) as [[] p] eqn:Hk; cbn [fst];
    rewrite (keeper_simulation_to_check addr a u _ p) by done.
  - destruct (perform_when_needed u _ _ p [Byte.x00] Hwf Hk) as [u' Hu].
    unfold perform_upkeep, log_line. run_script. rewrite (counter_binding_perform _ _ a s u u') by done.
    eexists; split; [reflexivity|]. cbn [add_console w_chain].
    rewrite send_tx_automined by exact Ha. by apply mine_counter_perform_code.
  - eexists; split; [reflexivity|]. by rewrite insert_id.
Qed.

(** C13. If the Counter artifact is missing, the task throws Hardhat's
    [HH700] error right after its first line, before any call. *)
Theorem keeper_simulation_no_artifact (addr : string) :
  w_artifacts w !! "Counter" = None ->
  keeper_simulation addr w =
    (Thrown (HardhatError ("HH700: Artifact for contract " +:+ dq +:+ "Counter" +:+ dq +:+ " not found.")),
     add_console (msg_calling addr (w_network w)) w).
Proof. intros Hart. run_task_prefix Hidle. by rewrite Hart. Qed.

(** C15. [Math.floor] rounds a clock before the epoch down to a negative
    second, which [uint] cannot encode: the task throws the coder's
    out-of-bounds error before any call. *)
Theorem keeper_simulation_before_epoch (addr : string) :
  w_artifacts w !! "Counter" = Some counter_abi ->
  js_time_valid (w_clock_ms w) = true -> w_clock_ms w < 0 ->
  keeper_simulation addr w =
    (Thrown (InvalidArgument "value out-of-bounds"), add_console (msg_calling addr (w_network w)) w).
Proof.
  intros Hart Hv Hneg. run_task_binding Hidle Hart Hacc.
  rewrite (encode_uint_out_of_bounds _ (unix_seconds (w_clock_ms w))).
  - reflexivity.
  - by apply unix_seconds_safe.
  - left. unfold unix_seconds. pose proof (Z_div_floor_bounds (w_clock_ms w) 1000). lia.
Qed.
(** C16. If the Counter artifact declares [checkUpkeep] without [view],
    ethers sends it as a transaction: the task reads fields [0] and [1]
    of the transaction response, prints [checkUpkeep: undefined], and
    never calls [performUpkeep], even when an upkeep is needed. *)
Theorem keeper_simulation_nonview_check (addr : string) (a : Z) (u : U) (b : bool) (p : list byte) :
  get_address addr = Some a -> w_artifacts w !! "Counter" = Some counter_abi_nonview ->
  js_time_valid (w_clock_ms w) = true -> 0 <= w_clock_ms w ->
  ch_code (w_chain w) !! a = Some (CounterCode u) ->
  checkUpkeep u (ch_time (w_chain w)) (be_split 32 (unix_seconds (w_clock_ms w))) = (b, p) ->
  keeper_simulation addr w =
    (Ok tt, add_console (msg_check addr JUndefined)
              (send_tx s (TxCall a "checkUpkeep" [ABytes (be_split 32 (unix_seconds (w_clock_ms w)))])
                 (add_console (msg_calling addr (w_network w)) w)).2).
Proof.
  intros Haddr Hart Hv Hms Hcode Hk. run_task_binding Hidle Hart Hacc.
  rewrite encode_timestamp by done. cbv iota beta.
  change (w_clock_ms (add_console ?m w)) with (w_clock_ms w).
  rewrite (invoke_send_run _ _ _ _ (mk_fragment "checkUpkeep" [TBytes] [TBool; TBytes] false) s a
             [ABytes (be_split 32 (unix_seconds (w_clock_ms w)))] [ABool b; ABytes p]).
  - cbn [index truthy]. cbv iota beta. unfold log_line, modify_st. reflexivity.
  - reflexivity.
  - reflexivity.
  - reflexivity.
  - reflexivity.
  - cbn [ct_target]. unfold resolve_address. by rewrite Haddr.
  - apply coerce_bytes_hexlify.
  - exact Hidle.
  - by apply (simulate_counter_check _ _ u).
Qed.

(** C28. Given a KeeperSimulation's address instead of the Counter's,
    the simulated [checkUpkeep(bytes)] reverts, as the KeeperSimulation
    has no [checkUpkeep] taking bytes: the task throws ethers' call
    exception after its first line, and nothing is sent. *)
Theorem keeper_simulation_on_keeper (addr : string) (a : Z) (k : keeper_sim) :
  get_address addr = Some a -> w_artifacts w !! "Counter" = Some counter_abi ->
  js_time_valid (w_clock_ms w) = true -> 0 <= w_clock_ms w ->
  ch_code (w_chain w) !! a = Some (KeeperSimCode k) ->
  keeper_simulation addr w =
    (Thrown (CallException "call revert exception"), add_console (msg_calling addr (w_network w)) w).
Proof.
  intros Haddr Hart Hv Hms Hcode. run_task_binding Hidle Hart Hacc.
  rewrite encode_timestamp by done. cbv iota beta.
  rewrite (invoke_call_reverts _ _ _ _ (mk_fragment "checkUpkeep" [TBytes] [TBool; TBytes] true) s a
             [ABytes (be_split 32 (unix_seconds (w_clock_ms w)))]); try done.
  - cbn [ct_target]. unfold resolve_address. by rewrite Haddr.
  - apply coerce_bytes_hexlify.
  - unfold simulate, exec_call. cbn [add_console w_chain]. by rewrite Hcode.
Qed.
End Runs.

(** ** Without an account

    [accounts[0]] is [undefined] when the network has no account: the
    binding has neither a signer nor a provider. *)
Section NoSigner.
Context {U : Type} `{UpkeepContract U}.
Variable (w : world U).
Hypothesis Hidle : w_mine_sched w = [].
Hypothesis Hnone : w_accounts w = [].

(** C29. With no account, the task's [checkUpkeep] call populates its
    transaction and then calls [call] on the missing provider: the task
    throws JavaScript's [TypeError] after its first line, and nothing is
    sent. *)
Theorem keeper_simulation_no_accounts (addr : string) (a : Z) :
  get_address addr = Some a -> w_artifacts w !! "Counter" = Some counter_abi ->
  js_time_valid (w_clock_ms w) = true -> 0 <= w_clock_ms w ->
  keeper_simulation addr w =
    (Thrown (TypeError "Cannot read properties of null (reading 'call')"),
     add_console (msg_calling addr (w_network w)) w).
Proof.
  intros Haddr Hart Hv Hms. run_task_binding Hidle Hart Hnone. rewrite Haddr. cbv iota beta.
  rewrite encode_timestamp by done. cbv iota beta.
  unfold invoke. cbn [ct_abi ct_signer].
  change (find_function counter_abi "checkUpkeep") with (Some (mk_fragment "checkUpkeep" [TBytes] [TBool; TBytes] true)).
  change (w_clock_ms (add_console ?m w)) with (w_clock_ms w). cbv iota beta. cbn [fr_constant].
  rewrite (populate_tx_ok _ _ _ a [ABytes (be_split 32 (unix_seconds (w_clock_ms w)))]); try done.
  - cbn [ct_target]. unfold resolve_address. by rewrite Haddr.
  - apply coerce_bytes_hexlify.
Qed.
End NoSigner.

(** ** What the task sends, from any world *)

Section Effect.
Context {U : Type} `{UpkeepContract U}.

(** C5. From any world (any artifacts, accounts, clock or mining
    schedule), the chain after the task is reached from the chain before
    by ledger steps whose only submissions are calls of [checkUpkeep] or
    [performUpkeep] at the address the task's argument resolves to. *)
Theorem keeper_simulation_effect (contractAddr : string) :
  chain_effect (binding_calls contractAddr ["checkUpkeep"; "performUpkeep"])
    (keeper_simulation contractAddr).
Proof.
  unfold keeper_simulation, perform_upkeep. do 5 (apply chain_effect_bind; [solve_effect|intros ?]).
  apply chain_effect_new_contract. intros ct ->.
  solve_effect; apply invoke_binding_effect; set_solver.
Qed.
End Effect.

(** ** Two runs on the interval Counter *)

Section IntervalCounter.

(** C18. On an automining node, the interval Counter's upkeep is
    performed once: the first run sends [performUpkeep], which is mined
    at once and records the block's time; a second run on the world it
    left, with the wall clock unchanged, finds no upkeep needed and
    sends nothing. *)
Theorem keeper_simulation_performs_once (w : world counter_state) (s : Z) (rest : list Z) (addr : string)
    (a : Z) (u : counter_state) :
  w_mine_sched w = [] -> w_automine w = true -> ch_pending (w_chain w) = [] -> w_accounts w = s :: rest ->
  get_address addr = Some a -> w_artifacts w !! "Counter" = Some counter_abi ->
  js_time_valid (w_clock_ms w) = true -> 0 <= w_clock_ms w ->
  ch_code (w_chain w) !! a = Some (CounterCode u) -> 0 <= interval u ->
  interval u < ch_time (w_chain w) - lastTimeStamp u ->
  exists w1 w2, keeper_simulation addr w = (Ok tt, w1) /\ keeper_simulation addr w1 = (Ok tt, w2) /\
    ch_code (w_chain w1) !! a =
      Some (CounterCode (mk_counter (counter u + 1) (interval u) (next_block_time (w_chain w) (w_clock_ms w / 1000)))) /\
    w_chain w2 = w_chain w1 /\ last (w_console w2) = Some (msg_check addr (JBool false)).
Proof.
  intros Hi Hauto Hp Hacc Ha Hart Hv Hms Hcode Hwf Hdue.
  set (t := next_block_time (w_chain w) (w_clock_ms w / 1000)).
  set (u' := mk_counter (counter u + 1) (interval u) t).
  assert (Hck : checkUpkeep u (ch_time (w_chain w)) (be_split 32 (unix_seconds (w_clock_ms w))) = (true, [])).
  { cbn. unfold counter_checkUpkeep. by rewrite (proj2 (Z.ltb_lt _ _) Hdue). }
  set (w1 := add_console (msg_perform addr (JStr (hash_string (ch_next_hash (w_chain w)))))
               (send_tx s (TxCall a "performUpkeep" [ABytes [Byte.x00]]) (w_checked w addr (JBool true))).2).
  assert (Hrun1 : keeper_simulation addr w = (Ok tt, w1)).
  { rewrite (keeper_simulation_to_check w s rest Hi Hacc addr a u true []) by done.
    unfold perform_upkeep, log_line. run_script.
    rewrite (counter_binding_perform _ _ a s u (mk_counter (counter u + 1) (interval u) (ch_time (w_chain w))))
      by done.
    reflexivity. }
  assert (Hc1 : w_chain w1 = mine_block t (submit_tx s (TxCall a "performUpkeep" [ABytes [Byte.x00]]) (w_chain w)).2).
  { unfold w1. cbn [add_console w_chain]. by rewrite send_tx_automined. }
  destruct (@mine_counter_perform _ counter_upkeep (w_chain w) t s a u u' [Byte.x00] Hp Hcode eq_refl) as (Hcode1 & Ht1 & _).
  assert (Hw1 : w1 = add_console (msg_perform addr (JStr (hash_string (ch_next_hash (w_chain w)))))
                       (set_chain (w_chain w1) (w_checked w addr (JBool true)))).
  { unfold w1 at 1. rewrite send_tx_only_chain. reflexivity. }
  assert (Hck1 : checkUpkeep u' (ch_time (w_chain w1)) (be_split 32 (unix_seconds (w_clock_ms w1))) = (false, [])).
  { rewrite Hc1, Ht1. cbn. unfold counter_checkUpkeep. cbn. by rewrite Z.sub_diag, (proj2 (Z.ltb_ge _ _) Hwf). }
  assert (Hf1 : w_mine_sched w1 = [] /\ w_accounts w1 = s :: rest /\ w_artifacts w1 = w_artifacts w /\
                w_clock_ms w1 = w_clock_ms w).
  { rewrite Hw1. cbn [add_console set_chain w_checked w_mine_sched w_accounts w_artifacts w_clock_ms]. done. }
  destruct Hf1 as (Hi1 & Hacc1 & Hart1 & Hclk1).
  assert (Hcode1' : ch_code (w_chain w1) !! a = Some (CounterCode u')).
  { rewrite Hc1, Hcode1. apply lookup_insert_eq. }
  exists w1, (w_checked w1 addr (JBool false)). split; [exact Hrun1|]. split.
  - apply (keeper_simulation_to_check w1 s rest Hi1 Hacc1 addr a u' false []); rewrite ?Hart1, ?Hclk1; done.
  - split; [exact Hcode1'|]. split; [reflexivity|]. unfold w_checked. cbn [w_console add_console].
    by rewrite last_snoc.
Qed.
End IntervalCounter.

(** ** Witnesses on the local network *)

Lemma keeper_simulation_performs_witness :
  keeper_simulation counter_addr w_due =
    (Ok tt, add_console (msg_perform counter_addr (JStr (hash_string (ch_next_hash (w_chain w_due)))))
              (send_tx deployer (TxCall counter_at "performUpkeep" [ABytes [Byte.x00]])
                 (w_checked w_due counter_addr (JBool true))).2).
Proof.
  eapply (keeper_simulation_performs w_due deployer [101] eq_refl eq_refl counter_addr counter_at (counter_since 0) []);
    fixture_facts.
Defined.

Lemma keeper_simulation_refines_round_witness :
  exists w', keeper_simulation counter_addr w_due = (Ok tt, w') /\
    ch_code (w_chain w') =
      <[counter_at := CounterCode (keeper_round (counter_since 0) (ch_time (w_chain w_due))
                        (next_block_time (w_chain w_due) (w_clock_ms w_due / 1000))
                        (be_split 32 (unix_seconds (w_clock_ms w_due))) [Byte.x00])]> (ch_code (w_chain w_due)).
Proof.
  apply (keeper_simulation_refines_round w_due deployer [101] eq_refl eq_refl counter_addr counter_at (counter_since 0));
    fixture_facts.
Defined.

Lemma keeper_simulation_skips_witness :
  keeper_simulation counter_addr w_not_due = (Ok tt, w_checked w_not_due counter_addr (JBool false)).
Proof.
  eapply (keeper_simulation_skips w_not_due deployer [101] eq_refl eq_refl counter_addr counter_at (counter_since 0) []);
    fixture_facts.
Defined.

Lemma keeper_simulation_no_artifact_witness :
  keeper_simulation counter_addr w_no_artifacts =
    (Thrown (HardhatError ("HH700: Artifact for contract " +:+ dq +:+ "Counter" +:+ dq +:+ " not found.")),
     add_console (msg_calling counter_addr (w_network w_no_artifacts)) w_no_artifacts).
Proof. apply (keeper_simulation_no_artifact w_no_artifacts eq_refl). fixture_facts. Defined.


Lemma keeper_simulation_on_keeper_witness :
  keeper_simulation keeper_addr w_keeper_auto =
    (Thrown (CallException "call revert exception"),
     add_console (msg_calling keeper_addr (w_network w_keeper_auto)) w_keeper_auto).
Proof.
  apply (keeper_simulation_on_keeper w_keeper_auto deployer [101] eq_refl eq_refl keeper_addr keeper_at
           (keeper_sim_constructor counter_at)); fixture_facts.
Defined.

Lemma keeper_simulation_no_accounts_witness :
  keeper_simulation counter_addr w_no_accounts =
    (Thrown (TypeError "Cannot read properties of null (reading 'call')"),
     add_console (msg_calling counter_addr (w_network w_no_accounts)) w_no_accounts).
Proof. apply (keeper_simulation_no_accounts w_no_accounts eq_refl eq_refl counter_addr counter_at); fixture_facts. Defined.

Lemma keeper_simulation_before_epoch_witness :
  keeper_simulation counter_addr w_before_epoch =
    (Thrown (InvalidArgument "value out-of-bounds"),
     add_console (msg_calling counter_addr (w_network w_before_epoch)) w_before_epoch).
Proof. apply (keeper_simulation_before_epoch w_before_epoch deployer [101] eq_refl eq_refl); fixture_facts. Defined.

Lemma keeper_simulation_nonview_check_witness :
  keeper_simulation counter_addr w_nonview =
    (Ok tt, add_console (msg_check counter_addr JUndefined)
              (send_tx deployer (TxCall counter_at "checkUpkeep"
                                   [ABytes (be_split 32 (unix_seconds (w_clock_ms w_nonview)))])
                 (add_console (msg_calling counter_addr (w_network w_nonview)) w_nonview)).2).
Proof.
  apply (keeper_simulation_nonview_check w_nonview deployer [101] eq_refl eq_refl counter_addr counter_at
           (counter_since 0) true []); fixture_facts.
Defined.

Lemma keeper_simulation_performs_once_witness :
  exists w1 w2, keeper_simulation counter_addr w_due = (Ok tt, w1) /\ keeper_simulation counter_addr w1 = (Ok tt, w2) /\
    ch_code (w_chain w1) !! counter_at =
      Some (CounterCode (mk_counter (counter (counter_since 0) + 1) (interval (counter_since 0))
                           (next_block_time (w_chain w_due) (w_clock_ms w_due / 1000)))) /\
    w_chain w2 = w_chain w1 /\ last (w_console w2) = Some (msg_check counter_addr (JBool false)).
Proof.
  apply (keeper_simulation_performs_once w_due deployer [101] counter_addr counter_at (counter_since 0));
    fixture_facts.
Defined.

End KeeperSimulationTask.
