(* ===== verification/KeeperTestTask.v ===== *)
(** * KeeperTestTask: the task [keeper-test]

    [src/tasks/keeper-tester/check-upkeep.js], the action of the task
    [keeper-test --contract A]: it binds the KeeperSimulation ABI to [A]
    with the first signer, sends a [checkUpkeep()] transaction, prints its
    hash without waiting for it to be mined (the wait on line 20 is
    commented out), then reads [getUpkeepNeeded()] and prints it.

    The theorems make the race of that read explicit.  On a node that
    automines, the transaction is in a block before the read, and the
    status printed is the Counter's answer at that block's timestamp.  On
    a node that has not mined it yet, the read sees the state before the
    transaction: the status printed is the one stored by an earlier
    [checkUpkeep].  Whatever the world, the only transactions the task
    can send are calls at the address [A] resolves to.  Given a
    KeeperSimulation bound to nothing, or the Counter's own address, gas
    estimation fails; on a network with no account ethers refuses to
    send.  In each case the task throws and sends nothing. *)

From S2P Require Import Spec2Rocq Js Abi Upkeep Ledger World Ethers Hardhat Fixtures.
Import Js Abi Upkeep Ledger World Ethers Hardhat Fixtures.

Open Scope Z_scope.

Module KeeperTestTask.

(** The three lines the task prints (lines 9, 19 and 21). *)
Definition msg_calling (contractAddr network : string) : string :=
  console_line [JStr "Calling Keeper simulator contract "; JStr contractAddr;
                JStr " on network "; JStr network].

Definition msg_called (contractAddr : string) (hash : jsval) : string :=
  console_line [JStr "Contract "; JStr contractAddr;
                JStr " external data request successfully called. Transaction Hash: "; hash].

Definition msg_status (status : jsval) : string :=
  console_line [JStr "The status of this upkeep is currently: "; status].

Section Task.
Context {U : Type} `{UpkeepContract U}.

(** Line 21: the status is read and printed. *)
Definition report_status (keeperSimulationContract : contract) : Script U unit :=
  status ← invoke keeperSimulationContract "getUpkeepNeeded" [];
  log_line (msg_status status).

(** The action of the task, lines 7 to 21. *)
Definition keeper_test (contractAddr : string) : Script U unit :=
  net ← gets w_network;
  _ ← getNetworkIdFromName net;
  log_line (msg_calling contractAddr net);;
  iface ← getContractFactory "KeeperSimulation";
  accounts ← getSigners;
  keeperSimulationContract ← of_sum (new_contract contractAddr iface (head accounts));
  result ← invoke keeperSimulationContract "checkUpkeep" [];
  hash ← of_sum (get_hash result);
  log_line (msg_called contractAddr hash);;
  report_status keeperSimulationContract.
End Task.

(** ** The calls of the KeeperSimulation binding *)

Section Bindings.
Context {U : Type} `{UpkeepContract U}.

Lemma keeper_binding_check (w : world U) (addr : string) (a s : Z) (k : keeper_sim) (u : U) :
  get_address addr = Some a -> w_mine_sched w = [] ->
  ch_code (w_chain w) !! a = Some (KeeperSimCode k) ->
  ch_code (w_chain w) !! ks_counter k = Some (CounterCode u) ->
  invoke (mk_contract addr keeper_sim_abi (Some s)) "checkUpkeep" [] w =
    (Ok (JTxResponse (hash_string (ch_next_hash (w_chain w)))),
     (send_tx s (TxCall a "checkUpkeep" []) w).2).
Proof.
  intros Ha Hi Hk Hc.
  apply (invoke_send_run _ _ _ w (mk_fragment "checkUpkeep" [] [] false) s a [] []); try done.
  - cbn [ct_target]. unfold resolve_address. by rewrite Ha.
  - unfold simulate. by rewrite (exec_keeper_check _ _ a k u).
Qed.

Lemma keeper_binding_get (w : world U) (addr : string) (a s : Z) (k : keeper_sim) :
  get_address addr = Some a -> w_mine_sched w = [] ->
  ch_code (w_chain w) !! a = Some (KeeperSimCode k) ->
  invoke (mk_contract addr keeper_sim_abi (Some s)) "getUpkeepNeeded" [] w =
    (Ok (JBool (ks_upkeepNeeded k)), w).
Proof.
  intros Ha Hi Hk.
  apply (invoke_call_run _ _ _ w (mk_fragment "getUpkeepNeeded" [] [TBool] true) s a []
           [ABool (ks_upkeepNeeded k)]); try done.
  - cbn [ct_target]. unfold resolve_address. by rewrite Ha.
  - by apply simulate_keeper_get.
Qed.
End Bindings.

(** The task up to the binding, on an idle node whose KeeperSimulation
    artifact and first account are known. *)
Ltac run_test_binding Hidle Hart Hacc :=
  unfold keeper_test, log_line; run_script;
  rewrite getNetworkIdFromName_idle by exact Hidle; cbv iota beta;
  rewrite getContractFactory_idle by exact Hidle; cbn [add_console w_artifacts]; rewrite Hart;
  cbv iota beta;
  rewrite getSigners_idle by exact Hidle; cbn [add_console w_accounts]; rewrite Hacc;
  cbv iota beta; cbn [head new_contract].

(** ** Runs of the task

    The node mines nothing on its own while the task runs, the first
    account [s] signs, and the KeeperSimulation artifact is the one of
    the spec. *)
Section Runs.
Context {U : Type} `{UpkeepContract U}.
Variables (w : world U) (s : Z) (rest : list Z).
Hypothesis Hidle : w_mine_sched w = [].
Hypothesis Hacc : w_accounts w = s :: rest.
Hypothesis Hart : w_artifacts w !! "KeeperSimulation" = Some keeper_sim_abi.

(** The world once the [checkUpkeep()] transaction is sent and its hash
    printed. *)
Definition w_sent (addr : string) (a : Z) : world U :=
  add_console (msg_called addr (JStr (hash_string (ch_next_hash (w_chain w)))))
    (send_tx s (TxCall a "checkUpkeep" []) (add_console (msg_calling addr (w_network w)) w)).2.

Lemma keeper_test_to_status (addr : string) (a : Z) (k : keeper_sim) (u : U) :
  get_address addr = Some a -> ch_code (w_chain w) !! a = Some (KeeperSimCode k) ->
  ch_code (w_chain w) !! ks_counter k = Some (CounterCode u) ->
  keeper_test addr w =
    report_status (mk_contract addr keeper_sim_abi (Some s)) (w_sent addr a).
Proof.
  intros Ha Hk Hc. run_test_binding Hidle Hart Hacc.
  rewrite (keeper_binding_check _ _ a s k u) by done. reflexivity.
Qed.

(** C3. When the node has not mined the [checkUpkeep()] transaction by
    the time of the read (no automining, no block at the task's wait
    points), the task prints that transaction's hash and then the status
    stored before it: the read does not reflect the transaction it
    follows, which is still pending. *)
Theorem keeper_test_stale (addr : string) (a : Z) (k : keeper_sim) (u : U) :
  w_automine w = false -> get_address addr = Some a ->
  ch_code (w_chain w) !! a = Some (KeeperSimCode k) ->
  ch_code (w_chain w) !! ks_counter k = Some (CounterCode u) ->
  keeper_test addr w = (Ok tt, add_console (msg_status (JBool (ks_upkeepNeeded k))) (w_sent addr a)) /\
  ch_pending (w_chain (w_sent addr a)) =
    ch_pending (w_chain w) ++ [mk_tx (ch_next_hash (w_chain w)) s (TxCall a "checkUpkeep" [])].
Proof.
  intros Hauto Ha Hk Hc.
  assert (Hq : w_chain (w_sent addr a) = (submit_tx s (TxCall a "checkUpkeep" []) (w_chain w)).2)
    by (unfold w_sent; cbn [add_console w_chain]; apply (send_tx_queued (add_console _ w)), Hauto).
  split; [|by rewrite Hq].
  rewrite (keeper_test_to_status addr a k u) by done. unfold report_status, log_line. run_script.
  rewrite (keeper_binding_get _ _ a s k); [reflexivity|done| |].
  - unfold w_sent. cbn [add_console w_mine_sched]. by rewrite send_tx_sched.
  - by rewrite Hq.
Qed.

(** On a node that automines, the read follows the block that mined
    the [checkUpkeep()] transaction. *)
Lemma keeper_test_automined (addr : string) (a : Z) (k : keeper_sim) (u : U) :
  w_automine w = true -> ch_pending (w_chain w) = [] -> get_address addr = Some a ->
  ch_code (w_chain w) !! a = Some (KeeperSimCode k) ->
  ch_code (w_chain w) !! ks_counter k = Some (CounterCode u) ->
  keeper_test addr w =
    (Ok tt, add_console
              (msg_status (JBool (checkUpkeep u (next_block_time (w_chain w) (w_clock_ms w / 1000)) []).1))
              (w_sent addr a)).
Proof.
  intros Hauto Hp Ha Hk Hc.
  rewrite (keeper_test_to_status addr a k u) by done. unfold report_status, log_line. run_script.
  rewrite (keeper_binding_get _ _ a s
             (mk_keeper_sim (ks_counter k) (checkUpkeep u (next_block_time (w_chain w) (w_clock_ms w / 1000)) []).1));
    [reflexivity|done| |].
  - unfold w_sent. cbn [add_console w_mine_sched]. by rewrite send_tx_sched.
  - unfold w_sent. cbn [add_console w_chain]. rewrite send_tx_automined by exact Hauto.
    by apply mine_keeper_check.
Qed.

(** C4. On a node that automines, the [checkUpkeep()] transaction is in a
    block, with a successful receipt, before the read: the status printed
    is the Counter's answer at that block's timestamp (the wall clock's
    second, or one second after the latest block). *)
Theorem keeper_test_fresh (addr : string) (a : Z) (k : keeper_sim) (u : U) :
  w_automine w = true -> ch_pending (w_chain w) = [] -> get_address addr = Some a ->
  ch_code (w_chain w) !! a = Some (KeeperSimCode k) ->
  ch_code (w_chain w) !! ks_counter k = Some (CounterCode u) ->
  keeper_test addr w =
    (Ok tt, add_console
              (msg_status (JBool (checkUpkeep u (next_block_time (w_chain w) (w_clock_ms w / 1000)) []).1))
              (w_sent addr a)) /\
  ch_receipts (w_chain (w_sent addr a)) !! ch_next_hash (w_chain w) =
    Some (mk_receipt true (S (ch_height (w_chain w))) None).
Proof.
  intros Hauto Hp Ha Hk Hc. split; [by apply (keeper_test_automined addr a k u)|].
  unfold w_sent. cbn [add_console w_chain]. rewrite send_tx_automined by exact Hauto.
  by apply (mine_keeper_check _ _ _ a k u).
Qed.

(** C17. A KeeperSimulation whose Counter address holds no contract
    cannot have its [checkUpkeep()] estimated: the task throws ethers'
    gas-estimation error after its first line, and nothing is sent. *)
Theorem keeper_test_unbound (addr : string) (a : Z) (k : keeper_sim) :
  get_address addr = Some a -> ch_code (w_chain w) !! a = Some (KeeperSimCode k) ->
  ch_code (w_chain w) !! ks_counter k = None ->
  keeper_test addr w =
    (Thrown (UnpredictableGasLimit "cannot estimate gas; transaction may fail"),
     add_console (msg_calling addr (w_network w)) w).
Proof.
  intros Ha Hk Hc. run_test_binding Hidle Hart Hacc.
  rewrite (invoke_estimate_fails _ _ _ _ (mk_fragment "checkUpkeep" [] [] false) s a []); try done.
  - cbn [ct_target]. unfold resolve_address. by rewrite Ha.
  - unfold simulate, exec_call. cbn [add_console w_chain]. by rewrite Hk, Hc.
Qed.

(** C26. Given the Counter's address instead of a KeeperSimulation's,
    the task fails at gas estimation: the Counter has no [checkUpkeep]
    without arguments, so the simulation reverts, the task throws after
    its first line, and nothing is sent. *)
Theorem keeper_test_on_counter (addr : string) (a : Z) (u : U) :
  get_address addr = Some a -> ch_code (w_chain w) !! a = Some (CounterCode u) ->
  keeper_test addr w =
    (Thrown (UnpredictableGasLimit "cannot estimate gas; transaction may fail"),
     add_console (msg_calling addr (w_network w)) w).
Proof.
  intros Ha Hc. run_test_binding Hidle Hart Hacc.
  rewrite (invoke_estimate_fails _ _ _ _ (mk_fragment "checkUpkeep" [] [] false) s a []); try done.
  - cbn [ct_target]. unfold resolve_address. by rewrite Ha.
  - unfold simulate, exec_call. cbn [add_console w_chain]. by rewrite Hc.
Qed.
End Runs.

(** ** Without an account

    [accounts[0]] is [undefined] when the network has no account: the
    binding has neither a signer nor a provider. *)
Section NoSigner.
Context {U : Type} `{UpkeepContract U}.
Variable (w : world U).
Hypothesis Hidle : w_mine_sched w = [].
Hypothesis Hnone : w_accounts w = [].
Hypothesis Hart : w_artifacts w !! "KeeperSimulation" = Some keeper_sim_abi.

(** C27. With no account, the task refuses to send [checkUpkeep()]
    with ethers' "sending a transaction requires a signer", right after
    its first line: nothing is sent. *)
Theorem keeper_test_no_accounts (addr : string) (a : Z) :
  get_address addr = Some a ->
  keeper_test addr w =
    (Thrown (UnsupportedOperation "sending a transaction requires a signer"),
     add_console (msg_calling addr (w_network w)) w).
Proof.
  intros Ha. run_test_binding Hidle Hart Hnone. rewrite Ha. cbv iota beta. reflexivity.
Qed.
End NoSigner.

(** ** What the task sends, from any world *)

Section Effect.
Context {U : Type} `{UpkeepContract U}.

(** C6. From any world, the chain after the task is reached from the
    chain before by ledger steps whose only submissions are calls of
    [checkUpkeep] or [getUpkeepNeeded] at the address the task's argument
    resolves to. *)
Theorem keeper_test_effect (contractAddr : string) :
  chain_effect (binding_calls contractAddr ["checkUpkeep"; "getUpkeepNeeded"]) (keeper_test contractAddr).
Proof.
  unfold keeper_test, report_status. do 5 (apply chain_effect_bind; [solve_effect|intros ?]).
  apply chain_effect_new_contract. intros ct ->.
  solve_effect; apply invoke_binding_effect; set_solver.
Qed.
End Effect.

(** ** Witnesses on the local network

    The same KeeperSimulation, bound to a Counter whose upkeep is due:
    on the automining node the status printed is [true], on the node
    that leaves the transaction pending it is the stored [false]. *)

Lemma keeper_test_stale_witness :
  keeper_test keeper_addr w_keeper_queued =
    (Ok tt, add_console (msg_status (JBool false)) (w_sent w_keeper_queued deployer keeper_addr keeper_at)) /\
  ch_pending (w_chain (w_sent w_keeper_queued deployer keeper_addr keeper_at)) =
    ch_pending (w_chain w_keeper_queued) ++
      [mk_tx (ch_next_hash (w_chain w_keeper_queued)) deployer (TxCall keeper_at "checkUpkeep" [])].
Proof.
  apply (keeper_test_stale w_keeper_queued deployer [101] eq_refl eq_refl eq_refl keeper_addr keeper_at
           (keeper_sim_constructor counter_at) (counter_since 0)); fixture_facts.
Defined.

Lemma keeper_test_fresh_witness :
  keeper_test keeper_addr w_keeper_auto =
    (Ok tt, add_console (msg_status (JBool true)) (w_sent w_keeper_auto deployer keeper_addr keeper_at)) /\
  ch_receipts (w_chain (w_sent w_keeper_auto deployer keeper_addr keeper_at)) !! ch_next_hash (w_chain w_keeper_auto) =
    Some (mk_receipt true (S (ch_height (w_chain w_keeper_auto))) None).
Proof.
  assert (Hb : (checkUpkeep (counter_since 0)
                  (next_block_time (w_chain w_keeper_auto) (w_clock_ms w_keeper_auto / 1000)) []).1 = true)
    by reflexivity.
  rewrite <- Hb.
  apply (keeper_test_fresh w_keeper_auto deployer [101] eq_refl eq_refl eq_refl keeper_addr keeper_at
           (keeper_sim_constructor counter_at) (counter_since 0)); fixture_facts.
Defined.

Lemma keeper_test_on_counter_witness :
  keeper_test counter_addr w_due =
    (Thrown (UnpredictableGasLimit "cannot estimate gas; transaction may fail"),
     add_console (msg_calling counter_addr (w_network w_due)) w_due).
Proof.
  apply (keeper_test_on_counter w_due deployer [101] eq_refl eq_refl eq_refl counter_addr counter_at
           (counter_since 0)); fixture_facts.
Defined.

Lemma keeper_test_no_accounts_witness :
  keeper_test keeper_addr w_no_accounts =
    (Thrown (UnsupportedOperation "sending a transaction requires a signer"),
     add_console (msg_calling keeper_addr (w_network w_no_accounts)) w_no_accounts).
Proof. apply (keeper_test_no_accounts w_no_accounts eq_refl eq_refl eq_refl keeper_addr keeper_at); fixture_facts. Defined.

Lemma keeper_test_unbound_witness :
  keeper_test keeper_addr w_keeper_unbound =
    (Thrown (UnpredictableGasLimit "cannot estimate gas; transaction may fail"),
     add_console (msg_calling keeper_addr (w_network w_keeper_unbound)) w_keeper_unbound).
Proof.
  apply (keeper_test_unbound w_keeper_unbound deployer [101] eq_refl eq_refl eq_refl keeper_addr keeper_at
           (keeper_sim_constructor 5)); fixture_facts.
Defined.

End KeeperTestTask.
