(* ===== verification/Deploy.v ===== *)
(** * Deploy: the deploy script of the KeeperSimulation

    [src/deploy/05_Deploy_KeeperSimulation.js], run by [hardhat deploy]
    (tags [all] and [keepers]): it reads the named account [deployer] and
    the chain id, silences the ethers logger below [ERROR], reads the
    network's name in [networkConfig], reads the Counter's deployment,
    deploys [KeeperSimulation] with the Counter's address as its only
    constructor argument, and prints the command that runs [keeper-test]
    against the new contract.

    The theorems show that the deployed KeeperSimulation is bound to the
    Counter's recorded address, at an address no contract had before,
    which the printed command names; that a missing Counter deployment
    aborts before anything is sent; that a chain id missing from the
    network table aborts too, although the table only serves the printed
    line; that a second run reuses the deployment and sends nothing,
    while a run after the Counter was deployed again deploys a new
    KeeperSimulation for it; and
    that, from any world, the only transaction the script can send is the
    creation of a KeeperSimulation bound to the Counter of the
    registry. *)

From S2P Require Import Spec2Rocq Js Abi Upkeep Ledger World Ethers Hardhat Fixtures.
Import Js Abi Upkeep Ledger World Ethers Hardhat Fixtures.

Open Scope Z_scope.

Module Deploy.

(** The three lines of [log] (lines 25 to 27); [log] prints them, as
    [hardhat deploy] runs with its logs on. *)
Definition msg_run : string := "Run Keeper simulation contract with following command:".

Definition msg_hint (address : Z) (networkName : jsval) : string :=
  "npx hardhat keeper-test --contract " +:+ address_to_string address +:+
  " --network " +:+ to_string networkName.

(** Fifty-two dashes. *)
Definition msg_rule : string := String.string_of_list_ascii (repeat "-"%char 52).

(** The code a KeeperSimulation deployment creates: the constructor run
    with its argument. *)
Definition keeper_sim_init {U : Type} (counterAddress : Z) : code U :=
  KeeperSimCode (keeper_sim_constructor counterAddress).

Section Script.
Context {U : Type} `{UpkeepContract U}.

(** The exported function, lines 3 to 28. *)
Definition deploy_keeper_simulation : Script U unit :=
  deployer ← getNamedAccounts_deployer;
  chainId ← getChainId;
  modify_st (set_log_level LogError);;
  cfg ← gets w_net_config;
  networkName ← of_sum (network_name_of cfg chainId);
  Counter ← deployments_get "Counter";
  keeperSimulation ← deploy "KeeperSimulation" deployer [AAddress (dep_address Counter)]
                       (keeper_sim_init (dep_address Counter));
  log_line msg_run;;
  log_line (msg_hint (dr_address keeperSimulation) networkName);;
  log_line msg_rule.
End Script.

(** The line hardhat-deploy prints for a new deployment, and for a
    reused one. *)
Definition msg_deployed (h a : Z) : string :=
  "deploying " +:+ dq +:+ "KeeperSimulation" +:+ dq +:+ " (tx: " +:+ hash_string h +:+
  ")...: deployed at " +:+ address_to_string a.

Definition msg_reused (a : Z) : string :=
  "reusing " +:+ dq +:+ "KeeperSimulation" +:+ dq +:+ " at " +:+ address_to_string a.

(** The script up to the network table, on an idle node. *)
Ltac run_deploy_prefix Hidle :=
  unfold deploy_keeper_simulation, log_line; run_script;
  rewrite getNamedAccounts_deployer_idle by exact Hidle; cbv iota beta;
  rewrite getChainId_idle by exact Hidle; cbv iota beta; cbn [set_log_level w_net_config].

(** ** Runs of the script

    The node mines nothing on its own while the script runs.  The
    network's entry gives the name [nn] the hint prints. *)
Section Runs.
Context {U : Type} `{UpkeepContract U}.
Variables (w : world U) (nn : jsval).
Hypothesis Hidle : w_mine_sched w = [].

(** The world after a new deployment at address [a] by transaction [h]
    of the deployer [d], with the Counter at [c]. *)
Definition w_deployed (d c : Z) : world U :=
  let a := alloc_address (dom (ch_code (w_chain w))) in
  add_console msg_rule (add_console (msg_hint a nn) (add_console msg_run
    (set_deployments (<["KeeperSimulation" := mk_deployment a [AAddress c]]> (w_deployments w))
      (add_console (msg_deployed (ch_next_hash (w_chain w)) a)
        (send_tx d (TxCreate (keeper_sim_init c)) (set_log_level LogError w)).2)))).

(** A new deployment happens when the registry holds no
    KeeperSimulation with the constructor argument of this run: none at
    all, or one made for another Counter. *)
Lemma deploy_run_new (d : Z) (cnt : deployment) :
  w_automine w = true -> ch_pending (w_chain w) = [] -> w_named_deployer w = Some d ->
  network_name_of (w_net_config w) (w_chain_id w) = inr nn ->
  w_deployments w !! "Counter" = Some cnt ->
  (forall k, w_deployments w !! "KeeperSimulation" = Some k -> dep_args k <> [AAddress (dep_address cnt)]) ->
  deploy_keeper_simulation w = (Ok tt, w_deployed d (dep_address cnt)).
Proof.
  intros Ha Hp Hd Hn Hc Hk. run_deploy_prefix Hidle. rewrite Hn. cbv iota beta.
  rewrite deployments_get_idle by exact Hidle. cbn [set_log_level w_deployments]. rewrite Hc.
  cbv iota beta. unfold deploy. run_script. cbn [set_log_level w_deployments].
  destruct (w_deployments w !! "KeeperSimulation") as [k|] eqn:E;
    [rewrite decide_False by (by apply Hk)|]; rewrite Hd;
    rewrite (deploy_new_automine (set_log_level LogError w)) by done; reflexivity.
Qed.

Lemma deploy_run_fresh (d : Z) (cnt : deployment) :
  w_automine w = true -> ch_pending (w_chain w) = [] -> w_named_deployer w = Some d ->
  network_name_of (w_net_config w) (w_chain_id w) = inr nn ->
  w_deployments w !! "Counter" = Some cnt -> w_deployments w !! "KeeperSimulation" = None ->
  deploy_keeper_simulation w = (Ok tt, w_deployed d (dep_address cnt)).
Proof. intros Ha Hp Hd Hn Hc Hk. apply deploy_run_new; [done..|]. by rewrite Hk. Qed.

(** The code a new deployment leaves: the KeeperSimulation at the
    address allocated, every other contract as it was. *)
Lemma w_deployed_code (d c : Z) :
  w_automine w = true -> ch_pending (w_chain w) = [] ->
  ch_code (w_chain (w_deployed d c)) =
    <[alloc_address (dom (ch_code (w_chain w))) := KeeperSimCode (keeper_sim_constructor c)]> (ch_code (w_chain w)).
Proof.
  intros Ha Hp. unfold w_deployed. cbn [add_console set_deployments w_chain].
  rewrite send_tx_automined by exact Ha. by apply mine_create.
Qed.

Lemma deploy_run_reuse (a : Z) (cnt : deployment) :
  network_name_of (w_net_config w) (w_chain_id w) = inr nn ->
  w_deployments w !! "Counter" = Some cnt ->
  w_deployments w !! "KeeperSimulation" = Some (mk_deployment a [AAddress (dep_address cnt)]) ->
  deploy_keeper_simulation w =
    (Ok tt, add_console msg_rule (add_console (msg_hint a nn) (add_console msg_run
              (add_console (msg_reused a) (set_log_level LogError w))))).
Proof.
  intros Hn Hc Hk. run_deploy_prefix Hidle. rewrite Hn. cbv iota beta.
  rewrite deployments_get_idle by exact Hidle. cbn [set_log_level w_deployments]. rewrite Hc.
  cbv iota beta. unfold deploy. run_script. cbn [set_log_level w_deployments]. rewrite Hk.
  cbn [dep_args]. by rewrite decide_True.
Qed.
(** C7. A first deployment on an automining node: the script ends, the
    new KeeperSimulation is bound to the address of the Counter's
    deployment record, at an address that held no contract (so not the
    Counter's), the registry records it with that constructor argument,
    and the printed command names the new address and the network. *)
Theorem deploy_keeper_simulation_wires (d : Z) (cnt : deployment) :
  w_automine w = true -> ch_pending (w_chain w) = [] -> w_named_deployer w = Some d ->
  network_name_of (w_net_config w) (w_chain_id w) = inr nn ->
  w_deployments w !! "Counter" = Some cnt -> w_deployments w !! "KeeperSimulation" = None ->
  is_Some (ch_code (w_chain w) !! dep_address cnt) ->
  exists w' a, deploy_keeper_simulation w = (Ok tt, w') /\
    ch_code (w_chain w') = <[a := KeeperSimCode (keeper_sim_constructor (dep_address cnt))]> (ch_code (w_chain w)) /\
    (a ∉ dom (ch_code (w_chain w))) /\ a <> dep_address cnt /\
    w_deployments w' !! "KeeperSimulation" = Some (mk_deployment a [AAddress (dep_address cnt)]) /\
    w_console w' = w_console w ++ [msg_deployed (ch_next_hash (w_chain w)) a; msg_run; msg_hint a nn; msg_rule].
Proof.
  intros Ha Hp Hd Hn Hc Hk Hcode.
  pose proof (proj1 (alloc_address_fresh (dom (ch_code (w_chain w))))) as Hfresh.
  exists (w_deployed d (dep_address cnt)), (alloc_address (dom (ch_code (w_chain w)))).
  split; [exact (deploy_run_fresh d cnt Ha Hp Hd Hn Hc Hk)|]. unfold w_deployed. cbn [add_console set_deployments w_chain w_deployments].
  split; [|split; [exact Hfresh|split; [|split]]].
  - by apply w_deployed_code.
  - intros Heq. rewrite Heq in Hfresh. by apply Hfresh, elem_of_dom.
  - by rewrite lookup_insert_eq.
  - rewrite send_tx_only_chain. cbn [w_console add_console set_deployments set_chain set_log_level].
    by rewrite <- !app_assoc.
Qed.

(** C8. Without a deployment record of the Counter on the network, the
    script throws hardhat-deploy's error before any transaction: the
    chain, the registry and the console are as they were. *)
Theorem deploy_keeper_simulation_missing_counter :
  network_name_of (w_net_config w) (w_chain_id w) = inr nn ->
  w_deployments w !! "Counter" = None ->
  deploy_keeper_simulation w = (Thrown (DeployError "No deployment found for: Counter"), set_log_level LogError w).
Proof.
  intros Hn Hc. run_deploy_prefix Hidle. rewrite Hn. cbv iota beta.
  rewrite deployments_get_idle by exact Hidle. cbn [set_log_level w_deployments]. by rewrite Hc.
Qed.

(** C9. A chain id without an entry in [networkConfig] makes line 16
    throw a [TypeError] before the Counter's record is even read, whatever
    the registry holds: the table the spec calls a lookup for the printed
    network name decides whether the deployment happens. *)
Theorem deploy_keeper_simulation_unknown_chain :
  w_net_config w !! w_chain_id w = None ->
  deploy_keeper_simulation w =
    (Thrown (TypeError "Cannot read properties of undefined (reading 'name')"), set_log_level LogError w).
Proof. intros Hc. run_deploy_prefix Hidle. unfold network_name_of. by rewrite Hc. Qed.

(** C30. After the Counter is deployed again at another address, the
    recorded KeeperSimulation, made for the old Counter, is not reused:
    hardhat-deploy compares the constructor arguments, so the script
    deploys a new KeeperSimulation bound to the new Counter, at a fresh
    address, and the record is replaced.  The old contract stays on the
    chain as it was, still bound to the old Counter. *)
Theorem deploy_keeper_simulation_redeploys (d a0 c0 : Z) (cnt : deployment) :
  w_automine w = true -> ch_pending (w_chain w) = [] -> w_named_deployer w = Some d ->
  network_name_of (w_net_config w) (w_chain_id w) = inr nn ->
  w_deployments w !! "Counter" = Some cnt ->
  w_deployments w !! "KeeperSimulation" = Some (mk_deployment a0 [AAddress c0]) ->
  c0 <> dep_address cnt -> a0 ∈ dom (ch_code (w_chain w)) ->
  exists w' a, deploy_keeper_simulation w = (Ok tt, w') /\ a <> a0 /\
    ch_code (w_chain w') !! a = Some (KeeperSimCode (keeper_sim_constructor (dep_address cnt))) /\
    ch_code (w_chain w') !! a0 = ch_code (w_chain w) !! a0 /\
    w_deployments w' !! "KeeperSimulation" = Some (mk_deployment a [AAddress (dep_address cnt)]) /\
    msg_deployed (ch_next_hash (w_chain w)) a ∈ w_console w'.
Proof.
  intros Ha Hp Hd Hn Hc Hk Hne Ha0.
  pose proof (proj1 (alloc_address_fresh (dom (ch_code (w_chain w))))) as Hfresh.
  assert (Hnew : alloc_address (dom (ch_code (w_chain w))) <> a0) by (intros Heq; rewrite Heq in Hfresh; done).
  exists (w_deployed d (dep_address cnt)), (alloc_address (dom (ch_code (w_chain w)))).
  split; [apply deploy_run_new; [done..|]; rewrite Hk; intros k [= <-] [= Heq]; by apply Hne|].
  rewrite w_deployed_code by done. split_and!.
  - exact Hnew.
  - by rewrite lookup_insert_eq.
  - by rewrite lookup_insert_ne.
  - unfold w_deployed. cbn [add_console set_deployments w_deployments]. by rewrite lookup_insert_eq.
  - unfold w_deployed. rewrite send_tx_only_chain. cbn [w_console add_console set_deployments set_chain set_log_level].
    set_solver.
Qed.
End Runs.

(** ** Running the script again, and what it may send *)

Section Again.
Context {U : Type} `{UpkeepContract U}.

(** What a new deployment leaves of the world: everything but the
    chain, the registry, the console and the log level. *)
Lemma w_deployed_fields (w : world U) (nn : jsval) (d c : Z) :
  let w' := w_deployed w nn d c in
  w_mine_sched w' = w_mine_sched w /\ w_automine w' = w_automine w /\ w_accounts w' = w_accounts w /\
  w_artifacts w' = w_artifacts w /\ w_net_config w' = w_net_config w /\ w_chain_id w' = w_chain_id w /\
  w_clock_ms w' = w_clock_ms w.
Proof. unfold w_deployed. rewrite send_tx_only_chain. repeat split. Qed.

Lemma w_deployed_chain (w : world U) (nn : jsval) (d c : Z) :
  w_automine w = true ->
  w_chain (w_deployed w nn d c) =
    mine_block (next_block_time (w_chain w) (w_clock_ms w / 1000)) (submit_tx d (TxCreate (keeper_sim_init c)) (w_chain w)).2.
Proof. intros Ha. unfold w_deployed. cbn [w_chain add_console set_deployments]. by rewrite send_tx_automined. Qed.

(** C10. Running the script a second time, on the world the first run
    left, reuses the recorded KeeperSimulation: it ends without sending
    anything, the chain and the registry stay as the first run left
    them, and the lines it prints are hardhat-deploy's [reusing] line
    and the same three lines as the first run, the command naming the
    same address. *)
Theorem deploy_keeper_simulation_idempotent (w : world U) (nn : jsval) (d : Z) (cnt : deployment) :
  w_mine_sched w = [] -> w_automine w = true -> ch_pending (w_chain w) = [] ->
  w_named_deployer w = Some d -> network_name_of (w_net_config w) (w_chain_id w) = inr nn ->
  w_deployments w !! "Counter" = Some cnt -> w_deployments w !! "KeeperSimulation" = None ->
  exists w' w'', deploy_keeper_simulation w = (Ok tt, w') /\ deploy_keeper_simulation w' = (Ok tt, w'') /\
    w_chain w'' = w_chain w' /\ w_deployments w'' = w_deployments w' /\
    let a := alloc_address (dom (ch_code (w_chain w))) in
    w_console w'' = w_console w' ++ [msg_reused a; msg_run; msg_hint a nn; msg_rule].
Proof.
  intros Hi Ha Hp Hd Hn Hc Hk.
  set (w' := w_deployed w nn d (dep_address cnt)).
  assert (Hw' : w' = add_console msg_rule (add_console (msg_hint (alloc_address (dom (ch_code (w_chain w)))) nn)
                   (add_console msg_run (set_deployments (<["KeeperSimulation" :=
                      mk_deployment (alloc_address (dom (ch_code (w_chain w)))) [AAddress (dep_address cnt)]]>
                      (w_deployments w))
                   (add_console (msg_deployed (ch_next_hash (w_chain w)) (alloc_address (dom (ch_code (w_chain w)))))
                      (set_chain (w_chain w') (set_log_level LogError w))))))).
  { unfold w', w_deployed. by rewrite send_tx_only_chain. }
  assert (Hfields : w_mine_sched w' = [] /\ w_net_config w' = w_net_config w /\ w_chain_id w' = w_chain_id w /\
                    w_deployments w' = <["KeeperSimulation" := mk_deployment (alloc_address (dom (ch_code (w_chain w))))
                                          [AAddress (dep_address cnt)]]> (w_deployments w)).
  { rewrite Hw'. cbn [w_mine_sched w_net_config w_chain_id w_deployments add_console set_deployments set_chain
                      set_log_level]. done. }
  destruct Hfields as (Hi' & Hcfg & Hid & Hdeps).
  eexists w', _. split; [by apply deploy_run_fresh|].
  rewrite (deploy_run_reuse w' nn Hi' (alloc_address (dom (ch_code (w_chain w)))) cnt).
  - split; [done|]. split; [done|]. split; [done|]. cbn [w_console add_console set_log_level].
    by rewrite <- !app_assoc.
  - by rewrite Hcfg, Hid.
  - rewrite Hdeps. by rewrite lookup_insert_ne.
  - rewrite Hdeps. by rewrite lookup_insert_eq.
Qed.

(** C11. From any world, the only transaction the script can send is the
    creation of a KeeperSimulation bound to the address of the Counter
    record the registry holds when the script starts; without that
    record it sends nothing. *)
Theorem deploy_keeper_simulation_effect (w : world U) :
  rtc (chain_step_by (fun _ k => exists cnt, w_deployments w !! "Counter" = Some cnt /\
                                   k = TxCreate (keeper_sim_init (dep_address cnt))))
      (w_chain w) (w_chain (deploy_keeper_simulation w).2).
Proof.
  set (P := fun (_ : Z) (k : tx_kind U) => exists cnt, _ /\ _).
  unfold deploy_keeper_simulation, getNamedAccounts_deployer, getChainId, deployments_get, log_line. run_script.
  rewrite (node_tick_run w). set (w1 := (node_tick w).2).
  rewrite (node_tick_run w1). set (w2 := (node_tick w1).2).
  assert (H02 : rtc (chain_step_by P) (w_chain w) (w_chain w2))
    by (etrans; [exact (chain_effect_tick P w)|exact (chain_effect_tick P w1)]).
  destruct (network_name_of _ _) as [e|nn]; [exact H02|].
  rewrite (node_tick_run (set_log_level LogError w2)). set (w4 := (node_tick (set_log_level LogError w2)).2).
  assert (H04 : rtc (chain_step_by P) (w_chain w) (w_chain w4))
    by (etrans; [exact H02|exact (chain_effect_tick P (set_log_level LogError w2))]).
  assert (Hd : w_deployments w4 = w_deployments w) by (unfold w4, w2, w1; rewrite node_tick_deployments; cbn [set_log_level w_deployments];
        by rewrite !node_tick_deployments).
  rewrite Hd. destruct (w_deployments w !! "Counter") as [cnt|] eqn:Hc; [|exact H04].
  assert (Hdep : chain_effect P (deploy "KeeperSimulation" (w_named_deployer w1) [AAddress (dep_address cnt)]
                                     (keeper_sim_init (dep_address cnt)))) by (apply deploy_effect; intros f; by exists cnt).
  specialize (Hdep w4). destruct (deploy _ _ _ _ w4) as [[r|e|] w5]; cbn in *; by etrans.
Qed.
End Again.

(** ** Deploying on a node that does not automine *)

Section Waiting.
Context {U : Type} `{UpkeepContract U}.

(** Four wait points come before the creation is sent: the named
    accounts, the chain id, the Counter record, and [deploy]'s own. *)
Lemma drop_4_tail (l : list bool) : drop 4 l = tail (tail (tail (tail l))).
Proof. by destruct l as [|? [|? [|? [|? ?]]]]. Qed.

(** C19. On a node that does not automine, the deploy script sends the
    KeeperSimulation's creation and waits for its receipt: it finishes,
    with the KeeperSimulation recorded at the address the creation
    allocates, as soon as a block is mined at one of the wait points
    after the four that come before the send; if no block is ever mined
    there it never returns, and the registry is left as it was. *)
Theorem deploy_keeper_simulation_waits (w : world U) (nn : jsval) (d : Z) (cnt : deployment) :
  w_automine w = false -> ch_pending (w_chain w) = [] ->
  ch_receipts (w_chain w) !! ch_next_hash (w_chain w) = None -> w_named_deployer w = Some d ->
  network_name_of (w_net_config w) (w_chain_id w) = inr nn ->
  w_deployments w !! "Counter" = Some cnt -> w_deployments w !! "KeeperSimulation" = None ->
  (true ∈ drop 4 (w_mine_sched w) ->
     exists w', deploy_keeper_simulation w = (Ok tt, w') /\
       w_deployments w' = <["KeeperSimulation" := mk_deployment (alloc_address (dom (ch_code (w_chain w))))
                                                  [AAddress (dep_address cnt)]]> (w_deployments w)) /\
  ((forall b, b ∈ drop 4 (w_mine_sched w) -> b = false) ->
     exists w', deploy_keeper_simulation w = (Blocked, w') /\ w_deployments w' = w_deployments w).
Proof.
  intros Ha Hp Hr Hd Hn Hc Hk.
  unfold deploy_keeper_simulation, log_line. run_script.
  rewrite getNamedAccounts_deployer_run. tick_env c1 Q1. cbv iota beta.
  rewrite getChainId_run. tick_env c2 Q2. cbv iota beta.
  cbn [set_log_level set_chain set_sched w_net_config w_chain_id]. rewrite Hn. cbv iota beta.
  rewrite (deployments_get_run _ _ cnt) by exact Hc. tick_env c3 Q3. cbv iota beta.
  unfold deploy. run_script. cbn [set_log_level set_chain set_sched w_deployments]. rewrite Hk, Hd.
  match goal with |- context [deploy_new _ _ _ _ ?W] => remember W as W3 eqn:EW end.
  assert (F3 : tail (w_mine_sched W3) = drop 4 (w_mine_sched w) /\ w_automine W3 = false /\
               w_chain W3 = c3 /\ w_deployments W3 = w_deployments w).
  { rewrite EW, drop_4_tail. by cbn. }
  destruct F3 as (S3 & A3 & C3 & D3).
  assert (Qc3 : quiet_chain c3 (w_chain w)).
  { subst W3. cbn in Q1, Q2, Q3. specialize (Q1 Hp).
    pose proof (Q2 (proj1 (proj2 Q1))) as Q2'. pose proof (Q3 (proj1 (proj2 Q2'))) as Q3'.
    eapply quiet_chain_trans; [eapply quiet_chain_trans|]; eassumption. }
  clear EW Q1 Q2 Q3. destruct Qc3 as (Kc & Pc & Rc & Nc).
  destruct (deploy_new_waits W3 "KeeperSimulation" d [AAddress (dep_address cnt)]
              (keeper_sim_init (dep_address cnt))) as [Hok Hblk];
    [exact A3|by rewrite C3|by rewrite C3, Rc, Nc|].
  rewrite S3, C3, Kc, D3 in *. split.
  - intros Ht. destruct (Hok Ht) as (w' & E & Dw). rewrite E. cbv iota beta.
    eexists. split; [reflexivity|]. by cbn.
  - intros Hb. destruct (Hblk Hb) as (w' & E & Dw). rewrite E. cbv iota beta. by exists w'.
Qed.
End Waiting.

(** On the local network without automining: a block mined at the fifth
    wait point lets the deployment finish at address 2; with none mined,
    the script hangs. *)
Lemma deploy_keeper_simulation_waits_witness :
  (exists w', deploy_keeper_simulation (w_deploy_manual [false; false; false; false; true]) = (Ok tt, w') /\
     w_deployments w' = <["KeeperSimulation" := mk_deployment keeper_at [AAddress counter_at]]> counter_deployed) /\
  (exists w', deploy_keeper_simulation (w_deploy_manual [false; false; false; false; false]) = (Blocked, w') /\
     w_deployments w' = counter_deployed).
Proof.
  split.
  - destruct (proj1 (deploy_keeper_simulation_waits (w_deploy_manual [false; false; false; false; true])
                       (JStr "localhost") deployer (mk_deployment counter_at []) eq_refl eq_refl eq_refl eq_refl
                       eq_refl eq_refl eq_refl)) as (w' & E & D); [vm_compute; left|].
    exists w'. split; [exact E|]. rewrite D. reflexivity.
  - apply (proj2 (deploy_keeper_simulation_waits (w_deploy_manual [false; false; false; false; false])
                    (JStr "localhost") deployer (mk_deployment counter_at []) eq_refl eq_refl eq_refl eq_refl
                    eq_refl eq_refl eq_refl)).
    intros b Hb. vm_compute in Hb. repeat (apply elem_of_cons in Hb as [->|Hb]; [done|]). by apply elem_of_nil in Hb.
Defined.

(** ** Witnesses on the local network

    On the local network the Counter is recorded and deployed at address
    1: the KeeperSimulation goes to address 2. *)

Lemma deploy_keeper_simulation_wires_witness :
  exists w' a, deploy_keeper_simulation w_deploy_fresh = (Ok tt, w') /\
    ch_code (w_chain w') = <[a := KeeperSimCode (keeper_sim_constructor counter_at)]> (ch_code (w_chain w_deploy_fresh)) /\
    (a ∉ dom (ch_code (w_chain w_deploy_fresh))) /\ a <> counter_at /\
    w_deployments w' !! "KeeperSimulation" = Some (mk_deployment a [AAddress counter_at]) /\
    w_console w' = w_console w_deploy_fresh ++
      [msg_deployed (ch_next_hash (w_chain w_deploy_fresh)) a; msg_run; msg_hint a (JStr "localhost"); msg_rule].
Proof.
  apply (deploy_keeper_simulation_wires w_deploy_fresh (JStr "localhost") eq_refl deployer
           (mk_deployment counter_at [])); fixture_facts. by eexists.
Defined.

Lemma deploy_keeper_simulation_redeploys_witness :
  exists w' a, deploy_keeper_simulation w_counter_redeployed = (Ok tt, w') /\ a <> keeper_at /\
    ch_code (w_chain w') !! a = Some (KeeperSimCode (keeper_sim_constructor counter_redeployed_at)) /\
    ch_code (w_chain w') !! keeper_at = ch_code (w_chain w_counter_redeployed) !! keeper_at /\
    w_deployments w' !! "KeeperSimulation" = Some (mk_deployment a [AAddress counter_redeployed_at]) /\
    msg_deployed (ch_next_hash (w_chain w_counter_redeployed)) a ∈ w_console w'.
Proof.
  apply (deploy_keeper_simulation_redeploys w_counter_redeployed (JStr "localhost") eq_refl deployer keeper_at
           counter_at (mk_deployment counter_redeployed_at []));
    [fixture_facts..|apply (bool_decide_unpack _); vm_compute; exact I].
Defined.

Lemma deploy_keeper_simulation_missing_counter_witness :
  deploy_keeper_simulation w_deploy_no_counter =
    (Thrown (DeployError "No deployment found for: Counter"), set_log_level LogError w_deploy_no_counter).
Proof. apply (deploy_keeper_simulation_missing_counter w_deploy_no_counter (JStr "localhost") eq_refl); fixture_facts. Defined.

Lemma deploy_keeper_simulation_unknown_chain_witness :
  deploy_keeper_simulation w_unknown_chain =
    (Thrown (TypeError "Cannot read properties of undefined (reading 'name')"), set_log_level LogError w_unknown_chain).
Proof. apply (deploy_keeper_simulation_unknown_chain w_unknown_chain eq_refl); fixture_facts. Defined.

Lemma deploy_keeper_simulation_idempotent_witness :
  exists w' w'', deploy_keeper_simulation w_deploy_fresh = (Ok tt, w') /\
    deploy_keeper_simulation w' = (Ok tt, w'') /\
    w_chain w'' = w_chain w' /\ w_deployments w'' = w_deployments w' /\
    let a := alloc_address (dom (ch_code (w_chain w_deploy_fresh))) in
    w_console w'' = w_console w' ++ [msg_reused a; msg_run; msg_hint a (JStr "localhost"); msg_rule].
Proof.
  apply (deploy_keeper_simulation_idempotent w_deploy_fresh (JStr "localhost") deployer
           (mk_deployment counter_at [])); fixture_facts.
Defined.

End Deploy.
