(* ===== verification/Cli.v ===== *)
(** * Cli: the tasks' registration, Hardhat's command line, deploy tags

    The two task files register their actions with Hardhat's DSL, lines 3
    to 5 of each: [task(name, description).addParam("contract", ...)
    .setAction(action)].  The operator runs them as
    [npx hardhat <task> --contract <address> --network <name>]: Hardhat's
    [ArgumentsParser] reads the global parameters (such as [--network])
    anywhere on the line, takes the first other word as the task's name,
    and leaves the rest to the task's own parameters, which must all be
    declared, given once, and given a value; a required one that is
    missing is an error before anything runs.  The network chosen must be
    one of the configuration's.

    The deploy script is run by hardhat-deploy's [deploy] task, which
    selects the scripts of the [deploy] folder by the tags they export
    (line 29: [all] and [keepers]) when [--tags] is given, and runs them in
    the order of their file names.

    [run_cli] gives, for a command line, either the error Hardhat stops
    with, or the run of the selected task's action on the world of the
    selected network. *)

From stdpp Require Import sorting.
From S2P Require Import Spec2Rocq Js Abi Upkeep Ledger World Ethers Hardhat Fixtures KeeperSimulationTask KeeperTestTask Deploy.
Import Js Abi Upkeep Ledger World Ethers Hardhat Fixtures KeeperSimulationTask KeeperTestTask Deploy.

Open Scope Z_scope.
#[local] Set Warnings "-clear-no-such-hyp".

Module Cli.

(** ** Strings as the parser handles them

    JavaScript's [toLowerCase] and [toUpperCase], on ASCII letters; and
    [split] with a one-character separator, which keeps empty pieces:
    [""] splits into [[""]] and ["a-"] into [["a"; ""]]. *)
Definition ascii_is_upper (c : ascii) : bool :=
  (65 <=? nat_of_ascii c)%nat && (nat_of_ascii c <=? 90)%nat.

Definition ascii_is_lower (c : ascii) : bool :=
  (97 <=? nat_of_ascii c)%nat && (nat_of_ascii c <=? 122)%nat.

Definition ascii_to_lower (c : ascii) : ascii :=
  if ascii_is_upper c then ascii_of_nat (nat_of_ascii c + 32) else c.

Definition ascii_to_upper (c : ascii) : ascii :=
  if ascii_is_lower c then ascii_of_nat (nat_of_ascii c - 32) else c.

Definition to_lower (s : string) : string :=
  String.string_of_list_ascii (map ascii_to_lower (String.list_ascii_of_string s)).

Fixpoint split_chars (sep : ascii) (cs : list ascii) : list (list ascii) :=
  match cs with
  | [] => [[]]
  | c :: cs' =>
      if Ascii.eqb c sep then [] :: split_chars sep cs'
      else match split_chars sep cs' with
           | p :: ps => (c :: p) :: ps
           | [] => [[c]]
           end
  end.

Definition split_on (sep : ascii) (s : string) : list string :=
  map String.string_of_list_ascii (split_chars sep (String.list_ascii_of_string s)).

(** ** Parameter names

    [ArgumentsParser.cLAToParamName]: a command-line name must be lower
    case; its dash-separated parts after [--] are joined in camel case.
    An empty part has no first letter to capitalize, and JavaScript
    throws on it. *)
Definition capitalize (part : string) : js_error + string :=
  match part with
  | EmptyString => inl (TypeError "Cannot read properties of undefined (reading 'toUpperCase')")
  | String c rest => inr (String (ascii_to_upper c) rest)
  end.

Fixpoint join_capitalized (parts : list string) : js_error + string :=
  match parts with
  | [] => inr ""
  | p :: ps =>
      match capitalize p, join_capitalized ps with
      | inl e, _ | _, inl e => inl e
      | inr p', inr r => inr (p' +:+ r)
      end
  end.

Definition PARAM_PREFIX : string := "--".

Definition has_param_format (arg : string) : bool := String.prefix PARAM_PREFIX arg.

Definition cla_to_param_name (cla : string) : js_error + string :=
  if negb (String.eqb (to_lower cla) cla) then
    inl (HardhatError ("Invalid param " +:+ cla +:+ ". Command line params must be lowercase."))
  else
    match split_on "-"%char (String.substring 2 (String.length cla - 2) cla) with
    | [] => inr ""
    | p :: ps => match join_capitalized ps with inl e => inl e | inr r => inr (p +:+ r) end
    end.

(** [ArgumentsParser.paramNameToCLA]: back from camel case, each capital
    after the first letter starting a new dash-separated part. *)
Fixpoint kebab_chars (first : bool) (cs : list ascii) : list ascii :=
  match cs with
  | [] => []
  | c :: cs' =>
      if ascii_is_upper c && negb first then "-"%char :: ascii_to_lower c :: kebab_chars false cs'
      else ascii_to_lower c :: kebab_chars false cs'
  end.

Definition param_name_to_cla (name : string) : string :=
  PARAM_PREFIX +:+ String.string_of_list_ascii (kebab_chars true (String.list_ascii_of_string name)).

(** ** Parameter definitions and tasks

    A parameter is a flag, or takes the next word as its value; it is
    required unless declared optional.  A task's arguments map each
    parameter given to its value, a flag to ["true"]. *)
Record param_def := mk_param_def {
  pd_name : string;
  pd_description : string;
  pd_flag : bool;
  pd_optional : bool
}.

Abbreviation task_args := (gmap string string).

Record task_def (U : Type) := mk_task_def {
  td_name : string;
  td_description : string;
  td_params : list param_def;
  td_action : task_args -> Script U unit
}.
Arguments mk_task_def {U} td_name td_description td_params td_action.
Arguments td_name {U} _.
Arguments td_description {U} _.
Arguments td_params {U} _.
Arguments td_action {U} _.

Section Dsl.
Context {U : Type}.

(** [task(name, description)]: until [setAction], running it throws. *)
Definition task (name description : string) : task_def U :=
  mk_task_def name description []
    (fun _ => throw (HardhatError ("No action set for task " +:+ name +:+ "."))).

(** [.addParam(name, description)]: a required string parameter. *)
Definition addParam (name description : string) (t : task_def U) : task_def U :=
  mk_task_def (td_name t) (td_description t) (td_params t ++ [mk_param_def name description false false])
    (td_action t).

(** [.addOptionalParam(name, description)]: a string parameter that may
    be left out. *)
Definition addOptionalParam (name description : string) (t : task_def U) : task_def U :=
  mk_task_def (td_name t) (td_description t) (td_params t ++ [mk_param_def name description false true])
    (td_action t).

Definition setAction (action : task_args -> Script U unit) (t : task_def U) : task_def U :=
  mk_task_def (td_name t) (td_description t) (td_params t) action.
End Dsl.

Definition find_param (defs : list param_def) (name : string) : option param_def :=
  head (filter (fun d => pd_name d = name) defs).

(** The parser's results are values of [js_error + _], composed with
    the error monad of the sum. *)
#[local] Instance sum_ret {E} : MRet (sum E) := fun _ a => inr a.
#[local] Instance sum_bind {E} : MBind (sum E) :=
  fun _ _ k m => match m with inl e => inl e | inr a => k a end.

(** The errors of [ArgumentsParser] and of the command line's driver. *)
Definition err_unrecognized_cla (arg : string) : js_error :=
  HardhatError ("Unrecognised command line argument " +:+ arg +:+ ".").
Definition err_unrecognized_param (arg : string) : js_error :=
  HardhatError ("Unrecognized param " +:+ arg).
Definition err_repeated_param (arg : string) : js_error :=
  HardhatError ("Repeated parameter " +:+ arg).
Definition err_missing_argument (cla : string) : js_error :=
  HardhatError ("The '" +:+ cla +:+ "' parameter expects a value, but none was passed.").
Definition err_unrecognized_positional (arg : string) : js_error :=
  HardhatError ("Unrecognized positional argument " +:+ arg).
Definition err_unrecognized_task (name : string) : js_error :=
  HardhatError ("Unrecognized task " +:+ name).
Definition err_network_not_found (name : string) : js_error :=
  HardhatError ("Network " +:+ name +:+ " doesn't exist").

(** The global parameters, [HARDHAT_PARAM_DEFINITIONS]; all optional. *)
Definition hardhat_params : list param_def :=
  [mk_param_def "network" "The network to connect to." false true;
   mk_param_def "showStackTraces" "Show stack traces." true true;
   mk_param_def "version" "Shows hardhat's version." true true;
   mk_param_def "help" "Shows this message, or a task's help if its name is provided." true true;
   mk_param_def "emoji" "Use emoji in messages." true true;
   mk_param_def "config" "A Hardhat config file." false true;
   mk_param_def "verbose" "Enables Hardhat verbose logging." true true;
   mk_param_def "maxMemory" "The maximum amount of memory that Hardhat can use." false true;
   mk_param_def "tsconfig" "A TypeScript config file." false true;
   mk_param_def "flamegraph" "Generate a flamegraph of your Hardhat tasks." true true;
   mk_param_def "typecheck" "Enable TypeScript type-checking of your scripts and tests." true true].

(** [ArgumentsParser.parseNodeArguments]: a loop over the words.  A word
    of the form [--x] that names a global parameter is parsed wherever it
    stands ([_parseArgumentAt]: not twice, and the next word is the value
    of a parameter that is not a flag); before the task's name any other
    [--x] is an error; the first other word is the task's name, and the
    words after it that are not global parameters are left to the
    task. *)
Fixpoint parse_node_go (args : list string) (globals : task_args) (tname : option string)
    (unparsed : list string) : js_error + (task_args * option string * list string) :=
  match args with
  | [] => inr (globals, tname, unparsed)
  | arg :: rest =>
      if negb (has_param_format arg) then
        match tname with
        | None => parse_node_go rest globals (Some arg) unparsed
        | Some _ => parse_node_go rest globals tname (unparsed ++ [arg])
        end
      else
        name ← cla_to_param_name arg;
        match find_param hardhat_params name with
        | None =>
            match tname with
            | None => inl (err_unrecognized_cla arg)
            | Some _ => parse_node_go rest globals tname (unparsed ++ [arg])
            end
        | Some d =>
            if bool_decide (is_Some (globals !! name)) then inl (err_repeated_param arg)
            else if pd_flag d then parse_node_go rest (<[name := "true"]> globals) tname unparsed
            else match rest with
                 | [] => inl (err_missing_argument (param_name_to_cla name))
                 | v :: rest' => parse_node_go rest' (<[name := v]> globals) tname unparsed
                 end
        end
  end.

Definition parse_node_arguments (argv : list string) : js_error + (task_args * option string * list string) :=
  parse_node_go argv ∅ None [].

(** [ArgumentsParser._parseTaskParamArguments]: the task's words; a
    [--x] must name one of its parameters, the other words are
    positional. *)
Fixpoint parse_task_params_go (defs : list param_def) (args : list string) (parsed : task_args)
    (positional : list string) : js_error + (task_args * list string) :=
  match args with
  | [] => inr (parsed, positional)
  | arg :: rest =>
      if negb (has_param_format arg) then parse_task_params_go defs rest parsed (positional ++ [arg])
      else
        name ← cla_to_param_name arg;
        match find_param defs name with
        | None => inl (err_unrecognized_param arg)
        | Some d =>
            if bool_decide (is_Some (parsed !! name)) then inl (err_repeated_param arg)
            else if pd_flag d then parse_task_params_go defs rest (<[name := "true"]> parsed) positional
            else match rest with
                 | [] => inl (err_missing_argument (param_name_to_cla name))
                 | v :: rest' => parse_task_params_go defs rest' (<[name := v]> parsed) positional
                 end
        end
  end.

(** [_addTaskDefaultArguments]: every parameter that is not optional
    must have been given, checked in the order of declaration. *)
Fixpoint check_required (defs : list param_def) (parsed : task_args) : js_error + unit :=
  match defs with
  | [] => inr tt
  | d :: ds =>
      if bool_decide (is_Some (parsed !! pd_name d)) || pd_optional d then check_required ds parsed
      else inl (err_missing_argument (param_name_to_cla (pd_name d)))
  end.

(** [ArgumentsParser.parseTaskArguments], for a task without positional
    parameters, as the tasks run here are: a positional word left over
    is an error. *)
Definition parse_task_arguments {U} (td : task_def U) (args : list string) : js_error + task_args :=
  '(parsed, positional) ← parse_task_params_go (td_params td) args ∅ [];
  check_required (td_params td) parsed;;
  match positional with
  | [] => inr parsed
  | p :: _ => inl (err_unrecognized_positional p)
  end.

(** ** The tasks of the repository

    Lines 3 to 5 of each task file.  [taskArgs.contract] (line 7) is read
    from the parsed arguments; the command line only runs an action once
    every required parameter has a value ([run_cli_args_complete]). *)
Section Tasks.
Context {U : Type} `{UpkeepContract U}.

Definition keeper_simulation_task : task_def U :=
  setAction (fun taskArgs => keeper_simulation (taskArgs !!! "contract"))
    (addParam "contract" "The address of the Counter contract that you want to call"
       (task "keeper-simulation" "Keeper simulator calls as external to Counter Contract to checkUpKeep")).

Definition keeper_test_task : task_def U :=
  setAction (fun taskArgs => keeper_test (taskArgs !!! "contract"))
    (addParam "contract" "The address of the Keeper simulator contract that you want to call"
       (task "keeper-test" "Keeper simulator calls as external contract to Counter Contract to checkUpKeep")).

(** ** Deploy scripts and their tags

    A script of the [deploy] folder: its file name, the tags it exports
    and its function. *)
Record deploy_script := mk_deploy_script {
  ds_file : string;
  ds_tags : list string;
  ds_func : Script U unit
}.

(** Lines 3 and 29 of [05_Deploy_KeeperSimulation.js]. *)
Definition keeper_simulation_deploy_script : deploy_script :=
  mk_deploy_script "05_Deploy_KeeperSimulation.js" ["all"; "keepers"] deploy_keeper_simulation.

Definition file_le (s1 s2 : deploy_script) : Prop := String.le (ds_file s1) (ds_file s2).

#[local] Instance file_le_dec : RelDecision file_le.
Proof. intros s1 s2. unfold file_le. apply _. Defined.

(** The scripts with a tag, in file order. *)
Definition tag_bag (scripts : list deploy_script) (tag : string) : list deploy_script :=
  filter (fun s => tag ∈ ds_tags s) scripts.

(** A script reached again through another tag is not run twice. *)
Fixpoint dedup_files (seen : list string) (l : list deploy_script) : list deploy_script :=
  match l with
  | [] => []
  | s :: l' =>
      if bool_decide (ds_file s ∈ seen) then dedup_files seen l'
      else s :: dedup_files (ds_file s :: seen) l'
  end.

(** hardhat-deploy's [executeDeployScripts]: the scripts sorted by file
    name; a tag holding a comma is refused; with [--tags], the scripts of
    each tag in turn, each once; without, all of them. *)
Definition scripts_to_run (tags : option (list string)) (scripts : list deploy_script)
    : js_error + list deploy_script :=
  if bool_decide (Exists (fun s => Exists (fun t => "," ∈ String.list_ascii_of_string t)%char (ds_tags s)) scripts)
  then inl (DeployError "Tag cannot contains commas")
  else
    let sorted := merge_sort file_le scripts in
    match tags with
    | None => inr sorted
    | Some ts => inr (dedup_files [] (ts ≫= tag_bag sorted))
    end.

Fixpoint run_scripts (l : list deploy_script) : Script U unit :=
  match l with
  | [] => mret tt
  | s :: l' => ds_func s;; run_scripts l'
  end.

(** hardhat-deploy's [deploy] task, with its [--tags] parameter: a list
    separated by commas. *)
Definition deploy_task (scripts : list deploy_script) : task_def U :=
  setAction (fun taskArgs =>
               l ← of_sum (scripts_to_run (split_on ","%char <$> taskArgs !! "tags") scripts);
               run_scripts l)
    (addOptionalParam "tags" "specify which deploy script to execute via tags, separated by commas"
       (task "deploy" "Deploy contracts")).

(** The tasks a project with these files has: the two tasks, and
    hardhat-deploy's [deploy]. *)
Definition repo_tasks (scripts : list deploy_script) : list (task_def U) :=
  [keeper_simulation_task; keeper_test_task; deploy_task scripts].

(** ** The command line

    [hardhat]'s [main]: parse the words; [--version] prints the version
    and stops; the network is the one given or the configuration's
    default, and must be configured; without a task name, or with
    [--help], the help is printed; a task defined twice is the later
    definition. *)
Inductive cli_result :=
| CliError (e : js_error)
| CliVersion
| CliHelp (about : option string)
| CliRan (r : outcome js_error unit * world U).

Definition find_task (tasks : list (task_def U)) (name : string) : option (task_def U) :=
  last (filter (fun t => td_name t = name) tasks).

Definition run_cli (networks : gmap string (world U)) (defaultNetwork : string)
    (tasks : list (task_def U)) (argv : list string) : cli_result :=
  match parse_node_arguments argv with
  | inl e => CliError e
  | inr (globals, tname, unparsed) =>
      if bool_decide (is_Some (globals !! "version")) then CliVersion
      else
        let net := default defaultNetwork (globals !! "network") in
        match networks !! net with
        | None => CliError (err_network_not_found net)
        | Some w =>
            match tname with
            | None => CliHelp None
            | Some name =>
                match find_task tasks name with
                | None => CliError (err_unrecognized_task name)
                | Some td =>
                    if bool_decide (is_Some (globals !! "help")) then CliHelp (Some name)
                    else match parse_task_arguments td unparsed with
                         | inl e => CliError e
                         | inr args => CliRan (td_action td args w)
                         end
                end
            end
        end
  end.
End Tasks.
Arguments cli_result U : clear implicits.

(** ** What the command line does *)

Section CliFacts.
Context {U : Type} `{UpkeepContract U}.

(** The words of a task's command line: the task's name, then
    [--contract] and its value, which does not start with [--]. *)
Lemma parse_contract_line (name v : string) :
  has_param_format name = false -> has_param_format v = false ->
  parse_node_arguments [name; "--contract"; v] = inr (∅, Some name, ["--contract"; v]).
Proof. intros Hn Hv. unfold parse_node_arguments. cbn. by rewrite Hn, Hv. Qed.

Lemma parse_name_line (name : string) :
  has_param_format name = false -> parse_node_arguments [name] = inr (∅, Some name, []).
Proof. intros Hn. unfold parse_node_arguments. cbn. by rewrite Hn. Qed.

Lemma parse_contract_network_line (name v n : string) :
  has_param_format name = false -> has_param_format v = false ->
  parse_node_arguments [name; "--contract"; v; "--network"; n] =
    inr (<["network" := n]> ∅, Some name, ["--contract"; v]).
Proof. intros Hn Hv. unfold parse_node_arguments. cbn. by rewrite Hn, Hv. Qed.

(** The two tasks take [--contract] and nothing else. *)
Lemma parse_contract_args (td : task_def U) (desc v : string) :
  td_params td = [mk_param_def "contract" desc false false] ->
  parse_task_arguments td ["--contract"; v] = inr {["contract" := v]}.
Proof. intros Hp. unfold parse_task_arguments. rewrite Hp. reflexivity. Qed.

Lemma run_cli_found (networks : gmap string (world U)) (dflt : string) (tasks : list (task_def U))
    (argv : list string) (globals : task_args) (name net : string) (unparsed : list string)
    (td : task_def U) (args : task_args) (w : world U) :
  parse_node_arguments argv = inr (globals, Some name, unparsed) ->
  globals !! "version" = None -> globals !! "help" = None ->
  default dflt (globals !! "network") = net -> networks !! net = Some w ->
  find_task tasks name = Some td -> parse_task_arguments td unparsed = inr args ->
  run_cli networks dflt tasks argv = CliRan (td_action td args w).
Proof.
  intros Hp Hv Hh Hn Hw Ht Ha. unfold run_cli. rewrite Hp, Hv, Hn, Hw, Ht, Hh, Ha. reflexivity.
Qed.
(** An address prints as one word that does not look like a
    parameter. *)
Lemma hex_char_not_space (d : Z) : 0 <= d < 16 -> Ascii.is_space (hex_char d) = false.
Proof.
  intros Hd. replace d with (Z.of_nat (Z.to_nat d)) by lia.
  assert (Z.to_nat d < 16)%nat as Hk by lia. revert Hk. generalize (Z.to_nat d) as k. intros k Hk.
  do 16 (destruct k as [|k]; [reflexivity|]). lia.
Qed.

Lemma hexlify_no_space (bs : list byte) : no_space (hexlify bs) = true.
Proof.
  unfold no_space, hexlify. rewrite String.list_ascii_of_string_of_list_ascii. cbn.
  induction bs as [|b bs IH]; [done|]. destruct (byte_hex_digits b) as [H1 H2]. cbn.
  by rewrite !hex_char_not_space.
Qed.

Lemma address_words (a : Z) : String.words (address_to_string a) = [address_to_string a].
Proof. apply words_single; [unfold address_to_string, hexlify; cbn; done|apply hexlify_no_space]. Qed.

(** The words of the line the deploy script prints (line 26), for a
    network name that is one word. *)
Lemma hint_words (a : Z) (n : string) :
  n <> EmptyString -> no_space n = true ->
  String.words (msg_hint a (JStr n)) =
    ["npx"; "hardhat"; "keeper-test"; "--contract"; address_to_string a; "--network"; n].
Proof.
  intros Hn Hs.
  change (String.words ("npx" +:+ String " " ("hardhat" +:+ String " " ("keeper-test" +:+ String " "
            ("--contract" +:+ String " " (address_to_string a +:+ String " " ("--network" +:+ String " " n)))))) =
          ["npx"; "hardhat"; "keeper-test"; "--contract"; address_to_string a; "--network"; n]).
  rewrite !words_app_space, address_words, (words_single n Hn Hs). reflexivity.
Qed.

Lemma lookup_network_only (n k : string) :
  k <> "network" -> (<["network" := n]> (∅ : task_args)) !! k = None.
Proof. intros Hk. rewrite lookup_insert_ne; [apply lookup_empty|congruence]. Qed.
(** The words a parse leaves to the task are words of the line, and the
    value it gives a parameter that is not a flag is a word of the line:
    by induction on a bound of the line's length, as a parameter's value
    is consumed with its name. *)
Ltac parse_ih IH Hp :=
  match type of Hp with
  | parse_node_go ?l _ _ _ = inr _ => edestruct (IH l) as [Hu|Hu]; [cbn in *; lia|exact Hp|eassumption|..]
  | parse_task_params_go _ ?l _ _ = inr _ => edestruct (IH l) as [Hu|Hu]; [cbn in *; lia|exact Hp|eassumption|eassumption|..]
  end.

Lemma parse_node_go_unparsed (n : nat) (args : list string) (globals : task_args)
    (tname : option string) (unparsed : list string) r :
  (length args <= n)%nat -> parse_node_go args globals tname unparsed = inr r ->
  forall x, x ∈ r.2 -> x ∈ unparsed \/ x ∈ args.
Proof.
  revert args globals tname unparsed. induction n as [|n IH];
    intros [|arg rest] globals tname unparsed Hlen Hp x Hx; cbn in Hlen; try lia;
    try (injection Hp as <-; by left).
  cbn in Hp. destruct (has_param_format arg); cbn in Hp; cbv [mbind sum_bind] in Hp.
  - destruct (cla_to_param_name arg) as [|name]; [discriminate|].
    destruct (find_param hardhat_params name) as [d|]; [case_bool_decide; [discriminate|]|destruct tname; [|discriminate]].
    + destruct (pd_flag d); [|destruct rest as [|v rest']; [discriminate|]];
        parse_ih IH Hp; set_solver.
    + parse_ih IH Hp; rewrite ?elem_of_app, ?list_elem_of_singleton in Hu; set_solver.
  - destruct tname; parse_ih IH Hp; rewrite ?elem_of_app, ?list_elem_of_singleton in Hu; set_solver.
Qed.

Lemma parse_task_params_go_value (n : nat) (defs : list param_def) (args : list string)
    (parsed : task_args) (positional : list string) r (k v : string) :
  (length args <= n)%nat -> parse_task_params_go defs args parsed positional = inr r ->
  (forall d, find_param defs k = Some d -> pd_flag d = false) ->
  r.1 !! k = Some v -> parsed !! k = Some v \/ v ∈ args.
Proof.
  revert args parsed positional. induction n as [|n IH];
    intros [|arg rest] parsed positional Hlen Hp Hk Hv; cbn in Hlen; try lia;
    try (injection Hp as <-; by left).
  cbn in Hp. destruct (has_param_format arg); cbn in Hp; cbv [mbind sum_bind] in Hp.
  - destruct (cla_to_param_name arg) as [|name]; [discriminate|].
    destruct (find_param defs name) as [d|] eqn:Hd; [case_bool_decide; [discriminate|]|discriminate].
    destruct (pd_flag d) eqn:Hf; [|destruct rest as [|w rest']; [discriminate|]];
      parse_ih IH Hp; [| right; by right | |right; by do 2 right];
      (destruct (decide (k = name)) as [->|Hne];
       [rewrite lookup_insert_eq in Hu; simplify_eq; first [by rewrite (Hk d Hd) in Hf|right; by right; left]
       |rewrite lookup_insert_ne in Hu by done; by left]).
  - parse_ih IH Hp; [by left|right; by right].
Qed.
Lemma check_required_spec (defs : list param_def) (parsed : task_args) :
  check_required defs parsed = inr tt ->
  forall d, d ∈ defs -> pd_optional d = false -> is_Some (parsed !! pd_name d).
Proof.
  induction defs as [|d0 ds IH]; cbn; intros Hc d Hd Ho; [by apply elem_of_nil in Hd|].
  destruct (bool_decide _ || pd_optional d0) eqn:E; [|discriminate].
  apply elem_of_cons in Hd as [->|Hd]; [|by apply IH].
  rewrite Ho, orb_false_r in E. by apply bool_decide_eq_true in E.
Qed.

(** A task whose only parameter is the required [--contract] gets, for
    it, a word of the words left to it. *)
Lemma contract_arg_given (td : task_def U) (desc : string) (unparsed : list string) (args : task_args) :
  td_params td = [mk_param_def "contract" desc false false] ->
  parse_task_arguments td unparsed = inr args ->
  exists v, args !! "contract" = Some v /\ v ∈ unparsed.
Proof.
  intros Hp Ha. unfold parse_task_arguments in Ha. cbv [mbind sum_bind] in Ha.
  destruct (parse_task_params_go _ _ _ _) as [|[parsed pos]] eqn:Hg; [discriminate|].
  destruct (check_required _ _) as [|[]] eqn:Hc; [discriminate|]. destruct pos; [|discriminate].
  injection Ha as <-. rewrite Hp in Hc, Hg.
  destruct (check_required_spec _ _ Hc (mk_param_def "contract" desc false false)) as [v Hv];
    [by apply list_elem_of_singleton|done|].
  exists v. split; [exact Hv|].
  assert (Hk : forall d, find_param [mk_param_def "contract" desc false false] "contract" = Some d ->
                pd_flag d = false) by (intros d Hd; by injection Hd as <-).
  destruct (parse_task_params_go_value (length unparsed) _ _ _ _ _ "contract" v (le_n _) Hg Hk Hv) as [He|He];
    [by rewrite lookup_empty in He|exact He].
Qed.
(** [dedup_files] keeps a script whose file name no other script of the
    list has, unless that name was seen before. *)
Lemma dedup_files_elem (seen : list string) (l : list (deploy_script (U := U))) (x : deploy_script) :
  (forall y, y ∈ l -> ds_file y = ds_file x -> y = x) ->
  x ∈ dedup_files seen l <-> x ∈ l /\ ds_file x ∉ seen.
Proof.
  revert seen. induction l as [|s l IH]; intros seen Hu; cbn; [set_solver|].
  assert (Hu' : forall y, y ∈ l -> ds_file y = ds_file x -> y = x) by (intros y Hy; apply Hu; set_solver).
  case_bool_decide as Hs.
  - rewrite IH by done. split; [set_solver|]. intros [[->|Hx]%elem_of_cons Hn]; [done|set_solver].
  - rewrite elem_of_cons, IH by done. split.
    + intros [->|[Hx Hn]]; set_solver.
    + intros [[->|Hx]%elem_of_cons Hn]; [by left|].
      destruct (decide (ds_file s = ds_file x)) as [He|He]; [left; symmetry; apply Hu; set_solver|right; set_solver].
Qed.

End CliFacts.

Section CliTheorems.
Context {U : Type} `{UpkeepContract U}.
Variable (networks : gmap string (world U)) (dflt : string) (scripts : list (deploy_script (U := U))).

(** C20. [npx hardhat keeper-simulation --contract v] and
    [npx hardhat keeper-test --contract v], for a value [v] that does not
    start with [--], run the task's action with [taskArgs.contract = v]
    on the world of the default network. *)
Theorem cli_runs_tasks (v : string) (w : world U) :
  networks !! dflt = Some w -> has_param_format v = false ->
  run_cli networks dflt (repo_tasks scripts) ["keeper-simulation"; "--contract"; v] =
    CliRan (keeper_simulation v w) /\
  run_cli networks dflt (repo_tasks scripts) ["keeper-test"; "--contract"; v] = CliRan (keeper_test v w).
Proof.
  intros Hw Hv. split.
  - erewrite run_cli_found; [| by apply parse_contract_line | done | done | done | exact Hw | done |
                               by eapply parse_contract_args].
    cbn. by rewrite lookup_total_singleton.
  - erewrite run_cli_found; [| by apply parse_contract_line | done | done | done | exact Hw | done |
                               by eapply parse_contract_args].
    cbn. by rewrite lookup_total_singleton.
Qed.

(** C21. The command the deploy script prints (line 26), split into
    words as a shell does and run after [npx hardhat], runs [keeper-test]
    on the KeeperSimulation's address, on the world of the network it
    names: when that name is one word and a configured network. *)
Theorem deploy_hint_runs_keeper_test (a : Z) (n : string) (w : world U) :
  n <> EmptyString -> no_space n = true -> networks !! n = Some w ->
  run_cli networks dflt (repo_tasks scripts) (drop 2 (String.words (msg_hint a (JStr n)))) =
    CliRan (keeper_test (address_to_string a) w).
Proof.
  intros Hn Hs Hw. rewrite hint_words by done. cbn [drop].
  erewrite run_cli_found; [| by apply parse_contract_network_line | by apply lookup_network_only
                           | by apply lookup_network_only | by rewrite lookup_insert_eq | exact Hw | done
                           | by eapply parse_contract_args].
  cbn. by rewrite lookup_total_singleton.
Qed.

(** C22. Without [--contract], either task stops with Hardhat's missing
    argument error before its action runs; with a network that is not
    configured, the command stops before the task is even looked up. *)
Theorem cli_rejects (name v n : string) (w : world U) :
  name = "keeper-simulation" \/ name = "keeper-test" ->
  networks !! dflt = Some w -> has_param_format v = false -> networks !! n = None ->
  run_cli networks dflt (repo_tasks scripts) [name] = CliError (err_missing_argument "--contract") /\
  run_cli networks dflt (repo_tasks scripts) [name; "--contract"; v; "--network"; n] =
    CliError (err_network_not_found n).
Proof.
  intros Hname Hw Hv Hn. unfold run_cli. split.
  - rewrite parse_name_line by (by destruct Hname as [->| ->]). rewrite !lookup_empty. cbn [default].
    rewrite Hw. destruct Hname as [->| ->]; reflexivity.
  - rewrite parse_contract_network_line by (destruct Hname as [->| ->]; done || exact Hv).
    rewrite lookup_network_only, lookup_insert_eq by done. cbn [default from_option id]. by rewrite Hn.
Qed.
(** C23. Whatever the command line, and whatever tasks Hardhat defines
    before the repository's ([compile], [test] and the others, which a
    task of the same name overrides): a run executes the action of a
    defined task, and when that task is [keeper-simulation] or
    [keeper-test] its [contract] argument is present and is a word of the
    line.  The command line never runs either action without its
    [--contract] value. *)
Theorem cli_contract_from_command_line (builtins : list (task_def U)) (argv : list string) r :
  run_cli networks dflt (builtins ++ repo_tasks scripts) argv = CliRan r ->
  exists td args w, td ∈ builtins ++ repo_tasks scripts /\ r = td_action td args w /\
    (td = keeper_simulation_task \/ td = keeper_test_task -> exists v, args !! "contract" = Some v /\ v ∈ argv).
Proof.
  unfold run_cli. destruct (parse_node_arguments argv) as [|[[globals tname] unparsed]] eqn:Hparse; [done|].
  case_bool_decide; [done|]. destruct (networks !! _) as [w|]; [|done]. destruct tname as [name|]; [|done].
  destruct (find_task _ name) as [td|] eqn:Hf; [|done]. case_bool_decide; [done|].
  destruct (parse_task_arguments td unparsed) as [|args] eqn:Ha; [done|]. intros [= <-].
  apply last_Some_elem_of, list_elem_of_filter in Hf as [_ Hf].
  exists td, args, w. split_and!; [done|done|]. intros Htd.
  assert (Hp : exists desc, td_params td = [mk_param_def "contract" desc false false])
    by (destruct Htd as [-> | ->]; eexists; reflexivity).
  destruct Hp as [desc Hp]. destruct (contract_arg_given td desc unparsed args Hp Ha) as (v & Hv & Hu).
  exists v. split; [done|].
  destruct (parse_node_go_unparsed (length argv) argv ∅ None [] _ (le_n _) Hparse v Hu) as [Hn|];
    [by apply elem_of_nil in Hn|done].
Qed.
(** C24. hardhat-deploy runs the KeeperSimulation's deploy script with
    [--tags T] exactly when [T] names [all] or [keepers], the tags it
    exports on line 29, and always without [--tags]: whatever the other
    scripts of the folder, their file names being distinct. *)
Theorem deploy_tags_select (ts : list string) (l : list deploy_script) :
  keeper_simulation_deploy_script ∈ scripts -> NoDup (ds_file <$> scripts) ->
  (scripts_to_run (Some ts) scripts = inr l ->
     keeper_simulation_deploy_script ∈ l <-> "all" ∈ ts \/ "keepers" ∈ ts) /\
  (scripts_to_run None scripts = inr l -> keeper_simulation_deploy_script ∈ l).
Proof.
  intros Hin Hnd. unfold scripts_to_run. case_bool_decide; [split; discriminate|].
  pose proof (merge_sort_Permutation file_le scripts) as Hperm.
  split; intros [= <-]; [|by rewrite Hperm].
  rewrite dedup_files_elem, list_elem_of_bind.
  - setoid_rewrite list_elem_of_filter. setoid_rewrite Hperm. cbn. set_solver.
  - intros y Hy Hf. apply list_elem_of_bind in Hy as (t & Hy & _). apply list_elem_of_filter in Hy as [_ Hy].
    rewrite Hperm in Hy. by apply (NoDup_fmap_key_eq ds_file scripts).
Qed.
End CliTheorems.

(** ** Witnesses on the local network

    Hardhat's in-process network and [localhost] both reach the local
    fixture where the Counter is due; the [deploy] folder holds the
    Counter's script and the KeeperSimulation's. *)
Definition local_networks : gmap string (world counter_state) :=
  {[ "hardhat" := w_due; "localhost" := w_due ]}.

Definition counter_deploy_script : deploy_script (U := counter_state) :=
  mk_deploy_script "01_Deploy_Counter.js" ["all"; "counter"] (mret tt).

Definition local_scripts : list (deploy_script (U := counter_state)) :=
  [keeper_simulation_deploy_script; counter_deploy_script].

Lemma cli_runs_tasks_witness :
  run_cli local_networks "hardhat" (repo_tasks local_scripts) ["keeper-simulation"; "--contract"; counter_addr] =
    CliRan (keeper_simulation counter_addr w_due) /\
  run_cli local_networks "hardhat" (repo_tasks local_scripts) ["keeper-test"; "--contract"; counter_addr] =
    CliRan (keeper_test counter_addr w_due).
Proof. apply (cli_runs_tasks local_networks "hardhat" local_scripts counter_addr w_due); reflexivity. Defined.

Lemma deploy_hint_runs_keeper_test_witness :
  run_cli local_networks "hardhat" (repo_tasks local_scripts) (drop 2 (String.words (msg_hint keeper_at (JStr "localhost")))) =
    CliRan (keeper_test (address_to_string keeper_at) w_due).
Proof.
  apply (deploy_hint_runs_keeper_test local_networks "hardhat" local_scripts keeper_at "localhost" w_due);
    [discriminate|reflexivity|reflexivity].
Defined.

Lemma cli_rejects_witness :
  run_cli local_networks "hardhat" (repo_tasks local_scripts) ["keeper-test"] =
    CliError (err_missing_argument "--contract") /\
  run_cli local_networks "hardhat" (repo_tasks local_scripts) ["keeper-test"; "--contract"; keeper_addr; "--network"; "mainnet"] =
    CliError (err_network_not_found "mainnet").
Proof.
  apply (cli_rejects local_networks "hardhat" local_scripts "keeper-test" keeper_addr "mainnet" w_due);
    [by right|reflexivity|reflexivity|reflexivity].
Defined.

(** Two of Hardhat's built-in tasks, defined before the repository's. *)
Definition hardhat_builtins : list (task_def counter_state) :=
  [setAction (fun _ => mret tt) (task "compile" "Compiles the entire project, building all artifacts");
   setAction (fun _ => mret tt) (task "test" "Runs mocha tests")].

Lemma cli_contract_from_command_line_witness :
  exists td args w, td ∈ hardhat_builtins ++ repo_tasks local_scripts /\
    keeper_simulation counter_addr w_due = td_action td args w /\
    (td = keeper_simulation_task \/ td = keeper_test_task ->
       exists v, args !! "contract" = Some v /\ v ∈ ["keeper-simulation"; "--contract"; counter_addr]).
Proof.
  apply (cli_contract_from_command_line local_networks "hardhat" local_scripts hardhat_builtins
           ["keeper-simulation"; "--contract"; counter_addr]).
  reflexivity.
Defined.

Lemma deploy_tags_select_witness :
  scripts_to_run (Some ["keepers"]) local_scripts = inr [keeper_simulation_deploy_script] /\
  keeper_simulation_deploy_script ∈ [keeper_simulation_deploy_script (U := counter_state)] /\
  (scripts_to_run (Some ["counter"]) local_scripts = inr [counter_deploy_script] /\
   keeper_simulation_deploy_script ∉ [counter_deploy_script]).
Proof.
  assert (Hin : keeper_simulation_deploy_script ∈ local_scripts) by by left.
  assert (Hnd : NoDup (ds_file <$> local_scripts)) by (cbn; repeat constructor; set_solver).
  split; [reflexivity|split].
  - apply (proj1 (deploy_tags_select local_scripts ["keepers"] _ Hin Hnd) eq_refl). right. by left.
  - split; [reflexivity|]. intros Hk.
    apply (proj1 (deploy_tags_select local_scripts ["counter"] _ Hin Hnd) eq_refl) in Hk. set_solver.
Defined.

End Cli.
