(* ===== verification/Workflow.v ===== *)
(** * Workflow: the deploy script, then the tasks

    The spec's end-to-end flow: [hardhat deploy] publishes the
    KeeperSimulation and prints the [keeper-test] command with the new
    address, and the operator runs that command on the world the
    deployment left.  The address goes through the console as a string:
    [address_to_string] prints it, and ethers' [getAddress] reads it back
    ([get_address_to_string]).

    The theorem composes the runs of [Deploy] and [KeeperTestTask]: on an
    automining node, the command the deployment prints reaches the new
    KeeperSimulation, whose [checkUpkeep()] asks the Counter of the
    registry, and the status printed is that Counter's answer.

    The other theorem is about the two tasks: they always end, as
    neither waits for a block, by the rules of [Finish]. *)

From S2P Require Import Spec2Rocq Js Abi Upkeep Ledger World Ethers Hardhat Finish Fixtures KeeperSimulationTask KeeperTestTask Deploy.
Import Js Abi Upkeep Ledger World Ethers Hardhat Finish Fixtures KeeperSimulationTask KeeperTestTask Deploy.

Open Scope Z_scope.

Module Workflow.

Section Flow.
Context {U : Type} `{UpkeepContract U}.

(** The KeeperSimulation a first deployment creates, on the chain it
    leaves: bound to the Counter of the registry, which is still there. *)
Lemma deployed_codes (w : world U) (nn : jsval) (d : Z) (cnt : deployment) (u : U) :
  w_automine w = true -> ch_pending (w_chain w) = [] ->
  ch_code (w_chain w) !! dep_address cnt = Some (CounterCode u) ->
  let a := alloc_address (dom (ch_code (w_chain w))) in
  let c' := w_chain (w_deployed w nn d (dep_address cnt)) in
  ch_code c' !! a = Some (KeeperSimCode (keeper_sim_constructor (dep_address cnt))) /\
  ch_code c' !! dep_address cnt = Some (CounterCode u) /\ ch_pending c' = [].
Proof.
  intros Ha Hp Hc a c'. subst a c'. rewrite w_deployed_chain by exact Ha.
  destruct (mine_create (w_chain w) (next_block_time (w_chain w) (w_clock_ms w / 1000)) d
              (keeper_sim_init (dep_address cnt)) Hp) as [-> _].
  pose proof (proj1 (alloc_address_fresh (dom (ch_code (w_chain w))))) as Hfresh.
  split; [by rewrite lookup_insert_eq|split].
  - rewrite lookup_insert_ne; [done|]. intros Heq. apply Hfresh, elem_of_dom. rewrite Heq. by eexists.
  - by destruct (mine_block_header (next_block_time (w_chain w) (w_clock_ms w / 1000))
                   (submit_tx d (TxCreate (keeper_sim_init (dep_address cnt))) (w_chain w)).2)
      as (_ & _ & _ & ->).
Qed.

(** The address a first deployment allocates prints as an address
    [getAddress] accepts, while the chain holds fewer than [2^160 - 1]
    contracts. *)
Lemma deployed_address_prints (w : world U) :
  Z.of_nat (size (dom (ch_code (w_chain w)))) + 1 < ADDRESS_BOUND ->
  let a := alloc_address (dom (ch_code (w_chain w))) in
  get_address (address_to_string a) = Some a.
Proof.
  intros Hb a. apply get_address_to_string.
  pose proof (proj2 (alloc_address_fresh (dom (ch_code (w_chain w))))). subst a. lia.
Qed.

(** C12. The end-to-end flow of the spec on an automining node: the
    deployment prints the [keeper-test] command with the new address;
    running [keeper-test] with that address on the world the deployment
    left sends [checkUpkeep()] to the new KeeperSimulation, which asks
    the Counter of the registry, and prints that Counter's answer at the
    new block's timestamp. *)
Theorem deploy_then_keeper_test (w : world U) (nn : jsval) (d s : Z) (rest : list Z) (cnt : deployment) (u : U) :
  w_mine_sched w = [] -> w_automine w = true -> ch_pending (w_chain w) = [] ->
  w_named_deployer w = Some d -> w_accounts w = s :: rest ->
  w_artifacts w !! "KeeperSimulation" = Some keeper_sim_abi ->
  network_name_of (w_net_config w) (w_chain_id w) = inr nn ->
  w_deployments w !! "Counter" = Some cnt -> w_deployments w !! "KeeperSimulation" = None ->
  ch_code (w_chain w) !! dep_address cnt = Some (CounterCode u) ->
  Z.of_nat (size (dom (ch_code (w_chain w)))) + 1 < ADDRESS_BOUND ->
  exists w' a, deploy_keeper_simulation w = (Ok tt, w') /\ msg_hint a nn ∈ w_console w' /\
    keeper_test (address_to_string a) w' =
      (Ok tt, add_console
                (msg_status (JBool (checkUpkeep u (next_block_time (w_chain w') (w_clock_ms w' / 1000)) []).1))
                (w_sent w' s (address_to_string a) a)).
Proof.
  intros Hi Ha Hp Hd Hacc Hart Hn Hc Hk Hcode Hb.
  destruct (w_deployed_fields w nn d (dep_address cnt)) as (Hi' & Ha' & Hacc' & Hart' & _).
  destruct (deployed_codes w nn d cnt u Ha Hp Hcode) as (Hks & Hcnt & Hp').
  exists (w_deployed w nn d (dep_address cnt)), (alloc_address (dom (ch_code (w_chain w)))).
  split; [by apply deploy_run_fresh|]. split.
  - unfold w_deployed. cbn [w_console add_console]. rewrite !elem_of_app. left. right.
    by apply list_elem_of_singleton.
  - apply (keeper_test_automined _ s rest) with (k := keeper_sim_constructor (dep_address cnt)) (u := u);
      rewrite ?Hi', ?Ha', ?Hacc', ?Hart'; try done.
    by apply deployed_address_prints.
Qed.
End Flow.

(** ** The scripts finish *)

Section Termination.
Context {U : Type} `{UpkeepContract U}.

(** C25. Whatever the world (mining schedule, artifacts, arguments),
    [keeper-simulation] and [keeper-test] end, with a value or an
    exception: neither waits for a transaction to be mined, as the spec's
    fire-and-forget submissions say. *)
Theorem tasks_finish (contractAddr : string) (w : world U) :
  (keeper_simulation contractAddr w).1 <> Blocked /\ (keeper_test contractAddr w).1 <> Blocked.
Proof.
  assert (Hs : finishes (fun _ => True) (keeper_simulation contractAddr))
    by (unfold keeper_simulation, perform_upkeep; solve_finishes).
  assert (Ht : finishes (fun _ => True) (keeper_test contractAddr))
    by (unfold keeper_test, report_status; solve_finishes).
  split; [apply (Hs w I)|apply (Ht w I)].
Qed.

End Termination.

(** The flow on the local network: the KeeperSimulation is deployed at
    address 2, and [keeper-test] with the printed address reaches it. *)
Lemma deploy_then_keeper_test_witness :
  exists w' a, deploy_keeper_simulation w_deploy_fresh = (Ok tt, w') /\ msg_hint a (JStr "localhost") ∈ w_console w' /\
    keeper_test (address_to_string a) w' =
      (Ok tt, add_console
                (msg_status (JBool (checkUpkeep (counter_since 0)
                                      (next_block_time (w_chain w') (w_clock_ms w' / 1000)) []).1))
                (w_sent w' deployer (address_to_string a) a)).
Proof.
  apply (deploy_then_keeper_test w_deploy_fresh (JStr "localhost") deployer deployer [101]
           (mk_deployment counter_at []) (counter_since 0)); fixture_facts.
Defined.

End Workflow.
